(** * Syzygia: a shallow embedding of the package manager and its checked properties

    The development follows the layout of the Python sources:

    - [PyStr], [PyExc], [PyDict], [Pathlib]: the parts of Python the sources
      rely on ([str] methods and [os.path], exceptions, insertion-ordered
      dictionaries, [pathlib] paths);
    - [Validator], [Regex], [ValidatorDeps], [ValidatorFiles]:
      [syzygia/utils/validator.py] and the regular expressions it uses;
    - [Net], [Downloader]: the transport and file system a download runs in,
      and [syzygia/utils/downloader.py];
    - [Mirror], [Delivery]: [syzygia/mirror.py];
    - [Repo], [Repository], [RepositoryManager]: [syzygia/repo.py];
    - [Pkg], [PyText], [PkgMore]: [syzygia/package.py] and the handlers of
      [syzygia/cli.py];
    - [Config]:     the mirror list of [syzygia/config.py];
    - [SpecWords], [FetchTrace]: the wording of the specification where a
      property compares it with the code;
    - [Examples], [MemFS]: concrete transports, mirror lists and a file
      system in memory, to run the embedding.

    What the environment decides is a parameter of the functions it bears
    on: the answers of the servers, the digests, whether a removal is
    refused, which paths are directories and which lead to one file.

    Definitions come first, the lemmas and theorems about them follow. *)

From Stdlib Require Import ZArith Lia Bool Ascii String List.
From stdpp Require Import base option list strings gmap.

Open Scope string_scope.

(* ===================================================================== *)
(** ** Python strings *)
(* ===================================================================== *)

(** A Python [str] is modelled by a Rocq [string], whose characters are read
    as the code points U+0000 to U+00FF.  Every character class the sources
    test is a class of ASCII characters; a character outside ASCII is
    outside each of the regular-expression classes below, exactly as in
    Python. *)
Module PyStr.

Definition code (c : ascii) : N := N_of_ascii c.

Definition in_range (lo hi : N) (c : ascii) : bool :=
    ((lo <=? code c) && (code c <=? hi))%N.

  (** [c.isdigit()], [c.isalpha()], [c.isalnum()] on an ASCII character. *)
Definition isdigit (c : ascii) : bool := in_range 48 57 c.
Definition isupper (c : ascii) : bool := in_range 65 90 c.
Definition islower (c : ascii) : bool := in_range 97 122 c.
Definition isalpha (c : ascii) : bool := isupper c || islower c.
Definition isalnum (c : ascii) : bool := isalpha c || isdigit c.

Definition ascii_eqb (a b : ascii) : bool := Ascii.eqb a b.

  (** Membership of a character in an explicit set, as in a [[...]] class. *)
Definition one_of (cs : string) (c : ascii) : bool :=
    existsb (ascii_eqb c) (list_ascii_of_string cs).

Definition chars (s : string) : list ascii := list_ascii_of_string s.

  (** [s[-1]] of a string whose first character is [c] and rest is [s]. *)
Fixpoint last_char (c : ascii) (s : string) : ascii :=
    match s with
    | EmptyString => c
    | String c' s' => last_char c' s'
    end.

  (** [bool(s)]: a string is truthy when it is not empty. *)
Definition truthy (s : string) : bool :=
    match s with EmptyString => false | String _ _ => true end.

Definition newline : ascii := ascii_of_N 10.

  (** [re.match(r'^[cls]+$', s)] for a character class [cls].  Without the
      MULTILINE flag, [$] matches at the very end of the string and also just
      before a newline that is the last character, so the match succeeds on
      one or more class characters optionally followed by one final newline
      (the class has to exclude the newline, which holds for the classes of
      the sources). *)
Fixpoint match_class_plus_tail (cls : ascii -> bool) (s : string) : bool :=
    match s with
    | EmptyString => true
    | String c EmptyString => cls c || ascii_eqb c newline
    | String c s' => cls c && match_class_plus_tail cls s'
    end.

Definition re_match_class_plus (cls : ascii -> bool) (s : string) : bool :=
    match s with
    | EmptyString => false
    | String c s' => cls c && match_class_plus_tail cls s'
    end.

  (** [s.startswith(p)] and [s.endswith("/")]. *)
Definition startswith (p s : string) : bool := String.prefix p s.

Definition endswith_char (c : ascii) (s : string) : bool :=
    match s with
    | EmptyString => false
    | String c0 s' => ascii_eqb (last_char c0 s') c
    end.

  (** [s.lstrip(c)] and [s.rstrip(c)] for a one-character argument. *)
Fixpoint lstrip (c : ascii) (s : string) : string :=
    match s with
    | EmptyString => EmptyString
    | String c' s' => if ascii_eqb c' c then lstrip c s' else s
    end.

Fixpoint rstrip (c : ascii) (s : string) : string :=
    match s with
    | EmptyString => EmptyString
    | String c' s' =>
        match rstrip c s' with
        | EmptyString => if ascii_eqb c' c then EmptyString else String c' EmptyString
        | r => String c' r
        end
    end.

  (** [s.split(c)] for a one-character separator: the fields between the
      occurrences of [c]; always at least one field. *)
Fixpoint split (c : ascii) (s : string) : list string :=
    match s with
    | EmptyString => [EmptyString]
    | String c' s' =>
        if ascii_eqb c' c then EmptyString :: split c s'
        else match split c s' with
             | [] => [String c' EmptyString]
             | f :: fs => String c' f :: fs
             end
    end.

  (** [sep.join(parts)]. *)
Fixpoint join (sep : string) (parts : list string) : string :=
    match parts with
    | [] => EmptyString
    | [p] => p
    | p :: ps => p ++ sep ++ join sep ps
    end.

  (** [s.replace(old, new)] for a non-empty [old]: occurrences are replaced
      from left to right without overlap.  [skip] counts the characters of
      a match that are still to be dropped. *)
Fixpoint replace_from (old new : string) (skip : nat) (s : string) : string :=
    match s with
    | EmptyString => EmptyString
    | String c s' =>
        match skip with
        | S k => replace_from old new k s'
        | O =>
            if startswith old s
            then new ++ replace_from old new (String.length old - 1) s'
            else String c (replace_from old new 0 s')
        end
    end.

Definition replace (old new s : string) : string := replace_from old new 0 s.

  (** [s.lower()]: the capital letters below U+0100 are [A] to [Z] and
      U+00C0 to U+00DE without the multiplication sign U+00D7; the small
      letter of each is 32 code points above it. *)
Definition lower_char (c : ascii) : ascii :=
    if isupper c || (in_range 192 222 c && negb (code c =? 215)%N)
    then ascii_of_N (code c + 32) else c.

Fixpoint lower (s : string) : string :=
    match s with
    | EmptyString => EmptyString
    | String c s' => String (lower_char c) (lower s')
    end.

  (** [p[:p.rfind("/") + 1]]: the part of [p] up to and including its last
      slash (empty when there is none). *)
Fixpoint upto_last_slash (p : string) : string :=
    match p with
    | EmptyString => EmptyString
    | String c p' =>
        match upto_last_slash p' with
        | EmptyString => if ascii_eqb c "/" then String c EmptyString else EmptyString
        | h => String c h
        end
    end.

  (** [os.path.dirname(p)] (posixpath). *)
Definition dirname (p : string) : string :=
    let head := upto_last_slash p in
    if truthy head && truthy (lstrip "/" head) then rstrip "/" head else head.

  (** [os.path.basename(p)] (posixpath): what follows the last slash. *)
Definition basename (p : string) : string :=
    default EmptyString (last (split "/" p)).

  (** [os.path.join(a, b)] (posixpath). *)
Definition path_join (a b : string) : string :=
    if startswith "/" b then b
    else if negb (truthy a) || endswith_char "/" a then a ++ b
    else a ++ "/" ++ b.

End PyStr.

(* ===================================================================== *)
(** ** syzygia/utils/validator.py *)
(* ===================================================================== *)

(** The functions are modelled as their bodies are written.  (The docstring
    of the module opens with two quotes where three are meant, so the file
    as it stands is refused by the interpreter.) *)
Module Validator.
Import PyStr.

  (** The class [[a-zA-Z0-9@._+-]]. *)
Definition name_class (c : ascii) : bool := isalnum c || one_of "@._+-" c.

  (** The class [[a-zA-Z0-9._+:~-]]. *)
Definition version_class (c : ascii) : bool := isalnum c || one_of "._+:~-" c.

Definition validate_package_name (name : string) : bool * string :=
    match name with
    | EmptyString => (false, "Package name cannot be empty")
    | String c0 rest =>
        if negb (re_match_class_plus name_class name) then
          (false, "Package name contains invalid characters. Only alphanumeric, @, ., _, +, - are allowed.")
        else if negb (isalnum c0) then
          (false, "Package name must start with an alphanumeric character")
        else if negb (isalnum (last_char c0 rest) || ascii_eqb (last_char c0 rest) "_") then
          (false, "Package name must end with an alphanumeric character or underscore")
        else (true, EmptyString)
    end.

Definition validate_package_version (version : string) : bool * string :=
    match version with
    | EmptyString => (false, "Version cannot be empty")
    | String c0 _ =>
        if negb (isdigit c0) then
          (false, "Version must start with a digit")
        else if negb (re_match_class_plus version_class version) then
          (false, "Version contains invalid characters")
        else (true, EmptyString)
    end.

End Validator.

(** Python exceptions: a call returns a value or raises (the string is the
    text of the exception). *)
Module PyExc.

Inductive result (A : Type) :=
| Return (a : A)
| Raise (exc : string).
Arguments Return {A} a.
Arguments Raise {A} exc.

End PyExc.

(* ===================================================================== *)
(** ** The world a download runs in: transport and file system *)
(* ===================================================================== *)

(** The sources download with [requests] and write with [open], [os.remove]
    and [shutil.copy2].  The model keeps what the properties below observe: the files
    (a finite map from path to content, bytes as a string), and the trace of
    transfers and of [time.sleep] calls.  Directories are implicit, calls to
    the file system succeed unless stated otherwise at their use, and console
    output ([print], [tqdm]) is left out of these two modules. *)
Module Net.

Inductive Event :=
| Get (url : string)          (* requests.get(url, stream=True, ...) *)
| Copy (src : string)         (* shutil.copy2(src, ...) *)
| Sleep (seconds : Z).        (* time.sleep(seconds) *)

(** The [content-length] header of an answer: absent, an integer literal, or
    text on which [int()] raises. *)
Inductive ContentLength :=
| CL_absent
| CL_int (n : Z)
| CL_malformed.

(** What the transport does with one GET: the connection fails (a
    [RequestException] before any answer), or a status line and headers
    arrive, followed by the chunks [iter_content] yields; [complete = false]
    stands for a transport error raised after the last chunk listed. *)
Inductive Response :=
| ConnectFailed
| Answer (status : Z) (content_length : ContentLength)
         (body : list string) (complete : bool).

(** The transport answers as a function of everything that happened before
    and of the URL. *)
Definition Transport : Type := list Event -> string -> Response.

Record World := mkWorld {
  fs : gmap string string;
  trace : list Event
}.

Definition log (e : Event) (w : World) : World :=
  {| fs := fs w; trace := trace w ++ [e] |}.

(** [open(path, 'wb')] followed by the writes: the file holds [content]. *)
Definition write_file (path content : string) (w : World) : World :=
  {| fs := <[path := content]> (fs w); trace := trace w |}.

(** [os.remove(path)] of a file, also [if os.path.exists(path): os.remove(path)]. *)
Definition remove_file (path : string) (w : World) : World :=
  {| fs := delete path (fs w); trace := trace w |}.

(** Whether the file system refuses [os.remove(path)] with an [OSError], as
    a function of everything that happened before and of the path. *)
Definition Removal : Type := list Event -> string -> bool.

(** [response.raise_for_status()] raises [HTTPError] on 4xx and 5xx. *)
Definition status_raises (status : Z) : bool :=
  ((400 <=? status) && (status <? 600))%Z.

(** Concatenation of the chunks written one after the other. *)
Definition concat_chunks (body : list string) : string :=
  fold_right String.append EmptyString body.

End Net.

(* ===================================================================== *)
(** ** syzygia/utils/downloader.py *)
(* ===================================================================== *)

Module Downloader.
Import PyStr Net.

Section WithEnvironment.

Variable transport : Transport.

(** [hashlib]: [getattr(hashlib, name, None)] and, for a supported name, the
    hexadecimal digest of some content. *)
Variable hashlib : string -> option (string -> string).

(** [os.remove] in [download_with_retry], which catches its [OSError]. *)
Variable os_remove_raises : Removal.

(** [download_file(url, destination, chunk_size)].  The chunk size only fixes
    where the body is cut into chunks, not the bytes written.  The removals
    of the destination in this function are taken to succeed: refused, they
    raise out of it. *)
Definition download_file (url destination : string) (chunk_size : Z)
    (w : World) : bool * World :=
  let w1 := log (Get url) w in
  match transport (trace w) url with
  | ConnectFailed =>
      (* except RequestException: remove the destination if it exists *)
      (false, remove_file destination w1)
  | Answer status content_length body complete =>
      if status_raises status then (false, remove_file destination w1)
      else
        match content_length with
        | CL_malformed =>
            (* int(...) raises ValueError: except Exception *)
            (false, remove_file destination w1)
        | _ =>
            let total_size :=
              match content_length with CL_int n => n | _ => 0%Z end in
            let w2 :=
              write_file destination (concat_chunks (List.filter truthy body)) w1 in
            if negb complete then
              (* iter_content raises while the file is open *)
              (false, remove_file destination w2)
            else
              let getsize :=
                Z.of_nat (String.length (default EmptyString (fs w2 !! destination))) in
              if negb (total_size =? 0)%Z && negb (getsize =? total_size)%Z
              then (false, remove_file destination w2)
              else (true, w2)
        end
  end.

(** [verify_checksum(file_path, checksum, algorithm)]. *)
Definition verify_checksum (file_path checksum algorithm : string)
    (w : World) : bool :=
  match fs w !! file_path with
  | None => false
  | Some content =>
      match hashlib (lower algorithm) with
      | None => false
      | Some hexdigest => String.eqb (lower (hexdigest content)) (lower checksum)
      end
  end.

(** [range(n)]. *)
Definition range (n : Z) : list Z := map Z.of_nat (seq 0 (Z.to_nat n)).

(** The body of the [for attempt in range(max_retries)] loop of
    [download_with_retry], over the attempts still to run. *)
Fixpoint retry_loop (url destination : string) (max_retries : Z)
    (checksum : option string) (checksum_algorithm : string) (chunk_size : Z)
    (attempts : list Z) (w : World) : bool * World :=
  match attempts with
  | [] => (false, w)
  | attempt :: rest =>
      let backoff (w' : World) : bool * World :=
        let w'' :=
          if (attempt <? max_retries - 1)%Z
          then log (Sleep (2 ^ attempt)%Z) w' else w' in
        retry_loop url destination max_retries checksum checksum_algorithm
                   chunk_size rest w'' in
      let '(ok, w1) := download_file url destination chunk_size w in
      if ok then
        match checksum with
        | Some c =>
            if truthy c then
              if verify_checksum destination c checksum_algorithm w1
              then (true, w1)
              else
                (* try: os.remove(dest_path); except OSError: a warning is
                   printed and the file stays *)
                backoff (if os_remove_raises (trace w1) destination then w1
                         else remove_file destination w1)
            else (true, w1)
        | None => (true, w1)
        end
      else backoff w1
  end.

Definition download_with_retry (url destination : string) (max_retries : Z)
    (checksum : option string) (checksum_algorithm : string) (chunk_size : Z)
    (w : World) : bool * World :=
  retry_loop url destination max_retries checksum checksum_algorithm chunk_size
             (range max_retries) w.

End WithEnvironment.

(** The defaults of the keyword arguments. *)
Definition default_max_retries : Z := 3.
Definition default_checksum_algorithm : string := "sha256".
Definition default_chunk_size : Z := 8192.

End Downloader.

(* ===================================================================== *)
(** ** syzygia/mirror.py *)
(* ===================================================================== *)

Module Mirror.
Import PyStr PyExc Net.

Record MirrorManager := mkMirrorManager {
  mirrors : list string;
  mirror_stats : list (string * Z);   (* created empty, never written *)
  _timeout : Z
}.

(** [random.choice(seq)] returns [seq[i]] for an index [i] below [len(seq)]
    drawn from the generator; [draw] is the number the generator hands out. *)
Definition random_choice {A} (draw : nat) (l : list A) : option A :=
  l !! (draw mod length l)%nat.

Definition get_best_mirror (self : MirrorManager) (draw : nat) : option string :=
  match mirrors self with
  | [] => None
  | _ => random_choice draw (mirrors self)
  end.

Section WithTransport.

Variable transport : Transport.

(** The files are kept by the text of their path.  What the file system
    knows beyond their content it answers here: [isdir p], whether [p] names
    a directory once the directories of the destination are made, and
    [samefile p q], whether the two paths lead to one file under different
    spellings or through links.  Neither changes during a call of
    [download_file], which makes no directory but those of the destination
    and no link. *)
Variable isdir : string -> bool.
Variable samefile : string -> string -> bool.

(** [os.path.isdir(path)]; a path that ends in a slash names a directory,
    the one [os.makedirs] has made or found. *)
Definition is_directory (path : string) : bool :=
  endswith_char "/" path || isdir path.

(** [shutil._samefile(src, dst)] for a source that exists; one spelling is
    one file. *)
Definition same_file (src dst : string) : bool :=
  String.eqb src dst || samefile src dst.

(** [os.makedirs(os.path.dirname(destination), exist_ok=True)] raises
    [FileNotFoundError] on the empty path, that is, when [destination] has
    no directory part. *)
Definition makedirs_raises (destination : string) : bool :=
  negb (truthy (dirname destination)).

Definition _download_remote (self : MirrorManager)
    (base_url file_path destination : string) (w : World) : result bool * World :=
  let url := rstrip "/" base_url ++ "/" ++ lstrip "/" file_path in
  if makedirs_raises destination then (Raise "FileNotFoundError", w)
  else
    let w1 := log (Get url) w in
    match transport (trace w) url with
    | ConnectFailed => (Raise "RequestException", w1)
    | Answer status _ body complete =>
        if status_raises status then (Raise "HTTPError", w1)
        else if is_directory destination then
          (* open(destination, 'wb') on a directory *)
          (Raise "IsADirectoryError", w1)
        else
          let w2 := write_file destination (concat_chunks body) w1 in
          if complete then (Return true, w2)
          else (Raise "RequestException", w2)
    end.

(** [shutil.copy2(src, dst)]: a directory [dst] stands for the file named as
    [src] inside it.  A source that does not exist is the same file as
    nothing, and opening it raises; copying a file onto itself raises; then
    the target is opened, which raises when it is a directory. *)
Definition copy2 (src dst : string) (w : World) : result unit * World :=
  let dst := if is_directory dst then path_join dst (basename src) else dst in
  match fs w !! src with
  | None => (Raise "FileNotFoundError", w)
  | Some content =>
      if same_file src dst then (Raise "SameFileError", w)
      else if is_directory dst then (Raise "IsADirectoryError", w)
      else (Return tt, write_file dst content w)
  end.

Definition _download_local (self : MirrorManager)
    (base_path file_path destination : string) (w : World) : result bool * World :=
  let src_path := path_join (replace "file://" EmptyString base_path) (lstrip "/" file_path) in
  if makedirs_raises destination then (Raise "FileNotFoundError", w)
  else
    match copy2 src_path destination (log (Copy src_path) w) with
    | (Return _, w1) => (Return true, w1)
    | (Raise e, w1) => (Raise e, w1)
    end.

(** The loop of [download_file] over the mirrors still to try: the first
    mirror whose download returns ends the loop with its value; a mirror
    whose download raises is skipped. *)
Fixpoint download_loop (self : MirrorManager) (file_path destination : string)
    (todo : list string) (w : World) : bool * World :=
  match todo with
  | [] => (false, w)
  | mirror :: rest =>
      let '(r, w1) :=
        if startswith "file://" mirror
        then _download_local self mirror file_path destination w
        else _download_remote self mirror file_path destination w in
      match r with
      | Return b => (b, w1)
      | Raise _ => download_loop self file_path destination rest w1
      end
  end.

Definition download_file (self : MirrorManager) (file_path destination : string)
    (w : World) : bool * World :=
  download_loop self file_path destination (mirrors self) w.

End WithTransport.

End Mirror.


(* ===================================================================== *)
(** ** Python dictionaries and pathlib paths *)
(* ===================================================================== *)

(** A [dict] with string keys keeps its entries in insertion order, which the
    sources observe when they iterate ([values()], [keys()]). *)
Module PyDict.

Definition dict (V : Type) : Type := list (string * V).

Section Operations.
Context {V : Type}.

(** [d.get(k)] *)
Fixpoint get (k : string) (d : dict V) : option V :=
  match d with
  | [] => None
  | (k', v) :: d' => if String.eqb k' k then Some v else get k d'
  end.

(** [k in d] *)
Definition contains (k : string) (d : dict V) : bool :=
  match get k d with Some _ => true | None => false end.

(** [d[k] = v]: an existing key keeps its place, a new key goes last. *)
Fixpoint set (k : string) (v : V) (d : dict V) : dict V :=
  match d with
  | [] => [(k, v)]
  | (k', v') :: d' =>
      if String.eqb k' k then (k, v) :: d' else (k', v') :: set k v d'
  end.

(** [del d[k]] *)
Definition del (k : string) (d : dict V) : dict V :=
  List.filter (fun kv => negb (String.eqb (fst kv) k)) d.

Definition keys (d : dict V) : list string := map fst d.
Definition values (d : dict V) : list V := map snd d.

End Operations.
End PyDict.

(** [pathlib.PurePosixPath]: a root and the list of the components. *)
Module Pathlib.
Import PyStr.

Record Path := mkPath { root : string; parts : list string }.

Definition parse_root (s : string) : string :=
  if startswith "/" s then
    if (String.length s - String.length (lstrip "/" s) =? 2)%nat then "//" else "/"
  else EmptyString.

(** Empty components and [.] are dropped, [..] is kept. *)
Definition parse_parts (s : string) : list string :=
  List.filter (fun x => truthy x && negb (String.eqb x ".")) (split "/" s).

(** [Path(s)] *)
Definition of_string (s : string) : Path := mkPath (parse_root s) (parse_parts s).

(** [p / s]: an absolute right operand replaces the left one. *)
Definition joinpath (p : Path) (s : string) : Path :=
  let q := of_string s in
  if truthy (root q) then q else mkPath (root p) (parts p ++ parts q).

(** [str(p)] *)
Definition str (p : Path) : string :=
  match root p, parts p with
  | EmptyString, [] => "."
  | r, ps => r ++ join "/" ps
  end.

(** [p.name]: the last component, empty when there is none. *)
Definition name (p : Path) : string := default EmptyString (last (parts p)).

End Pathlib.

(* ===================================================================== *)
(** ** syzygia/repo.py *)
(* ===================================================================== *)

Module Repo.
Import PyDict.

Record Repository := mkRepository {
  name : string;
  url : string;
  sig_level : string;
  packages : dict (dict string);
  _initialized : bool
}.

(** [Repository(name, url, sig_level="Optional")] *)
Definition Repository_init (name url : string) (sig_level : option string) : Repository :=
  {| name := name;
     url := url;
     sig_level := default "Optional" sig_level;
     packages := [];
     _initialized := false |}.

(** [Repository.initialize]: returns the result and the object afterwards. *)
Definition initialize (self : Repository) : bool * Repository :=
  if _initialized self then (true, self)
  else
    (true, {| name := name self; url := url self; sig_level := sig_level self;
              packages := packages self; _initialized := true |}).

Record RepositoryManager := mkRepositoryManager {
  repos : dict Repository
}.

(** [RepositoryManager.add_repo(name, url, sig_level="Optional")] *)
Definition add_repo (self : RepositoryManager) (name url : string)
    (sig_level : option string) : bool * RepositoryManager :=
  if contains name (repos self) then (false, self)
  else
    let repo := Repository_init name url sig_level in
    let '(ok, repo') := initialize repo in
    if negb ok then (false, self)
    else (true, {| repos := set name repo' (repos self) |}).

End Repo.


(* ===================================================================== *)
(** ** syzygia/package.py and the upgrade handler of syzygia/cli.py *)
(* ===================================================================== *)

Module Pkg.
Import PyStr PyExc PyDict Pathlib.

Record Package := mkPackage {
  name : string;
  version : string;
  description : string;
  depends : list string;
  provides : list string;
  conflicts : list string;
  size : Z;
  url : string;
  packager : string
}.

(** [Package(name, version, description='', depends=None, provides=None,
    conflicts=None, size=0, url='', packager='')]: the arguments are stored as
    they come, [None] and the empty list both give the empty list. *)
Definition Package_init (name version description : string)
    (depends provides conflicts : option (list string))
    (size : Z) (url packager : string) : Package :=
  {| name := name;
     version := version;
     description := description;
     depends := default [] depends;
     provides := default [] provides;
     conflicts := default [] conflicts;
     size := size;
     url := url;
     packager := packager |}.

(** The attributes of a [PackageManager] that its methods use. *)
Record PackageManager := mkPackageManager {
  db_path : Path;
  cache_dir : Path;
  installed_pkgs : dict Package;
  available_pkgs : dict (list Package)
}.

(** The file system is a collaborator of the package manager: the model is
    parametric in its state and in what each call does with it, including
    whether the call raises. *)
Class FileSystem := {
  FS : Type;
  (** [path.touch()] *)
  fs_touch : Path -> FS -> result unit * FS;
  (** [path.mkdir(parents=True, exist_ok=True)] *)
  fs_mkdir : Path -> FS -> result unit * FS;
  (** [with open(path, 'w') as f:] and the writes of the given text *)
  fs_write : Path -> string -> FS -> result unit * FS;
  (** [path.exists()] *)
  fs_exists : Path -> FS -> bool;
  (** [shutil.rmtree(path)] *)
  fs_rmtree : Path -> FS -> result unit * FS
}.

Section WithFileSystem.
Context {filesystem : FileSystem}.

(** What a method runs in: the manager object, the disk and the console. *)
Record World := mkWorld {
  self : PackageManager;
  disk : FS;
  stdout : list string
}.

(** [self.cache_dir / f"{pkg_name}-1.0.0.pkg.tar.zst"] *)
Definition cache_file (me : PackageManager) (pkg_name : string) : Path :=
  joinpath (cache_dir me) (pkg_name ++ "-1.0.0.pkg.tar.zst").

(** [self.db_path / 'local' / package_name] *)
Definition package_dir (me : PackageManager) (package_name : string) : Path :=
  joinpath (joinpath (db_path me) "local") package_name.

(** A method body: it returns or raises, and leaves a world behind. *)
Definition M (A : Type) : Type := World -> result A * World.

Definition ret {A} (a : A) : M A := fun w => (Return a, w).

Definition bind {A B} (m : M A) (k : A -> M B) : M B :=
  fun w =>
    match m w with
    | (Return a, w') => k a w'
    | (Raise e, w') => (Raise e, w')
    end.

(** [try: m except Exception as e: handler(str(e))] *)
Definition try_except {A} (m : M A) (handler : string -> M A) : M A :=
  fun w =>
    match m w with
    | (Return a, w') => (Return a, w')
    | (Raise e, w') => handler e w'
    end.

Notation "x <- m ;; k" := (bind m (fun x => k))
  (at level 100, m at next level, k at level 200, right associativity).
Notation "m >> k" := (bind m (fun _ => k))
  (at level 100, k at level 200, right associativity).

(** The world after some lines went to the console. *)
Definition printed (lines : list string) (w : World) : World :=
  {| self := self w; disk := disk w; stdout := stdout w ++ lines |}.

Definition print (line : string) : M unit :=
  fun w => (Return tt, printed [line] w).

Definition get_self : M PackageManager := fun w => (Return (self w), w).

Definition set_installed_pkgs (d : dict Package) : M unit :=
  fun w =>
    (Return tt,
     {| self := {| db_path := db_path (self w); cache_dir := cache_dir (self w);
                   installed_pkgs := d; available_pkgs := available_pkgs (self w) |};
        disk := disk w; stdout := stdout w |}).

(** A call of the file system on the disk of the world. *)
Definition on_disk (op : FS -> result unit * FS) : M unit :=
  fun w =>
    let '(r, d) := op (disk w) in
    (r, {| self := self w; disk := d; stdout := stdout w |}).

Definition path_exists (p : Path) : M bool :=
  fun w => (Return (fs_exists p (disk w)), w).

(** The six lines [_install_package] writes to the [desc] file. *)
Definition desc_text (pkg_name pkg_file : string) : string :=
  "name: " ++ pkg_name ++ String newline
  ("version: 1.0.0" ++ String newline
  ("description: Installed from " ++ pkg_file ++ String newline
  ("depends: " ++ String newline
  ("provides: " ++ pkg_name ++ String newline
  ("conflicts: " ++ String newline EmptyString))))).

(** [pkg_file.name.split('-')[0]] *)
Definition name_of_file (pkg_file : Path) : string :=
  default EmptyString (head (split "-" (Pathlib.name pkg_file))).

(** The [Package(...)] that [_install_package] creates for a file. *)
Definition package_of_file (pkg_file : Path) : Package :=
  let pkg_name := name_of_file pkg_file in
  Package_init pkg_name "1.0.0" ("Installed from " ++ str pkg_file)
               (Some []) (Some [pkg_name]) (Some []) 0 EmptyString EmptyString.

Definition _install_package (pkg_file : Path) : M bool :=
  print ("Installing package from " ++ str pkg_file) >>
  let pkg_name := name_of_file pkg_file in
  let pkg := package_of_file pkg_file in
  me <- get_self ;;
  set_installed_pkgs (set pkg_name pkg (installed_pkgs me)) >>
  let pkg_dir := package_dir me pkg_name in
  on_disk (fs_mkdir pkg_dir) >>
  on_disk (fs_write (joinpath pkg_dir "desc") (desc_text pkg_name (str pkg_file))) >>
  print ("Successfully installed " ++ pkg_name) >>
  ret true.

Definition list_installed : M (list Package) :=
  me <- get_self ;; ret (values (installed_pkgs me)).

(** The [for pkg_name in package_names] loop of [install]. *)
Fixpoint install_loop (package_names : list string) (success : bool) : M bool :=
  match package_names with
  | [] => ret success
  | pkg_name :: rest =>
      me <- get_self ;;
      if contains pkg_name (installed_pkgs me) then
        print ("Package " ++ pkg_name ++ " is already installed") >>
        install_loop rest success
      else
        let pkg_file := cache_file me pkg_name in
        on_disk (fs_touch pkg_file) >>
        ok <- _install_package pkg_file ;;
        if ok : bool then
          print ("Successfully installed " ++ pkg_name) >>
          install_loop rest success
        else
          print ("Failed to install package: " ++ pkg_name) >>
          install_loop rest false
  end.

Definition install (package_names : list string) (nodeps : bool) : M bool :=
  install_loop package_names true.

(** The names of the packages of [installed_pkgs] that list [package_name]
    in their [depends], in the order of the dictionary. *)
Definition dependents_of (package_name : string) (installed : dict Package) : list string :=
  map name
      (List.filter (fun pkg => existsb (String.eqb package_name) (depends pkg))
                   (values installed)).

Definition _find_dependents (package_name : string) : M (list string) :=
  me <- get_self ;;
  ret (dependents_of package_name (installed_pkgs me)).

Definition _remove_package (package_name : string) : M bool :=
  try_except
    (me <- get_self ;;
     let pkg_dir := package_dir me package_name in
     there <- path_exists pkg_dir ;;
     (if there : bool then on_disk (fs_rmtree pkg_dir) else ret tt) >>
     me' <- get_self ;;
     (if contains package_name (installed_pkgs me')
      then set_installed_pkgs (del package_name (installed_pkgs me'))
      else ret tt) >>
     ret true)
    (fun e =>
       print ("Error removing package " ++ package_name ++ ": " ++ e) >>
       ret false).

Fixpoint print_all (lines : list string) : M unit :=
  match lines with
  | [] => ret tt
  | l :: ls => print l >> print_all ls
  end.

(** The [for pkg_name in package_names] loop of [remove]. *)
Fixpoint remove_loop (package_names : list string) (nodeps success : bool) : M bool :=
  match package_names with
  | [] => ret success
  | pkg_name :: rest =>
      me <- get_self ;;
      if negb (contains pkg_name (installed_pkgs me)) then
        print ("Package " ++ pkg_name ++ " is not installed") >>
        remove_loop rest nodeps success
      else
        dependents <- (if negb nodeps then _find_dependents pkg_name else ret []) ;;
        match dependents with
        | _ :: _ =>
            print ("Cannot remove " ++ pkg_name ++ ": the following packages depend on it:") >>
            print_all (map (fun dep => "  " ++ dep) dependents) >>
            remove_loop rest nodeps false
        | [] =>
            ok <- _remove_package pkg_name ;;
            if ok : bool then
              print ("Successfully removed " ++ pkg_name) >>
              remove_loop rest nodeps success
            else
              print ("Failed to remove package: " ++ pkg_name) >>
              remove_loop rest nodeps false
        end
  end.

Definition remove (package_names : list string) (nodeps : bool) : M bool :=
  remove_loop package_names nodeps true.

Definition update : M bool :=
  print "Updating package databases..." >> ret true.

(** The [for pkg_name in package_names] loop of [upgrade]. *)
Fixpoint upgrade_loop (package_names : list string) : M unit :=
  match package_names with
  | [] => ret tt
  | pkg_name :: rest =>
      me <- get_self ;;
      if negb (contains pkg_name (installed_pkgs me)) then
        print ("Package " ++ pkg_name ++ " is not installed") >>
        upgrade_loop rest
      else
        print ("Checking for updates for " ++ pkg_name ++ "...") >>
        install [pkg_name] false >>
        upgrade_loop rest
  end.

(** [upgrade(package_names=None)] *)
Definition upgrade (package_names : option (list string)) : M bool :=
  me <- get_self ;;
  let package_names :=
    match package_names with
    | None => keys (installed_pkgs me)
    | Some l => l
    end in
  update >>
  upgrade_loop package_names >>
  ret true.

(** [SyzygiaCLI.upgrade]: [packages] is what argparse collects for
    [nargs='*'], a list that is empty when no name is given. *)
Definition cli_upgrade (packages : list string) : M Z :=
  ok <- upgrade (Some packages) ;;
  ret (if ok : bool then 0%Z else 1%Z).

End WithFileSystem.

End Pkg.


(* ===================================================================== *)
(** ** The specification's wording, as definitions to compare with *)
(* ===================================================================== *)

(** Each definition of this module follows a sentence of the specification,
    not the code; the properties below compare it with the embedding. *)
Module SpecWords.
Import PyStr.

(** "validated charset [[A-Za-z0-9@._+-]], must start/end
    alnum-or-underscore": non-empty, every character in the set, first and
    last character alphanumeric or an underscore. *)
Definition spec_name_valid (s : string) : bool :=
  match s with
  | EmptyString => false
  | String c rest =>
      forallb Validator.name_class (chars s)
      && (isalnum c || ascii_eqb c "_")
      && (isalnum (last_char c rest) || ascii_eqb (last_char c rest) "_")
  end.

(** "malformed version strings (empty, or starting with non-digit)". *)
Definition spec_version_malformed (v : string) : bool :=
  match v with
  | EmptyString => true
  | String c _ => negb (isdigit c)
  end.

(** "the set of currently-installed packages whose [depends] reference the
    name or any capability it provides", for an installed package [p]; the
    claim speaks of the other installed packages. *)
Definition spec_dependents (installed : PyDict.dict Pkg.Package) (p : Pkg.Package)
    : list string :=
  map Pkg.name
      (List.filter
         (fun q =>
            negb (String.eqb (Pkg.name q) (Pkg.name p))
            && existsb (fun dep =>
                          String.eqb dep (Pkg.name p)
                          || existsb (String.eqb dep) (Pkg.provides p))
                       (Pkg.depends q))
         (PyDict.values installed)).

End SpecWords.


(* ===================================================================== *)
(** ** Traces of a fetch, and worlds to run the examples in *)
(* ===================================================================== *)

Module FetchTrace.
Import PyStr Net.

(** What one attempt on a mirror adds to the trace, as [_download_local] and
    [_download_remote] compute the source path and the URL. *)
Definition mirror_attempt (file_path mirror : string) : Event :=
  if startswith "file://" mirror
  then Copy (path_join (replace "file://" EmptyString mirror) (lstrip "/" file_path))
  else Get (rstrip "/" mirror ++ "/" ++ lstrip "/" file_path).

(** [n] attempts, each adding the events [pass], with a sleep of
    [2 ^ attempt] seconds after every attempt but the last; [attempt] is the
    number of the first one. *)
Fixpoint backoff_trace (pass : list Event) (attempt : Z) (n : nat) : list Event :=
  match n with
  | O => []
  | S n' =>
      match n' with
      | O => pass
      | S _ => pass ++ Sleep (2 ^ attempt)%Z :: backoff_trace pass (attempt + 1) n'
      end
  end.

(** The specification's retry policy for a fetch on which every mirror
    fails: "retries the entire mirror list up to [max_retries] times with
    exponential backoff between full passes". *)
Definition spec_failing_fetch_trace (mirrors : list string) (file_path : string)
    (max_retries : Z) : list Event :=
  backoff_trace (map (mirror_attempt file_path) mirrors) 0 (Z.to_nat max_retries).

End FetchTrace.

Module Examples.
Import PyStr PyExc Net.

Definition empty_world : World := {| fs := ∅; trace := [] |}.

(** Every connection fails. *)
Definition unreachable : Transport := fun _ _ => ConnectFailed.

(** Every GET is answered with status 200, and the connection breaks after
    the first chunk of the body. *)
Definition breaks_midstream : Transport :=
  fun _ _ => Answer 200 (CL_int 4096) ["partial bytes"] false.

(** No hash algorithm is needed where no checksum is given. *)
Definition no_hashlib : string -> option (string -> string) := fun _ => None.

(** No removal is refused. *)
Definition removable : Removal := fun _ _ => false.

(** No directory besides the paths that end in a slash, and no two
    spellings of one file. *)
Definition no_directory : string -> bool := fun _ => false.
Definition no_link : string -> string -> bool := fun _ _ => false.

Definition two_mirrors : Mirror.MirrorManager :=
  {| Mirror.mirrors := ["http://m1.example/repo"; "http://m2.example/repo/"];
     Mirror.mirror_stats := [];
     Mirror._timeout := 10 |}.

Definition one_mirror : Mirror.MirrorManager :=
  {| Mirror.mirrors := ["http://m1.example/repo"];
     Mirror.mirror_stats := [];
     Mirror._timeout := 10 |}.

End Examples.


(** A file system in memory, to run the package manager on examples: the
    files by the text of their path, a directory existing while a file lies
    below it; a call on a path that [faulty] selects raises. *)
Module MemFS.
Import PyStr PyExc PyDict Pathlib.

Definition under (dir file : string) : bool :=
  String.eqb dir file || startswith (dir ++ "/") file.

Definition mem_fs (faulty : string -> bool) : Pkg.FileSystem :=
  {| Pkg.FS := dict string;
     Pkg.fs_touch p d :=
       if faulty (str p) then (Raise "[Errno 13] Permission denied", d)
       else (Return tt, if contains (str p) d then d else set (str p) EmptyString d);
     Pkg.fs_mkdir p d :=
       if faulty (str p) then (Raise "[Errno 13] Permission denied", d)
       else (Return tt, d);
     Pkg.fs_write p text d :=
       if faulty (str p) then (Raise "[Errno 13] Permission denied", d)
       else (Return tt, set (str p) text d);
     Pkg.fs_exists p d := existsb (fun kv => under (str p) (fst kv)) d;
     Pkg.fs_rmtree p d :=
       if faulty (str p) then (Raise "[Errno 13] Permission denied", d)
       else (Return tt, List.filter (fun kv => negb (under (str p) (fst kv))) d)
  |}.

(** No call raises. *)
Definition sound_fs : Pkg.FileSystem := mem_fs (fun _ => false).

(** A package as [_parse_package_file] builds it from a [desc] file. *)
Definition package (name : string) (depends provides : list string) : Pkg.Package :=
  Pkg.Package_init name "1.0.0" EmptyString (Some depends) (Some provides)
                   (Some []) 0 EmptyString EmptyString.

Definition manager (installed : list Pkg.Package) : Pkg.PackageManager :=
  {| Pkg.db_path := of_string "/var/lib/syzygia";
     Pkg.cache_dir := of_string "/var/cache/syzygia";
     Pkg.installed_pkgs := map (fun p => (Pkg.name p, p)) installed;
     Pkg.available_pkgs := [] |}.

Definition world (fsys : Pkg.FileSystem) (installed : list Pkg.Package)
    (files : @Pkg.FS fsys) : @Pkg.World fsys :=
  {| Pkg.self := manager installed; Pkg.disk := files; Pkg.stdout := [] |}.

End MemFS.

(* ===================================================================== *)
(** ** Regular expressions, for the patterns of the validator *)
(* ===================================================================== *)

(** The patterns of [validator.py] use character classes, concatenation,
    alternation, [?], [*] and [+] only; for such a pattern [re.match] finds a
    match exactly when a prefix of the string belongs to the language of the
    pattern, whatever the order in which the engine tries the alternatives. *)
Module Regex.
Import PyStr.

Inductive regex :=
| Eps
| Class (cls : ascii -> bool)
| Seq (r1 r2 : regex)
| Alt (r1 r2 : regex)
| Star (r : regex).

(** A literal character, [r?] and [r+]. *)
Definition Chr (c : ascii) : regex := Class (ascii_eqb c).
Definition Opt (r : regex) : regex := Alt r Eps.
Definition Plus (r : regex) : regex := Seq r (Star r).

(** The language of a pattern. *)
Inductive lang : regex -> list ascii -> Prop :=
| lang_eps : lang Eps []
| lang_class cls c : cls c = true -> lang (Class cls) [c]
| lang_seq r1 r2 s1 s2 : lang r1 s1 -> lang r2 s2 -> lang (Seq r1 r2) (s1 ++ s2)
| lang_alt_l r1 r2 s : lang r1 s -> lang (Alt r1 r2) s
| lang_alt_r r1 r2 s : lang r2 s -> lang (Alt r1 r2) s
| lang_star_nil r : lang (Star r) []
| lang_star_cons r s1 s2 :
    lang r s1 -> lang (Star r) s2 -> lang (Star r) (s1 ++ s2).

(** Matching by derivatives; [None] stands for the pattern that matches
    nothing. *)
Fixpoint nullable (r : regex) : bool :=
  match r with
  | Eps => true
  | Class _ => false
  | Seq r1 r2 => nullable r1 && nullable r2
  | Alt r1 r2 => nullable r1 || nullable r2
  | Star _ => true
  end.

Definition seq_opt (o : option regex) (r2 : regex) : option regex :=
  match o with Some r1 => Some (Seq r1 r2) | None => None end.

Definition alt_opt (o1 o2 : option regex) : option regex :=
  match o1, o2 with
  | Some r1, Some r2 => Some (Alt r1 r2)
  | Some r1, None => Some r1
  | None, o => o
  end.

Fixpoint deriv (c : ascii) (r : regex) : option regex :=
  match r with
  | Eps => None
  | Class cls => if cls c then Some Eps else None
  | Seq r1 r2 =>
      alt_opt (seq_opt (deriv c r1) r2)
              (if nullable r1 then deriv c r2 else None)
  | Alt r1 r2 => alt_opt (deriv c r1) (deriv c r2)
  | Star r1 => seq_opt (deriv c r1) (Star r1)
  end.

Fixpoint matches (r : regex) (s : list ascii) : bool :=
  match s with
  | [] => nullable r
  | c :: s' =>
      match deriv c r with
      | Some r' => matches r' s'
      | None => false
      end
  end.

(** [l] without its last character when that character is a newline. *)
Fixpoint before_final_newline (l : list ascii) : option (list ascii) :=
  match l with
  | [] => None
  | [c] => if ascii_eqb c newline then Some [] else None
  | c :: l' =>
      match before_final_newline l' with
      | Some b => Some (c :: b)
      | None => None
      end
  end.

(** [re.match('^' r '$', s)]: without the MULTILINE flag [$] holds at the end
    of the string and just before a newline that ends it. *)
Definition re_match_anchored (r : regex) (s : string) : bool :=
  matches r (chars s)
  || match before_final_newline (chars s) with
     | Some body => matches r body
     | None => false
     end.

End Regex.

(* ===================================================================== *)
(** ** syzygia/utils/validator.py: dependencies *)
(* ===================================================================== *)

Module ValidatorDeps.
Import PyStr Regex.

(** The class [[0-9a-zA-Z.:+~-]]. *)
Definition constraint_class (c : ascii) : bool := isalnum c || one_of ".:+~-" c.

(** [([=><~!]?=|[><]=?|~=)] *)
Definition operator : regex :=
  Alt (Seq (Opt (Class (one_of "=><~!"))) (Chr "="))
      (Alt (Seq (Class (one_of "><")) (Opt (Chr "=")))
           (Seq (Chr "~") (Chr "="))).

(** [^[a-zA-Z0-9@._+-]+([=><~!]?=|[><]=?|~=)[0-9a-zA-Z.:+~-]*$] *)
Definition versioned_dependency : regex :=
  Seq (Plus (Class Validator.name_class))
      (Seq operator (Star (Class constraint_class))).

(** [^[a-zA-Z0-9@._+-]+$] *)
Definition bare_dependency : regex := Plus (Class Validator.name_class).

(** The test of one entry in the loop of [validate_package_dependencies]. *)
Definition dependency_ok (dep : string) : bool :=
  re_match_anchored versioned_dependency dep
  || re_match_anchored bare_dependency dep.

(** [validate_package_dependencies(deps)] for a list of strings, on which
    the two [isinstance] tests pass. *)
Fixpoint validate_package_dependencies (deps : list string) : bool * string :=
  match deps with
  | [] => (true, EmptyString)
  | dep :: rest =>
      if negb (re_match_anchored versioned_dependency dep) then
        if negb (re_match_anchored bare_dependency dep) then
          (false, "Invalid dependency format: " ++ dep)
        else validate_package_dependencies rest
      else validate_package_dependencies rest
  end.

(** The comparison operators the first pattern lets through. *)
Definition operators : list string := ["="; "=="; ">="; "<="; "~="; "!="; ">"; "<"].

(** A name of one or more characters of [[a-zA-Z0-9@._+-]], alone or followed
    by an operator and by any number of characters of [[0-9a-zA-Z.:+~-]];
    one final newline may follow. *)
Definition well_formed_dependency (dep : string) : Prop :=
  exists name rest,
    chars dep = (name ++ rest)%list
    /\ name <> []
    /\ Forall (fun c => Validator.name_class c = true) name
    /\ (rest = [] \/ rest = [newline]
        \/ exists op version,
             In op operators
             /\ Forall (fun c => constraint_class c = true) version
             /\ (rest = (chars op ++ version)%list
                 \/ rest = (chars op ++ version ++ [newline])%list)).

End ValidatorDeps.


(* ===================================================================== *)
(** ** syzygia/utils/validator.py: package files *)
(* ===================================================================== *)

Module ValidatorFiles.
Import PyStr Pathlib.

(** The part of [s] from its last dot on, when [s] has a dot. *)
Fixpoint from_last_dot (s : string) : option string :=
  match s with
  | EmptyString => None
  | String c s' =>
      match from_last_dot s' with
      | Some suf => Some suf
      | None => if ascii_eqb c "." then Some s else None
      end
  end.

(** [p.suffix]: with [i = name.rfind('.')], the text [name[i:]] when
    [0 < i < len(name) - 1], the empty string otherwise. *)
Definition suffix (p : Path) : string :=
  match name p with
  | EmptyString => EmptyString
  | String _ rest =>
      match from_last_dot rest with
      | Some suf => if (1 <? String.length suf)%nat then suf else EmptyString
      | None => EmptyString
      end
  end.

Definition package_extensions : list string :=
  [".pkg.tar.zst"; ".pkg.tar.xz"; ".pkg.tar.gz"; ".pkg.tar.bz2"].

Section WithFiles.

(** [path.exists()] and [path.stat().st_size] of the files on disk. *)
Variable path_exists : Path -> bool.
Variable st_size : Path -> Z.

Definition validate_package_file (file_path : string) : bool * string :=
  let file_path := of_string file_path in
  if negb (path_exists file_path) then
    (false, "File does not exist: " ++ str file_path)
  else if negb (existsb (String.eqb (suffix file_path)) package_extensions) then
    (false, "Invalid package file extension: " ++ suffix file_path)
  else if (st_size file_path =? 0)%Z then
    (false, "Package file is empty")
  else (true, EmptyString).

End WithFiles.

End ValidatorFiles.


(** What a successful download of the mirror manager has put at the
    destination. *)
Module Delivery.
Import PyStr Net.

(** What [download_with_retry] leaves when it fails: no file at the
    destination, or a file that failed the verification of its checksum and
    whose removal was refused. *)
Definition left_behind (hashlib : string -> option (string -> string))
    (os_remove_raises : Removal)
    (destination : string) (checksum : option string)
    (algorithm : string) (w : World) : Prop :=
  fs w !! destination = None
  \/ exists c,
       checksum = Some c /\ truthy c = true
       /\ is_Some (fs w !! destination)
       /\ Downloader.verify_checksum hashlib destination c algorithm w = false
       /\ exists history, os_remove_raises history destination = true.


(** The file a local mirror is asked for. *)
Definition local_source (mirror file_path : string) : string :=
  path_join (replace "file://" EmptyString mirror) (lstrip "/" file_path).

(** Where a copy from the source [src] lands: at the destination or, when
    the destination is a directory, in the file named as the source inside
    it. *)
Definition copy_target (isdir : string -> bool) (src destination : string)
    : string :=
  if Mirror.is_directory isdir destination
  then path_join destination (basename src) else destination.

(** What the mirror that ended the loop delivered, and where ([target]).
    For a [file://] mirror: the content its source file had in the world
    [w0], copied to the destination or into it; source and target are two
    files and the target is no directory.  For another mirror: the complete
    body of an answer of the transport without error status, written to the
    destination, which is no directory. *)
Definition delivered (transport : Transport) (isdir : string -> bool)
    (samefile : string -> string -> bool) (w0 : World)
    (file_path destination mirror target content : string) : Prop :=
  if startswith "file://" mirror
  then target = copy_target isdir (local_source mirror file_path) destination
       /\ fs w0 !! local_source mirror file_path = Some content
       /\ Mirror.same_file samefile (local_source mirror file_path) target = false
       /\ Mirror.is_directory isdir target = false
  else target = destination
       /\ Mirror.is_directory isdir destination = false
       /\ exists history status content_length body,
            transport history (rstrip "/" mirror ++ "/" ++ lstrip "/" file_path)
            = Answer status content_length body true
            /\ status_raises status = false
            /\ content = concat_chunks body.

End Delivery.

(* ===================================================================== *)
(** ** syzygia/repo.py: the other methods *)
(* ===================================================================== *)

(** The methods of [Repository] besides [initialize]; each returns its
    result and the object afterwards. *)
Module Repository.
Import PyStr PyDict Repo.

Definition set_packages (self : Repo.Repository) (pkgs : dict (dict string))
    : Repo.Repository :=
  {| name := name self; url := url self; sig_level := sig_level self;
     packages := pkgs; _initialized := _initialized self |}.

(** [add_package(pkg_path)]: nothing is done yet, the answer is [True]. *)
Definition add_package (self : Repo.Repository) (pkg_path : string)
    : bool * Repo.Repository := (true, self).

Definition remove_package (self : Repo.Repository) (pkg_name : string)
    : bool * Repo.Repository :=
  if contains pkg_name (packages self)
  then (true, set_packages self (del pkg_name (packages self)))
  else (false, self).

Definition find_package (self : Repo.Repository) (pkg_name : string)
    : option (dict string) :=
  get pkg_name (packages self).

Definition list_packages (self : Repo.Repository) : list (dict string) :=
  values (packages self).

Definition update (self : Repo.Repository) : bool * Repo.Repository := (true, self).

Definition sync (self : Repo.Repository) : bool * Repo.Repository := update self.

End Repository.

(** The methods of [RepositoryManager] besides [add_repo]. *)
Module RepositoryManager.
Import PyStr PyDict Repo.

(** [_load_repos]: the three default repositories. *)
Definition _load_repos (self : Repo.RepositoryManager) : Repo.RepositoryManager :=
  let self := snd (add_repo self "core" "https://archlinux.org/packages/core/os/x86_64" None) in
  let self := snd (add_repo self "extra" "https://archlinux.org/packages/extra/os/x86_64" None) in
  snd (add_repo self "community" "https://archlinux.org/packages/community/os/x86_64" None).

(** [RepositoryManager(config)] *)
Definition init : Repo.RepositoryManager := _load_repos {| repos := [] |}.

Definition remove_repo (self : Repo.RepositoryManager) (name : string)
    : bool * Repo.RepositoryManager :=
  if negb (contains name (repos self)) then (false, self)
  else (true, {| repos := del name (repos self) |}).

Definition get_repo (self : Repo.RepositoryManager) (name : string)
    : option Repo.Repository :=
  get name (repos self).

Definition list_repos (self : Repo.RepositoryManager) : list string :=
  keys (repos self).

(** [bool(pkg)] for what [Repository.find_package] returns: [None] and the
    empty dictionary are falsy. *)
Definition found (pkg : option (dict string)) : bool :=
  match pkg with
  | Some (_ :: _) => true
  | _ => false
  end.

(** The loop of [find_package] over [self.repos.items()]. *)
Fixpoint find_in (items : dict Repo.Repository) (pkg_name : string)
    : option (string * dict string) :=
  match items with
  | [] => None
  | (repo_name, repo) :: rest =>
      let pkg := Repository.find_package repo pkg_name in
      if found pkg then Some (repo_name, default [] pkg)
      else find_in rest pkg_name
  end.

Definition find_package (self : Repo.RepositoryManager) (pkg_name : string)
    : option (string * dict string) :=
  find_in (repos self) pkg_name.

(** The loop of [update_all] over [self.repos.values()]; [Repository.update]
    leaves the repository as it is. *)
Fixpoint update_each (rs : list Repo.Repository) (success : bool) : bool :=
  match rs with
  | [] => success
  | repo :: rest =>
      if negb (fst (Repository.update repo)) then update_each rest false
      else update_each rest success
  end.

Definition update_all (self : Repo.RepositoryManager) : bool :=
  update_each (values (repos self)) true.

Definition sync_all (self : Repo.RepositoryManager) : bool := update_all self.

(** An entry of [self.repos] whose repository has an empty catalog. *)
Definition catalog_empty (entry : string * Repo.Repository) : Prop :=
  packages (snd entry) = [].

(** A call on the repository object registered under [repo_name], which
    the manager shares with the caller of [get_repo]. *)
Definition on_repo (self : Repo.RepositoryManager) (repo_name : string)
    (method : Repo.Repository -> bool * Repo.Repository) : Repo.RepositoryManager :=
  match get repo_name (repos self) with
  | Some repo => {| repos := set repo_name (snd (method repo)) (repos self) |}
  | None => self
  end.

(** The calls a client can make on a manager and on its repositories. *)
Inductive call :=
| AddRepo (name url : string) (sig_level : option string)
| RemoveRepo (name : string)
| RepoInitialize (repo_name : string)
| RepoAddPackage (repo_name pkg_path : string)
| RepoRemovePackage (repo_name pkg_name : string)
| RepoUpdate (repo_name : string)
| RepoSync (repo_name : string).

Definition run (self : Repo.RepositoryManager) (c : call) : Repo.RepositoryManager :=
  match c with
  | AddRepo name url sig_level => snd (add_repo self name url sig_level)
  | RemoveRepo name => snd (remove_repo self name)
  | RepoInitialize r => on_repo self r initialize
  | RepoAddPackage r p => on_repo self r (fun repo => Repository.add_package repo p)
  | RepoRemovePackage r p => on_repo self r (fun repo => Repository.remove_package repo p)
  | RepoUpdate r => on_repo self r Repository.update
  | RepoSync r => on_repo self r Repository.sync
  end.

Definition run_all (calls : list call) (self : Repo.RepositoryManager)
    : Repo.RepositoryManager :=
  fold_left run calls self.

End RepositoryManager.


(* ===================================================================== *)
(** ** syzygia/package.py: queries and loading; syzygia/cli.py: handlers *)
(* ===================================================================== *)

(** More [str] methods: whitespace and substrings. *)
Module PyText.
Import PyStr.

(** [c.isspace()], the whitespace that [strip()] and [split()] cut at.
    Below U+0100: tab, newline, vertical tab, form feed, carriage return,
    the four separators U+001C to U+001F, the space, the next-line control
    U+0085 and the no-break space U+00A0. *)
Definition isspace (c : ascii) : bool :=
  in_range 9 13 c || in_range 28 32 c || in_range 133 133 c || in_range 160 160 c.

Fixpoint lstrip_ws (s : string) : string :=
  match s with
  | EmptyString => EmptyString
  | String c s' => if isspace c then lstrip_ws s' else s
  end.

Fixpoint rstrip_ws (s : string) : string :=
  match s with
  | EmptyString => EmptyString
  | String c s' =>
      match rstrip_ws s' with
      | EmptyString => if isspace c then EmptyString else String c EmptyString
      | r => String c r
      end
  end.

(** [s.strip()] *)
Definition strip (s : string) : string := rstrip_ws (lstrip_ws s).

(** [s.split()]: the maximal runs of characters that are not whitespace.
    [word] is the run being read, in reverse. *)
Fixpoint words_from (word : list ascii) (s : string) : list string :=
  let flush (rest : list string) : list string :=
    match word with
    | [] => rest
    | _ => string_of_list_ascii (rev word) :: rest
    end in
  match s with
  | EmptyString => flush []
  | String c s' =>
      if isspace c then flush (words_from [] s')
      else words_from (c :: word) s'
  end.

Definition split_ws (s : string) : list string := words_from [] s.

(** [s.split(c, 1)] when [c] occurs in [s]: the text before the first [c]
    and the text after it. *)
Fixpoint partition_at (c : ascii) (s : string) : option (string * string) :=
  match s with
  | EmptyString => None
  | String c' s' =>
      if ascii_eqb c' c then Some (EmptyString, s')
      else match partition_at c s' with
           | Some (a, b) => Some (String c' a, b)
           | None => None
           end
  end.

(** [q in s] for two strings. *)
Fixpoint is_substring (q s : string) : bool :=
  startswith q s
  || match s with
     | EmptyString => false
     | String _ s' => is_substring q s'
     end.

Definition carriage_return : ascii := ascii_of_N 13.

(** The line breaks that reading a text file turns into a newline. *)
Definition is_line_break (c : ascii) : bool :=
  ascii_eqb c newline || ascii_eqb c carriage_return.

(** What reading a file opened in text mode gives for the text it holds
    (universal newlines): a carriage return is read as a newline, and a
    newline that follows a carriage return is dropped, so that a carriage
    return followed by a newline, and a carriage return alone, are each
    read as one newline.  [after_cr] tells that the character before was a
    carriage return. *)
Fixpoint newlines_from (after_cr : bool) (s : string) : string :=
  match s with
  | EmptyString => EmptyString
  | String c s' =>
      if ascii_eqb c carriage_return then String newline (newlines_from true s')
      else if ascii_eqb c newline && after_cr then newlines_from false s'
      else String c (newlines_from false s')
  end.

Definition universal_newlines (s : string) : string := newlines_from false s.

(** Text of ASCII characters only. *)
Definition is_ascii (s : string) : bool :=
  forallb (fun c => (code c <? 128)%N) (chars s).

(** The last field of [split], [s.split(c)[-1]]. *)
Definition last_field (c : ascii) (s : string) : string :=
  default EmptyString (last (split c s)).

(** The first field of [split], [s.split(c)[0]]. *)
Definition first_field (c : ascii) (s : string) : string :=
  default EmptyString (head (split c s)).

End PyText.

Module PkgMore.
Import PyStr PyText PyExc PyDict Pathlib Pkg.

(** The body of [_parse_package_file] once the file is read: the fields of
    the lines [key: value], the last occurrence of a key winning. *)
Fixpoint parse_fields (lines : list string) (pkg_data : dict string) : dict string :=
  match lines with
  | [] => pkg_data
  | line :: rest =>
      let line := strip line in
      if negb (truthy line) then parse_fields rest pkg_data
      else if startswith "#" line then parse_fields rest pkg_data
      else
        match partition_at ":" line with
        | Some (key, value) =>
            parse_fields rest (set (lower (strip key)) (strip value) pkg_data)
        | None => parse_fields rest pkg_data
        end
  end.

Definition parse_package_text (content : string) : option Package :=
  let pkg_data := parse_fields (split newline content) [] in
  match get "name" pkg_data, get "version" pkg_data with
  | Some name, Some version =>
      Some (Package_init name version
              (default EmptyString (get "description" pkg_data))
              (Some (split_ws (default EmptyString (get "depends" pkg_data))))
              (Some (split_ws (default EmptyString (get "provides" pkg_data))))
              (Some (split_ws (default EmptyString (get "conflicts" pkg_data))))
              0 EmptyString EmptyString)
  | _, _ => None
  end.

Section WithFileSystem.
Context {filesystem : FileSystem}.

(** [_parse_package_file(file_path)], given what opening and reading the
    file gives: its text, or an exception. *)
Definition _parse_package_file (file_path : Path) (read : result string)
    : M (option Package) :=
  match read with
  | Return content => ret (parse_package_text content)
  | Raise e =>
      bind (print ("Error parsing package file " ++ str file_path ++ ": " ++ e))
           (fun _ => ret None)
  end.

(** The loop of [_load_installed_packages] over the [desc] files of the
    package directories, in the order [iterdir] lists them. *)
Fixpoint load_loop (descs : list (Path * result string)) : M unit :=
  match descs with
  | [] => ret tt
  | (pkg_file, read) :: rest =>
      bind (_parse_package_file pkg_file read) (fun pkg =>
      match pkg with
      | Some p =>
          bind get_self (fun me =>
          bind (set_installed_pkgs (set (name p) p (installed_pkgs me))) (fun _ =>
          load_loop rest))
      | None => load_loop rest
      end)
  end.

(** [search(query)] *)
Definition search (query : string) : M (list Package) :=
  bind get_self (fun me =>
  let query := lower query in
  ret (List.filter
         (fun pkg => is_substring query (lower (name pkg))
                     || is_substring query (lower (description pkg)))
         (values (installed_pkgs me)))).

(** The handlers of [SyzygiaCLI], on the names given on the command line.

    [parser.parse_args] for [packages] declared with [nargs='+']: without a
    name argparse reports the error and leaves the program with status 2
    ([SystemExit], which nothing in the package catches). *)
Definition parse_args (packages : list string) : M (list string) :=
  match packages with
  | [] => fun w => (Raise "SystemExit: 2", w)
  | _ => ret packages
  end.


Definition cli_remove (packages : list string) (nodeps : bool) : M Z :=
  bind (parse_args packages) (fun packages =>
  match packages with
  | [] => bind (print "Error: No packages specified") (fun _ => ret 1%Z)
  | _ => bind (remove packages nodeps) (fun ok => ret (if ok : bool then 0%Z else 1%Z))
  end).

Definition cli_search (query : string) : M Z :=
  bind (search query) (fun packages =>
  match packages with
  | [] => bind (print "No packages found") (fun _ => ret 1%Z)
  | _ =>
      bind (print_all
              (map (fun pkg => name pkg ++ " (" ++ version pkg ++ ") - " ++ description pkg)
                   packages))
           (fun _ => ret 0%Z)
  end).

Definition cli_list : M Z :=
  bind list_installed (fun packages =>
  match packages with
  | [] => bind (print "No packages installed") (fun _ => ret 0%Z)
  | _ =>
      bind (print_all (map (fun pkg => name pkg ++ " " ++ version pkg) packages))
           (fun _ => ret 0%Z)
  end).

End WithFileSystem.

(** The key under which [install] registers a requested name: the text
    between the last slash and the first hyphen after it. *)
Definition installed_name (pkg_name : string) : string :=
  default EmptyString
    (head (split "-" (default EmptyString (last (split "/" pkg_name))))).

(** The entry [_install_package] makes for a requested name. *)
Definition install_entry (cache : Path) (installed : dict Package) (pkg_name : string)
    : dict Package :=
  let pkg_file := joinpath cache (pkg_name ++ "-1.0.0.pkg.tar.zst") in
  set (name_of_file pkg_file) (package_of_file pkg_file) installed.

(** Every key of the dictionary is the name of its package. *)
Definition keys_are_names (installed : dict Package) : Prop :=
  Forall (fun entry => name (snd entry) = fst entry) installed.

End PkgMore.


(* ===================================================================== *)
(** ** syzygia/config.py: the mirror list *)
(* ===================================================================== *)

(** [get_mirrors], [add_mirror] and [remove_mirror] work on one text file,
    the mirror list.  They are modelled on the text the file holds ([None]:
    the file does not exist), of characters below U+0100, for a file that
    can be read and written on a system whose line separator is the
    newline.  The file is read in text mode; iterating over it gives its
    lines with their newline; every line is stripped or tested on its first
    character only, and a blank line is dropped, so the lines are taken as
    the fields between the newlines of the text read. *)
Module Config.
Import PyStr PyText.

(** [self.defaults['mirrors']['servers']] *)
Definition default_servers : string :=
  "https://archlinux.org/mirrorlist/?country=all&protocol=https&ip_version=4".

(** [line and not line.startswith('#')] *)
Definition is_entry (line : string) : bool :=
  truthy line && negb (startswith "#" line).

(** [for line in f], for a file that holds [content]. *)
Definition read_lines (content : string) : list string :=
  split newline (universal_newlines content).

(** The loop of [get_mirrors] over the lines of the file: each line is
    stripped, then tested. *)
Definition read_mirrors (content : string) : list string :=
  List.filter is_entry (map strip (read_lines content)).

(** [get_mirrors()]: the list falls back to the default server when it is
    empty. *)
Definition get_mirrors (mirror_file : option string) : list string :=
  let mirrors :=
    match mirror_file with
    | Some content => read_mirrors content
    | None => []
    end in
  match mirrors with
  | [] => [default_servers]
  | _ => mirrors
  end.

(** [add_mirror(mirror_url)]: the file is opened for appending, which
    creates it when it does not exist. *)
Definition add_mirror (mirror_url : string) (mirror_file : option string)
    : option string :=
  Some (default EmptyString mirror_file ++ mirror_url ++ String newline EmptyString).

(** [[line.strip() for line in f if line.strip() and not line.startswith('#')]]:
    here the comment test is on the line as it was read. *)
Definition kept_mirrors (content : string) : list string :=
  map strip
      (List.filter (fun line => truthy (strip line) && negb (startswith "#" line))
                   (read_lines content)).

(** [l.remove(x)] for an [x] that is in [l]: the first occurrence goes. *)
Fixpoint list_remove (x : string) (l : list string) : list string :=
  match l with
  | [] => []
  | y :: l' => if String.eqb y x then l' else y :: list_remove x l'
  end.

(** [remove_mirror(mirror_url)]: the result and the file afterwards. *)
Definition remove_mirror (mirror_url : string) (mirror_file : option string)
    : bool * option string :=
  match mirror_file with
  | None => (false, None)
  | Some content =>
      let mirrors := kept_mirrors content in
      if existsb (String.eqb mirror_url) mirrors then
        (true,
         Some (join (String newline EmptyString) (list_remove mirror_url mirrors)
               ++ String newline EmptyString))
      else (false, mirror_file)
  end.

(** A mirror as the file is meant to list it: not empty, no blank at either
    end, no line break, not a comment. *)
Definition clean (mirror_url : string) : bool :=
  truthy mirror_url
  && String.eqb (strip mirror_url) mirror_url
  && negb (existsb is_line_break (chars mirror_url))
  && negb (startswith "#" mirror_url).

(** A text without an unfinished last line: it is empty or its last
    character is a line break. *)
Definition ends_lines (content : string) : bool :=
  match content with
  | EmptyString => true
  | String c s => is_line_break (last_char c s)
  end.

End Config.


(* ===================================================================== *)
(** * Properties *)
(* ===================================================================== *)

(** ** Python strings *)

Example split_example :
  PyStr.split "-" "paket1-1.0.0.pkg.tar.zst" = ["paket1"; "1.0.0.pkg.tar.zst"].
Proof. reflexivity. Qed.

Example rstrip_example : PyStr.rstrip "/" "http://m1//" = "http://m1".
Proof. reflexivity. Qed.

Example replace_example :
  PyStr.replace "file://" EmptyString "file:///srv/file://x" = "/srv/x".
Proof. reflexivity. Qed.

Example dirname_example :
  PyStr.dirname "/var/cache//pkg.db" = "/var/cache"
  /\ PyStr.dirname "pkg.db" = EmptyString /\ PyStr.dirname "///x" = "///".
Proof. repeat split; reflexivity. Qed.

Example path_join_example :
  PyStr.path_join "/srv/" "a/b" = "/srv/a/b"
  /\ PyStr.path_join EmptyString "a" = "a" /\ PyStr.path_join "/srv" "a" = "/srv/a".
Proof. repeat split; reflexivity. Qed.

Example pathlib_example :
  Pathlib.str (Pathlib.joinpath (Pathlib.of_string "/var/cache/syzygia/") "a/./b-1.0.0.pkg.tar.zst")
  = "/var/cache/syzygia/a/b-1.0.0.pkg.tar.zst"
  /\ Pathlib.name (Pathlib.joinpath (Pathlib.of_string "/var/cache") "a/b-1.0.0.pkg.tar.zst")
     = "b-1.0.0.pkg.tar.zst"
  /\ Pathlib.str (Pathlib.joinpath (Pathlib.of_string "/var/cache") "/etc/x") = "/etc/x".
Proof. repeat split; reflexivity. Qed.

(** ** Validation of names and versions *)

Section ValidatorFacts.
Import PyStr Validator SpecWords.

Example validate_name_plain : validate_package_name "lib32-gcc_libs" = (true, EmptyString).
Proof. reflexivity. Qed.

Example validate_name_trailing_newline :
  re_match_class_plus name_class ("abc" ++ String newline EmptyString) = true
  /\ fst (validate_package_name ("abc" ++ String newline EmptyString)) = false.
Proof. split; reflexivity. Qed.

Lemma name_class_not_newline : name_class newline = false.
Proof. reflexivity. Qed.

Lemma isalnum_name_class c : isalnum c = true -> name_class c = true.
Proof. unfold name_class. intros ->. reflexivity. Qed.

Lemma isalnum_version_class c : isalnum c = true -> version_class c = true.
Proof. unfold version_class. intros ->. reflexivity. Qed.

Lemma isdigit_isalnum c : isdigit c = true -> isalnum c = true.
Proof. unfold isalnum. intros ->. apply orb_true_r. Qed.

Lemma ascii_eqb_eq a b : ascii_eqb a b = true <-> a = b.
Proof. unfold ascii_eqb. apply Ascii.eqb_eq. Qed.

Lemma underscore_name_class : name_class "_" = true.
Proof. reflexivity. Qed.

(** A string of class characters matches the tail of the pattern. *)
Lemma match_tail_of_forall cls s :
  Forall (fun c => cls c = true) (chars s) -> match_class_plus_tail cls s = true.
Proof.
  induction s as [|c s IH]; simpl; [reflexivity|].
  intros H. inversion H as [|? ? Hc Hs]; subst.
  destruct s as [|c' s'].
  - rewrite Hc. reflexivity.
  - rewrite Hc. simpl. apply IH. exact Hs.
Qed.

(** Conversely, a match whose last character is in the class consists of
    class characters only: the optional final newline is then excluded. *)
Lemma forall_of_match_tail cls c s :
  match_class_plus_tail cls s = true ->
  cls (last_char c s) = true ->
  Forall (fun c => cls c = true) (chars s).
Proof.
  revert c. induction s as [|c' s IH]; intros c Hm Hl; simpl; [constructor|].
  simpl in Hl. destruct s as [|c'' s''].
  - simpl in Hl. constructor; [exact Hl|constructor].
  - simpl in Hm. apply andb_true_iff in Hm as [Hc Hm].
    constructor; [exact Hc|]. apply (IH c'); assumption.
Qed.

Lemma last_char_last c s : last (chars (String c s)) = Some (last_char c s).
Proof.
  revert c. induction s as [|c' s IH]; intros c; [reflexivity|].
  change (chars (String c (String c' s))) with (c :: chars (String c' s)).
  simpl last. simpl last_char. rewrite <- IH. reflexivity.
Qed.

(** What [re.match(r'^[cls]+$', s)] accepts: one or more class characters,
    optionally followed by a single final newline. *)
Lemma match_tail_spec cls s :
  match_class_plus_tail cls s = true <->
  (Forall (fun c => cls c = true) (chars s)
   \/ exists body, chars s = (body ++ [newline])%list
                   /\ Forall (fun c => cls c = true) body).
Proof.
  induction s as [|c s IH].
  - simpl. split; [intros _; left; constructor|reflexivity].
  - destruct s as [|c' s'].
    + simpl. rewrite orb_true_iff, ascii_eqb_eq. split.
      * intros [Hc| ->]; [left; repeat constructor; exact Hc|].
        right. exists []. split; [reflexivity|constructor].
      * intros [H|(body & Hb & _)].
        -- inversion H; subst. left. assumption.
        -- right. destruct body as [|b [|b' body]]; simpl in Hb.
           ++ injection Hb as ->. reflexivity.
           ++ discriminate.
           ++ discriminate.
    + change (match_class_plus_tail cls (String c (String c' s')))
        with (cls c && match_class_plus_tail cls (String c' s')).
      rewrite andb_true_iff, IH.
      change (chars (String c (String c' s'))) with (c :: chars (String c' s')).
      split.
      * intros [Hc [H|(body & Hb & Hall)]].
        -- left. constructor; assumption.
        -- right. exists (c :: body). rewrite Hb. split; [reflexivity|].
           constructor; assumption.
      * intros [H|(body & Hb & Hall)].
        -- inversion H; subst. split; [assumption|left; assumption].
        -- destruct body as [|b body]; [discriminate|].
           simpl in Hb. injection Hb as <- Hb.
           inversion Hall; subst. split; [assumption|].
           right. exists body. split; assumption.
Qed.

Lemma re_match_class_plus_spec cls s :
  re_match_class_plus cls s = true <->
  exists c body,
    cls c = true /\ Forall (fun x => cls x = true) body
    /\ (chars s = c :: body \/ chars s = (c :: body ++ [newline])%list).
Proof.
  destruct s as [|c s]; simpl.
  - split; [discriminate|]. intros (c & body & _ & _ & [H|H]); discriminate.
  - rewrite andb_true_iff, match_tail_spec. split.
    + intros [Hc [H|(body & Hb & Hall)]].
      * exists c, (chars s). auto.
      * exists c, body. rewrite Hb. auto.
    + intros (c1 & body & Hc & Hall & [H|H]);
        change (chars (String c s)) with (c :: chars s) in H;
        injection H as <- Hs; (split; [assumption|]).
      * left. rewrite Hs. assumption.
      * right. exists body. split; assumption.
Qed.

End ValidatorFacts.

Section ValidatorClaims.
Import PyStr Validator SpecWords.

(** C8, as the specification words it, fails on the code: a name that starts
    with an underscore satisfies the specification's condition (all
    characters in the set, first and last alphanumeric or underscore) and is
    rejected by [validate_package_name], whose start test is [isalnum] alone. *)
Lemma validate_package_name_rejects_leading_underscore :
  spec_name_valid "_foo" = true
  /\ validate_package_name "_foo"
     = (false, "Package name must start with an alphanumeric character").
Proof. split; reflexivity. Qed.

(** C8 (amended): [validate_package_name] accepts exactly the non-empty
    strings all of whose characters are in [[A-Za-z0-9@._+-]], whose first
    character is alphanumeric and whose last character is alphanumeric or an
    underscore; every other string is rejected. *)
Theorem validate_package_name_accepts (s : string) :
  fst (validate_package_name s) = true <->
  exists c c',
    head (chars s) = Some c /\ last (chars s) = Some c'
    /\ Forall (fun x => name_class x = true) (chars s)
    /\ isalnum c = true
    /\ (isalnum c' = true \/ c' = "_"%char).
Proof.
  destruct s as [|c0 rest].
  - simpl. split; [discriminate|]. intros (c & c' & Hh & _). discriminate.
  - unfold validate_package_name.
    split.
    + destruct (re_match_class_plus name_class (String c0 rest)) eqn:Hre;
        simpl; [|discriminate].
      destruct (isalnum c0) eqn:H0; simpl; [|discriminate].
      destruct (isalnum (last_char c0 rest) || ascii_eqb (last_char c0 rest) "_")
        eqn:Hl; simpl; [|discriminate].
      intros _. exists c0, (last_char c0 rest).
      split; [reflexivity|]. split; [apply last_char_last|].
      apply orb_true_iff in Hl.
      assert (Hcl : name_class (last_char c0 rest) = true).
      { destruct Hl as [Hl|Hl]; [apply isalnum_name_class; exact Hl|].
        apply ascii_eqb_eq in Hl. rewrite Hl. reflexivity. }
      simpl in Hre. apply andb_true_iff in Hre as [Hc0 Htail].
      split.
      * change (chars (String c0 rest)) with (c0 :: chars rest).
        constructor; [exact Hc0|].
        apply (forall_of_match_tail name_class c0); assumption.
      * split; [exact H0|].
        destruct Hl as [Hl|Hl]; [left; exact Hl|right].
        apply ascii_eqb_eq in Hl. exact Hl.
    + intros (c & c' & Hh & Hlast & Hall & Hc & Hc').
      simpl in Hh. injection Hh as <-.
      rewrite last_char_last in Hlast. injection Hlast as <-.
      change (chars (String c0 rest)) with (c0 :: chars rest) in Hall.
      inversion Hall as [|? ? Hc0 Hrest]; subst.
      assert (Hre : re_match_class_plus name_class (String c0 rest) = true).
      { simpl. rewrite Hc0. simpl. apply match_tail_of_forall. exact Hrest. }
      rewrite Hre, Hc. simpl.
      destruct Hc' as [Hc'|Hc'].
      * rewrite Hc'. reflexivity.
      * rewrite Hc'. reflexivity.
Qed.

(** [validate_package_version] accepts exactly the strings that start with a
    digit and continue with characters of [[a-zA-Z0-9._+:~-]], optionally
    followed by one final newline (which the [$] of the pattern lets through). *)
Lemma validate_package_version_accepts (v : string) :
  fst (validate_package_version v) = true <->
  exists c body,
    isdigit c = true /\ Forall (fun x => version_class x = true) body
    /\ (chars v = c :: body \/ chars v = (c :: body ++ [newline])%list).
Proof.
  destruct v as [|c0 rest].
  - simpl. split; [discriminate|]. intros (c & body & _ & _ & [H|H]); discriminate.
  - unfold validate_package_version. split.
    + destruct (re_match_class_plus version_class (String c0 rest)) eqn:Hre;
        destruct (isdigit c0) eqn:H0; cbn [negb fst]; try discriminate.
      intros _. apply re_match_class_plus_spec in Hre as (c & body & Hc & Hall & Hs).
      exists c, body. split; [|split; assumption].
      destruct Hs as [Hs|Hs];
        change (chars (String c0 rest)) with (c0 :: chars rest) in Hs;
        injection Hs as <- _; exact H0.
    + intros (c & body & Hc & Hall & Hs).
      assert (c = c0) as ->.
      { destruct Hs as [Hs|Hs];
          change (chars (String c0 rest)) with (c0 :: chars rest) in Hs;
          injection Hs as -> _; reflexivity. }
      assert (Hre : re_match_class_plus version_class (String c0 rest) = true).
      { apply re_match_class_plus_spec. exists c0, body.
        split; [apply isalnum_version_class, isdigit_isalnum, Hc|].
        split; assumption. }
      rewrite Hre, Hc. reflexivity.
Qed.

Example validate_version_examples :
  validate_package_version "2:1.0-1" = (true, EmptyString)
  /\ validate_package_version "v1.0" = (false, "Version must start with a digit")
  /\ validate_package_version "1.0 beta" = (false, "Version contains invalid characters").
Proof. repeat split; reflexivity. Qed.

(** C9, as the specification words it, fails on the code: [Package(...)]
    stores the version it is given without looking at it, so a package is
    constructed with an empty version, and with one that starts with a
    letter, both of which [validate_package_version] rejects. *)
Lemma package_constructed_with_malformed_version :
  let p1 := Pkg.Package_init "foo" EmptyString EmptyString None None None
                              0 EmptyString EmptyString in
  let p2 := Pkg.Package_init "foo" "beta-1" EmptyString None None None
                              0 EmptyString EmptyString in
  spec_version_malformed (Pkg.version p1) = true
  /\ spec_version_malformed (Pkg.version p2) = true
  /\ fst (validate_package_version (Pkg.version p1)) = false
  /\ fst (validate_package_version (Pkg.version p2)) = false.
Proof. repeat split; reflexivity. Qed.

(** C9 (amended): a malformed version string (empty, or starting with a
    character that is not a digit) is rejected by [validate_package_version];
    the construction of a [Package] performs no validation and stores any
    version string unchanged. *)
Theorem malformed_version_rejected_by_validator_only
    (v : string) (Hbad : spec_version_malformed v = true) :
  fst (validate_package_version v) = false
  /\ forall name description depends provides conflicts size url packager,
       Pkg.version (Pkg.Package_init name v description depends provides
                                     conflicts size url packager) = v.
Proof.
  split; [|reflexivity].
  destruct v as [|c rest]; [reflexivity|].
  simpl in Hbad. unfold validate_package_version. rewrite Hbad. reflexivity.
Qed.

Lemma malformed_version_rejected_by_validator_only_witness :
  spec_version_malformed "beta-1" = true
  /\ fst (validate_package_version "beta-1") = false
  /\ Pkg.version (Pkg.Package_init "foo" "beta-1" EmptyString None None None
                                    0 EmptyString EmptyString) = "beta-1".
Proof.
  split; [reflexivity|].
  destruct (malformed_version_rejected_by_validator_only "beta-1" eq_refl) as [H1 H2].
  split; [exact H1|apply H2].
Defined.

End ValidatorClaims.

(** ** Downloads *)

Section DownloadFacts.
Import PyStr PyExc Net FetchTrace Examples Delivery.

Section WithEnvironment.
Variable transport : Transport.
Variable hashlib : string -> option (string -> string).
Variable os_remove_raises : Removal.
Variable isdir : string -> bool.
Variable samefile : string -> string -> bool.

Lemma trace_remove_file path w : trace (remove_file path w) = trace w.
Proof. reflexivity. Qed.

Lemma trace_write_file path content w : trace (write_file path content w) = trace w.
Proof. reflexivity. Qed.

Lemma fs_remove_file path w : fs (remove_file path w) !! path = None.
Proof. apply lookup_delete_eq. Qed.

Lemma fs_log e w : fs (log e w) = fs w.
Proof. reflexivity. Qed.

(** One call of [download_file] issues exactly one GET. *)
Lemma download_file_trace url destination chunk_size w :
  trace (snd (Downloader.download_file transport url destination chunk_size w))
  = (trace w ++ [Get url])%list.
Proof.
  unfold Downloader.download_file.
  destruct (transport (trace w) url) as [|status cl body complete];
    [reflexivity|].
  destruct (status_raises status); [reflexivity|].
  destruct cl, complete; simpl; try reflexivity.
  match goal with |- context [if ?b then _ else _] => destruct b end;
    reflexivity.
Qed.

(** When [download_file] returns [True] there is a file at the destination. *)
Lemma download_file_stores url destination chunk_size w :
  fst (Downloader.download_file transport url destination chunk_size w) = true ->
  is_Some (fs (snd (Downloader.download_file transport url destination chunk_size w))
             !! destination).
Proof.
  unfold Downloader.download_file.
  destruct (transport (trace w) url) as [|status cl body complete];
    [discriminate|].
  destruct (status_raises status); [discriminate|].
  destruct cl, complete; simpl; try discriminate;
    try (intros _; rewrite lookup_insert_eq; eexists; reflexivity).
  match goal with |- context [if ?b then _ else _] => destruct b end;
    simpl; [discriminate|].
  intros _. rewrite lookup_insert_eq. eexists. reflexivity.
Qed.

(** Every failure path of [download_file] (connection error, HTTP error
    status, unreadable content-length, error in mid-stream, size mismatch)
    ends with the destination removed. *)
Lemma download_file_failure_leaves_no_file url destination chunk_size w :
  fst (Downloader.download_file transport url destination chunk_size w) = false ->
  fs (snd (Downloader.download_file transport url destination chunk_size w))
    !! destination = None.
Proof.
  unfold Downloader.download_file.
  destruct (transport (trace w) url) as [|status cl body complete];
    [intros _; apply fs_remove_file|].
  destruct (status_raises status); [intros _; apply fs_remove_file|].
  destruct cl, complete; simpl;
    try discriminate; try (intros _; apply lookup_delete_eq).
  match goal with |- context [if ?b then _ else _] => destruct b end;
    simpl; [intros _; apply lookup_delete_eq|discriminate].
Qed.

Lemma verify_checksum_fs file_path c algorithm w w' :
  fs w' = fs w ->
  Downloader.verify_checksum hashlib file_path c algorithm w'
  = Downloader.verify_checksum hashlib file_path c algorithm w.
Proof. intros H. unfold Downloader.verify_checksum. rewrite H. reflexivity. Qed.

Lemma left_behind_fs destination checksum algorithm w w' :
  fs w' = fs w ->
  left_behind hashlib os_remove_raises destination checksum algorithm w ->
  left_behind hashlib os_remove_raises destination checksum algorithm w'.
Proof.
  intros Hfs [H|(c & Hc & Ht & Hsome & Hv & Hr)].
  - left. rewrite Hfs. exact H.
  - right. exists c. rewrite Hfs, (verify_checksum_fs _ _ _ _ _ Hfs). auto.
Qed.

(** Each failed attempt of [download_with_retry] ends with the destination
    removed, by [download_file] or after the checksum mismatch, unless that
    last removal is refused. *)
Lemma retry_loop_failure_leaves
    url destination max_retries checksum algorithm chunk_size attempts :
  forall w,
  (attempts = [] -> left_behind hashlib os_remove_raises destination checksum algorithm w) ->
  fst (Downloader.retry_loop transport hashlib os_remove_raises url destination
         max_retries checksum algorithm chunk_size attempts w) = false ->
  left_behind hashlib os_remove_raises destination checksum algorithm
    (snd (Downloader.retry_loop transport hashlib os_remove_raises url destination
            max_retries checksum algorithm chunk_size attempts w)).
Proof.
  induction attempts as [|attempt rest IH]; intros w Hnil.
  - intros _. apply Hnil. reflexivity.
  - simpl.
    pose proof (download_file_failure_leaves_no_file url destination chunk_size w) as Hclean.
    pose proof (download_file_stores url destination chunk_size w) as Hstored.
    destruct (Downloader.download_file transport url destination chunk_size w)
      as [ok w1].
    simpl in Hclean, Hstored.
    assert (Hback : forall w',
      left_behind hashlib os_remove_raises destination checksum algorithm w' ->
      left_behind hashlib os_remove_raises destination checksum algorithm
        (if (attempt <? max_retries - 1)%Z
         then log (Sleep (2 ^ attempt)) w' else w')).
    { intros w' Hw'. destruct (attempt <? max_retries - 1)%Z; [|exact Hw'].
      apply (left_behind_fs _ _ _ w'); [reflexivity|exact Hw']. }
    destruct ok.
    + destruct checksum as [c|]; [|discriminate].
      destruct (truthy c) eqn:Ht; [|discriminate].
      destruct (Downloader.verify_checksum hashlib destination c algorithm w1)
        eqn:Hv; [discriminate|].
      apply IH. intros _. apply Hback.
      destruct (os_remove_raises (trace w1) destination) eqn:Hr.
      * right. exists c. repeat split; try assumption.
        -- apply Hstored. reflexivity.
        -- exists (trace w1). exact Hr.
      * left. apply fs_remove_file.
    + apply IH. intros _. apply Hback. left. apply Hclean. reflexivity.
Qed.

(** [download_with_retry] never leaves a file behind when it fails, as soon
    as it makes one attempt and no removal is refused. *)
Lemma download_with_retry_failure_leaves_no_file
    url destination max_retries checksum algorithm chunk_size w :
  (forall history, os_remove_raises history destination = false) ->
  (1 <= max_retries)%Z ->
  fst (Downloader.download_with_retry transport hashlib os_remove_raises url
         destination max_retries checksum algorithm chunk_size w) = false ->
  fs (snd (Downloader.download_with_retry transport hashlib os_remove_raises url
         destination max_retries checksum algorithm chunk_size w)) !! destination
  = None.
Proof.
  intros Hremovable Hpos Hfail. unfold Downloader.download_with_retry in *.
  destruct (retry_loop_failure_leaves url destination max_retries checksum
              algorithm chunk_size (Downloader.range max_retries) w)
    as [H|(c & _ & _ & _ & _ & history & Hr)];
    [|exact Hfail|exact H|rewrite Hremovable in Hr; discriminate Hr].
  unfold Downloader.range.
  destruct (Z.to_nat max_retries) eqn:Hn; [lia|discriminate].
Qed.

Lemma backoff_trace_step pass attempt n :
  backoff_trace pass attempt (S (S n))
  = (pass ++ Sleep (2 ^ attempt) :: backoff_trace pass (attempt + 1) (S n))%list.
Proof. reflexivity. Qed.

(** The trace of the retry loop over the attempts [a, a+1, ..., a+k-1], the
    last of which is attempt [max_retries - 1]. *)
Lemma retry_loop_trace
    url destination max_retries checksum algorithm chunk_size (k : nat) :
  forall (a : nat) w,
  (0 < k -> Z.of_nat (a + k) = max_retries) ->
  let r := Downloader.retry_loop transport hashlib os_remove_raises url destination max_retries
             checksum algorithm chunk_size (map Z.of_nat (seq a k)) w in
  exists n : nat,
    n <= k /\ (0 < k -> 0 < n)
    /\ trace (snd r) = (trace w ++ backoff_trace [Get url] (Z.of_nat a) n)%list
    /\ (fst r = false -> n = k).
Proof.
  induction k as [|k IH]; intros a w Hmax; cbv zeta.
  - exists 0. simpl. rewrite app_nil_r. repeat split; auto; lia.
  - specialize (Hmax ltac:(lia)).
    assert (Hback : forall w',
      trace w' = (trace w ++ [Get url])%list ->
      let r := Downloader.retry_loop transport hashlib os_remove_raises url destination max_retries
                 checksum algorithm chunk_size (map Z.of_nat (seq (S a) k))
                 (if (Z.of_nat a <? max_retries - 1)%Z
                  then log (Sleep (2 ^ Z.of_nat a)) w' else w') in
      exists n : nat,
        n <= S k /\ (0 < S k -> 0 < n)
        /\ trace (snd r) = (trace w ++ backoff_trace [Get url] (Z.of_nat a) n)%list
        /\ (fst r = false -> n = S k)).
    { intros w' Hw'. cbv zeta. destruct k as [|k'].
      - assert ((Z.of_nat a <? max_retries - 1)%Z = false) as -> by lia.
        exists 1. simpl. repeat split; auto; lia.
      - assert ((Z.of_nat a <? max_retries - 1)%Z = true) as -> by lia.
        destruct (IH (S a) (log (Sleep (2 ^ Z.of_nat a)) w') ltac:(lia))
          as (n & Hle & Hpos & Htr & Hfail).
        exists (S n). specialize (Hpos ltac:(lia)).
        destruct n as [|n]; [lia|].
        split; [lia|]. split; [lia|]. split.
        + rewrite Htr. simpl trace. rewrite Hw', backoff_trace_step.
          rewrite Nat2Z.inj_succ, <- Z.add_1_r.
          rewrite <- !app_assoc. reflexivity.
        + intros Hf. rewrite (Hfail Hf). reflexivity. }
    simpl map. simpl Downloader.retry_loop.
    pose proof (download_file_trace url destination chunk_size w) as Htr.
    destruct (Downloader.download_file transport url destination chunk_size w)
      as [ok w1].
    simpl in Htr.
    assert (Hone : exists n : nat,
      n <= S k /\ (0 < S k -> 0 < n)
      /\ trace w1 = (trace w ++ backoff_trace [Get url] (Z.of_nat a) n)%list
      /\ (true = false -> n = S k)).
    { exists 1. simpl. repeat split; auto; try lia; discriminate. }
    destruct ok.
    + destruct checksum as [c|]; [|exact Hone].
      destruct (truthy c); [|exact Hone].
      destruct (Downloader.verify_checksum hashlib destination c algorithm w1);
        [exact Hone|].
      apply Hback. destruct (os_remove_raises (trace w1) destination); exact Htr.
    + apply Hback. exact Htr.
Qed.

(** One attempt on a mirror: when it returns, it returns [True]; it adds its
    transfer to the trace unless creating the destination directory raised. *)
Lemma mirror_attempt_trace self mirror file_path destination w :
  let r :=
    if startswith "file://" mirror
    then Mirror._download_local isdir samefile self mirror file_path destination w
    else Mirror._download_remote transport isdir self mirror file_path destination w in
  trace (snd r)
  = (trace w ++ if Mirror.makedirs_raises destination then []
                else [mirror_attempt file_path mirror])%list
  /\ (forall b, fst r = Return b -> b = true).
Proof.
  cbv zeta. unfold mirror_attempt.
  destruct (startswith "file://" mirror).
  - unfold Mirror._download_local, Mirror.copy2.
    destruct (Mirror.makedirs_raises destination).
    + simpl. rewrite app_nil_r. split; [reflexivity|discriminate].
    + cbn [fs log].
      destruct (fs w !! _); [|split; [reflexivity|discriminate]].
      destruct (Mirror.same_file samefile _ _); [split; [reflexivity|discriminate]|].
      destruct (Mirror.is_directory isdir _);
        (split; [reflexivity|]); simpl; intros b Hb; congruence.
  - unfold Mirror._download_remote.
    destruct (Mirror.makedirs_raises destination).
    + simpl. rewrite app_nil_r. split; [reflexivity|discriminate].
    + destruct (transport (trace w) _) as [|status cl body complete];
        [split; [reflexivity|discriminate]|].
      destruct (status_raises status); [split; [reflexivity|discriminate]|].
      destruct (Mirror.is_directory isdir destination);
        [split; [reflexivity|discriminate]|].
      destruct complete; (split; [reflexivity|]); simpl; intros b Hb; congruence.
Qed.

(** [download_file] of the mirror manager walks the configured list from its
    first element, one attempt per mirror, and stops at the first mirror whose
    download returns. *)
Lemma download_loop_trace self file_path destination todo :
  forall w,
  let r := Mirror.download_loop transport isdir samefile self file_path destination todo w in
  exists k : nat,
    k <= length todo
    /\ trace (snd r)
       = (trace w ++ if Mirror.makedirs_raises destination then []
                     else map (mirror_attempt file_path) (take k todo))%list
    /\ (fst r = false -> k = length todo).
Proof.
  induction todo as [|mirror rest IH]; intros w; cbv zeta.
  - exists 0. simpl. split; [lia|]. split; [|reflexivity].
    destruct (Mirror.makedirs_raises destination); rewrite app_nil_r; reflexivity.
  - simpl Mirror.download_loop.
    pose proof (mirror_attempt_trace self mirror file_path destination w) as Hm.
    cbv zeta in Hm.
    destruct (if startswith "file://" mirror
              then Mirror._download_local isdir samefile self mirror file_path destination w
              else Mirror._download_remote transport isdir self mirror file_path
                     destination w) as [r w1].
    simpl in Hm. destruct Hm as [Htr Hret].
    destruct r as [b|exc].
    + rewrite (Hret b eq_refl). exists 1. simpl.
      split; [lia|]. split; [|discriminate].
      rewrite Htr. destruct rest; reflexivity.
    + destruct (IH w1) as (k & Hk & Hk_tr & Hk_fail).
      exists (S k). split; [simpl; lia|]. split.
      * rewrite Hk_tr, Htr.
        destruct (Mirror.makedirs_raises destination).
        -- rewrite !app_nil_r. reflexivity.
        -- simpl. rewrite <- app_assoc. reflexivity.
      * intros Hf. simpl. rewrite (Hk_fail Hf). reflexivity.
Qed.

(** The loop stops at the first mirror whose download returns: the mirrors
    after it are not tried.  [pass] is the loop over the mirrors before
    [mirror], which returns [False] when each of them raised. *)
Lemma download_loop_stops self file_path destination before mirror after :
  forall w,
  let pass :=
    Mirror.download_loop transport isdir samefile self file_path destination
      before w in
  let attempt :=
    if startswith "file://" mirror
    then Mirror._download_local isdir samefile self mirror file_path destination
           (snd pass)
    else Mirror._download_remote transport isdir self mirror file_path
           destination (snd pass) in
  Mirror.download_loop transport isdir samefile self file_path destination
    (before ++ mirror :: after) w
  = if fst pass then pass
    else match fst attempt with
         | Return b => (b, snd attempt)
         | Raise _ =>
             Mirror.download_loop transport isdir samefile self file_path
               destination after (snd attempt)
         end.
Proof.
  induction before as [|m0 before IH]; intros w; cbv zeta.
  - simpl.
    destruct (if startswith "file://" mirror
              then Mirror._download_local isdir samefile self mirror file_path
                     destination w
              else Mirror._download_remote transport isdir self mirror file_path
                     destination w) as [[b|e] w1]; reflexivity.
  - simpl app. simpl Mirror.download_loop.
    pose proof (mirror_attempt_trace self m0 file_path destination w) as [_ Hret].
    destruct (if startswith "file://" m0
              then Mirror._download_local isdir samefile self m0 file_path
                     destination w
              else Mirror._download_remote transport isdir self m0 file_path
                     destination w) as [[b|e] w1].
    + rewrite (Hret b eq_refl). reflexivity.
    + apply IH.
Qed.

(** The trace when the loop stops at [mirror]: one attempt for each mirror
    up to it, none for those after it. *)
Lemma download_loop_stops_trace self file_path destination before mirror after w :
  let pass :=
    Mirror.download_loop transport isdir samefile self file_path destination
      before w in
  let attempt :=
    if startswith "file://" mirror
    then Mirror._download_local isdir samefile self mirror file_path destination
           (snd pass)
    else Mirror._download_remote transport isdir self mirror file_path
           destination (snd pass) in
  fst pass = false ->
  forall b, fst attempt = Return b ->
  b = true
  /\ trace (snd (Mirror.download_loop transport isdir samefile self file_path
                   destination (before ++ mirror :: after) w))
     = (trace w ++ map (mirror_attempt file_path) (before ++ [mirror]))%list.
Proof.
  cbv zeta. intros Hpass b Hb.
  pose proof (download_loop_stops self file_path destination before mirror after w)
    as Heq.
  cbv zeta in Heq. rewrite Heq, Hpass, Hb. cbn [snd].
  destruct (download_loop_trace self file_path destination before w)
    as (k & _ & Htr & Hk).
  cbv zeta in Htr, Hk. specialize (Hk Hpass). subst k.
  rewrite firstn_all in Htr.
  pose proof (mirror_attempt_trace self mirror file_path destination
                (snd (Mirror.download_loop transport isdir samefile self file_path
                        destination before w))) as [Htr1 Hret].
  cbv zeta in Htr1, Hret.
  split; [apply Hret, Hb|].
  rewrite Htr1, Htr.
  assert (Hmk : Mirror.makedirs_raises destination = false).
  { destruct (Mirror.makedirs_raises destination) eqn:Hmk; [|reflexivity].
    exfalso. revert Hb.
    unfold Mirror._download_local, Mirror._download_remote. rewrite Hmk.
    destruct (startswith "file://" mirror); discriminate. }
  rewrite Hmk, map_app, app_assoc. reflexivity.
Qed.

End WithEnvironment.

Lemma get_best_mirror_member (self : Mirror.MirrorManager) draw m :
  Mirror.get_best_mirror self draw = Some m -> m ∈ Mirror.mirrors self.
Proof.
  unfold Mirror.get_best_mirror, Mirror.random_choice.
  destruct (Mirror.mirrors self) as [|m0 ms]; [discriminate|].
  intros H. apply list_elem_of_lookup. eexists. exact H.
Qed.

Lemma get_best_mirror_none (self : Mirror.MirrorManager) draw :
  Mirror.get_best_mirror self draw = None <-> Mirror.mirrors self = [].
Proof.
  unfold Mirror.get_best_mirror, Mirror.random_choice.
  destruct (Mirror.mirrors self) as [|m0 ms] eqn:Hm; [split; reflexivity|].
  split; [|discriminate].
  intros H. apply lookup_ge_None in H.
  pose proof (Nat.mod_upper_bound draw (length (m0 :: ms))) as Hlt.
  simpl in *. lia.
Qed.

Lemma get_best_mirror_any (self : Mirror.MirrorManager) (i : nat) m :
  Mirror.mirrors self !! i = Some m -> Mirror.get_best_mirror self i = Some m.
Proof.
  unfold Mirror.get_best_mirror, Mirror.random_choice. intros H.
  pose proof (lookup_lt_Some _ _ _ H) as Hlt.
  destruct (Mirror.mirrors self) as [|m0 ms]; [discriminate|].
  rewrite Nat.mod_small by exact Hlt. exact H.
Qed.

End DownloadFacts.

Section DownloadClaims.
Import PyStr PyExc Net FetchTrace Examples.

(** C4, as the specification words it, fails on the code: with the same
    mirror list and no statistics, two calls of [get_best_mirror] that differ
    only in what the random generator draws choose different mirrors, and the
    second call does not start with the first mirror of the list. *)
Lemma get_best_mirror_two_runs_differ :
  Mirror.mirror_stats two_mirrors = []
  /\ Mirror.get_best_mirror two_mirrors 0 = Some "http://m1.example/repo"
  /\ Mirror.get_best_mirror two_mirrors 1 = Some "http://m2.example/repo/"
  /\ Mirror.get_best_mirror two_mirrors 0 <> Mirror.get_best_mirror two_mirrors 1.
Proof. repeat split; try reflexivity. discriminate. Qed.

(** C4 (amended): [get_best_mirror] is a random choice among the configured
    mirrors: it returns [None] exactly when the list is empty, what it
    returns is a member of the list, and every member can come out, so two
    runs need not agree.  [download_file] of the mirror manager is
    deterministic and consults no statistics: it tries the mirrors in
    configured list order, one attempt each from the first on, stops at the
    first mirror whose download returns, and has tried them all when it
    fails. *)
Theorem mirror_selection_order
    (transport : Transport) (isdir : string -> bool)
    (samefile : string -> string -> bool) (self : Mirror.MirrorManager)
    (file_path destination : string) (w : World) :
  (forall draw, Mirror.get_best_mirror self draw = None <-> Mirror.mirrors self = [])
  /\ (forall draw m, Mirror.get_best_mirror self draw = Some m -> m ∈ Mirror.mirrors self)
  /\ (forall (i : nat) m,
        Mirror.mirrors self !! i = Some m -> Mirror.get_best_mirror self i = Some m)
  /\ (let r := Mirror.download_file transport isdir samefile self file_path destination w in
     exists k : nat,
       k <= length (Mirror.mirrors self)
       /\ trace (snd r)
          = (trace w ++ if Mirror.makedirs_raises destination then []
                        else map (mirror_attempt file_path)
                                 (take k (Mirror.mirrors self)))%list
       /\ (fst r = false -> k = length (Mirror.mirrors self)))
  /\ (forall before mirror after,
        Mirror.mirrors self = (before ++ mirror :: after)%list ->
        let pass :=
          Mirror.download_loop transport isdir samefile self file_path
            destination before w in
        let attempt :=
          if startswith "file://" mirror
          then Mirror._download_local isdir samefile self mirror file_path
                 destination (snd pass)
          else Mirror._download_remote transport isdir self mirror file_path
                 destination (snd pass) in
        Mirror.download_file transport isdir samefile self file_path destination w
        = (if fst pass then pass
           else match fst attempt with
                | Return b => (b, snd attempt)
                | Raise _ =>
                    Mirror.download_loop transport isdir samefile self file_path
                      destination after (snd attempt)
                end)
        /\ (fst pass = false ->
            forall b, fst attempt = Return b ->
            b = true
            /\ trace (snd (Mirror.download_file transport isdir samefile self
                             file_path destination w))
               = (trace w
                  ++ map (mirror_attempt file_path) (before ++ [mirror]))%list)).
Proof.
  split; [intros draw; apply get_best_mirror_none|].
  split; [intros draw m; apply get_best_mirror_member|].
  split; [intros i m; apply get_best_mirror_any|].
  split; [apply download_loop_trace|].
  intros before mirror after Hmirrors. cbv zeta.
  unfold Mirror.download_file. rewrite Hmirrors. split.
  - apply download_loop_stops.
  - apply download_loop_stops_trace.
Qed.

Example mirror_fallback_in_list_order :
  trace (snd (Mirror.download_file unreachable no_directory no_link two_mirrors "/core.db"
                "/var/cache/syzygia/core.db" empty_world))
  = [Get "http://m1.example/repo/core.db"; Get "http://m2.example/repo/core.db"].
Proof. reflexivity. Qed.

(** The first mirror that delivers ends the fetch: the second is not asked. *)
Example mirror_stops_at_first_success :
  Mirror.download_file (fun _ _ => Answer 200 CL_absent ["data"] true)
    no_directory no_link two_mirrors "core.db" "/var/cache/syzygia/core.db"
    empty_world
  = (true,
     {| fs := {[ "/var/cache/syzygia/core.db" := "data" ]};
        trace := [Get "http://m1.example/repo/core.db"] |}).
Proof. vm_compute. reflexivity. Qed.

(** C6 fails on [MirrorManager._download_remote]: the connection breaks
    after the first chunk, [download_file] of the mirror manager returns
    [False], and the bytes received so far are still at the destination. *)
Theorem mirror_download_leaves_partial_file :
  Mirror.download_file breaks_midstream no_directory no_link one_mirror "core.db"
    "/var/cache/syzygia/core.db" empty_world
  = (false,
     {| fs := {[ "/var/cache/syzygia/core.db" := "partial bytes" ]};
        trace := [Get "http://m1.example/repo/core.db"] |}).
Proof. vm_compute. reflexivity. Qed.

(** The same transport through [utils.downloader]: both functions fail and
    leave nothing at the destination. *)
Example downloader_same_failure_leaves_nothing :
  let dest := "/var/cache/syzygia/core.db" in
  let r1 := Downloader.download_file breaks_midstream
              "http://m1.example/repo/core.db" dest 8192 empty_world in
  let r2 := Downloader.download_with_retry breaks_midstream no_hashlib removable
              "http://m1.example/repo/core.db" dest 3 None "sha256" 8192 empty_world in
  fst r1 = false /\ fs (snd r1) !! dest = None
  /\ fst r2 = false /\ fs (snd r2) !! dest = None.
Proof. vm_compute. repeat split; reflexivity. Qed.

(** C7, as the specification words it, fails on the code.  For the mirror
    list of [two_mirrors], all unreachable, and three attempts, the
    specification's fetch makes three passes over both mirrors with sleeps of
    1 and 2 seconds between them.  The fetch over the mirror list
    ([MirrorManager.download_file]) makes one pass and never retries; the
    retrying function ([download_with_retry]) repeats a single URL and never
    reaches the second mirror. *)
Lemma retry_is_per_url_not_per_mirror_pass :
  let m1 := "http://m1.example/repo/core.db" in
  let m2 := "http://m2.example/repo/core.db" in
  let dest := "/var/cache/syzygia/core.db" in
  let spec := spec_failing_fetch_trace (Mirror.mirrors two_mirrors) "core.db" 3 in
  let pass := trace (snd (Mirror.download_file unreachable no_directory no_link two_mirrors "core.db"
                            dest empty_world)) in
  let retry := trace (snd (Downloader.download_with_retry unreachable no_hashlib removable
                             m1 dest Downloader.default_max_retries None
                             Downloader.default_checksum_algorithm
                             Downloader.default_chunk_size empty_world)) in
  spec = [Get m1; Get m2; Sleep 1; Get m1; Get m2; Sleep 2; Get m1; Get m2]
  /\ pass = [Get m1; Get m2]
  /\ retry = [Get m1; Sleep 1; Get m1; Sleep 2; Get m1]
  /\ pass <> spec /\ retry <> spec.
Proof. vm_compute. repeat split; try reflexivity; discriminate. Qed.

(** C7 (amended): [download_with_retry] fetches one URL, not a mirror list,
    at most [max_retries] (default 3) times; after every failed attempt but
    the last it sleeps [2 ^ k] seconds, [k] being the number of the attempt
    counted from 0 (1 then 2 seconds with the default), and it does not sleep
    after the final attempt; when it fails it has made all [max_retries]
    attempts.  [MirrorManager.download_file] never sleeps and makes a single
    pass over the mirror list, at most one attempt per mirror. *)
Theorem download_with_retry_backoff
    (transport : Transport) (hashlib : string -> option (string -> string))
    (os_remove_raises : Removal) (isdir : string -> bool)
    (samefile : string -> string -> bool)
    (url destination : string) (max_retries : Z) (checksum : option string)
    (algorithm : string) (chunk_size : Z) (w : World) :
  (let r := Downloader.download_with_retry transport hashlib os_remove_raises url destination
              max_retries checksum algorithm chunk_size w in
   exists n : nat,
     n <= Z.to_nat max_retries
     /\ ((1 <= max_retries)%Z -> 1 <= n)
     /\ trace (snd r) = (trace w ++ backoff_trace [Get url] 0 n)%list
     /\ (fst r = false -> n = Z.to_nat max_retries))
  /\ Downloader.default_max_retries = 3%Z
  /\ backoff_trace [Get url] 0 3 = [Get url; Sleep 1; Get url; Sleep 2; Get url]
  /\ (forall self file_path seconds,
        Sleep seconds ∈ trace (snd (Mirror.download_file transport isdir samefile self file_path
                                      destination w)) ->
        Sleep seconds ∈ trace w)
  /\ (forall self file_path,
        exists k : nat,
          k <= length (Mirror.mirrors self)
          /\ trace (snd (Mirror.download_file transport isdir samefile self file_path destination w))
             = (trace w ++ if Mirror.makedirs_raises destination then []
                           else map (mirror_attempt file_path)
                                    (take k (Mirror.mirrors self)))%list).
Proof.
  split; [|split; [reflexivity|split; [reflexivity|split]]];
    [| |intros self file_path;
        destruct (download_loop_trace transport isdir samefile self file_path destination
                    (Mirror.mirrors self) w) as (k & Hk & Htr & _);
        exists k; split; [exact Hk|exact Htr]].
  - cbv zeta. unfold Downloader.download_with_retry, Downloader.range.
    destruct (retry_loop_trace transport hashlib os_remove_raises url destination max_retries
                checksum algorithm chunk_size (Z.to_nat max_retries) 0 w)
      as (n & Hle & Hpos & Htr & Hfail); [lia|].
    exists n. split; [exact Hle|]. split; [lia|]. split; assumption.
  - intros self file_path seconds.
    destruct (download_loop_trace transport isdir samefile self file_path destination
                (Mirror.mirrors self) w) as (k & _ & Htr & _).
    unfold Mirror.download_file. rewrite Htr.
    rewrite elem_of_app. intros [H|H]; [exact H|].
    destruct (Mirror.makedirs_raises destination).
    + apply elem_of_nil in H. contradiction.
    + apply list_elem_of_fmap in H as (m & Hm & _).
      unfold mirror_attempt in Hm.
      destruct (startswith "file://" m); discriminate.
Qed.

End DownloadClaims.


(** ** Repositories *)

Section RepoClaims.
Import PyDict Repo.

(** C5, as the specification words it, fails on the code: a repository whose
    signature level is [Required] initialises successfully although no
    database and no signature were ever fetched or checked, and [add_repo]
    registers it. *)
Lemma required_repository_initializes_unverified :
  let url := "https://archlinux.org/packages/core/os/x86_64" in
  let repo := Repository_init "core" url (Some "Required") in
  sig_level repo = "Required"
  /\ initialize repo
     = (true, {| name := "core"; url := url; sig_level := "Required";
                 packages := []; _initialized := true |})
  /\ add_repo {| repos := [] |} "core" url (Some "Required")
     = (true, {| repos := [("core", snd (initialize repo))] |}).
Proof. repeat split; reflexivity. Qed.

Lemma initialize_succeeds (r : Repository) :
  fst (initialize r) = true
  /\ packages (snd (initialize r)) = packages r
  /\ sig_level (snd (initialize r)) = sig_level r
  /\ _initialized (snd (initialize r)) = true.
Proof.
  unfold initialize. destruct (_initialized r) eqn:Hi; simpl; auto.
Qed.

(** C5 (amended): [Repository.initialize] performs no signature verification
    and never fails: for every signature level, [Required] included, it
    returns [True], marks the repository initialised and leaves its package
    catalog as it was (empty for a new repository); [add_repo] registers a
    repository of any signature level whenever its name is not taken. *)
Theorem initialize_ignores_signature_level
    (self : RepositoryManager) (name url : string) (level : option string) :
  let repo := Repository_init name url level in
  fst (initialize repo) = true
  /\ sig_level (snd (initialize repo)) = default "Optional" level
  /\ packages (snd (initialize repo)) = []
  /\ _initialized (snd (initialize repo)) = true
  /\ (forall r, fst (initialize r) = true /\ packages (snd (initialize r)) = packages r)
  /\ (contains name (repos self) = false ->
      add_repo self name url level
      = (true, {| repos := set name (snd (initialize repo)) (repos self) |})).
Proof.
  cbv zeta. repeat split; try reflexivity.
  - apply initialize_succeeds.
  - apply initialize_succeeds.
  - intros Hfree. unfold add_repo. rewrite Hfree. reflexivity.
Qed.

End RepoClaims.

(** ** The package manager *)

Section DictFacts.
Import PyDict.
Context {V : Type}.

Lemma set_set (k : string) (v : V) (d : dict V) : set k v (set k v d) = set k v d.
Proof.
  induction d as [|[k' v'] d IH]; simpl.
  - rewrite String.eqb_refl. reflexivity.
  - destruct (String.eqb k' k) eqn:E; simpl.
    + rewrite String.eqb_refl. reflexivity.
    + rewrite E, IH. reflexivity.
Qed.

Lemma get_del (k : string) (d : dict V) : get k (del k d) = None.
Proof.
  unfold del. induction d as [|[k' v'] d IH]; simpl; [reflexivity|].
  destruct (String.eqb k' k) eqn:E; simpl; [exact IH|].
  rewrite E. exact IH.
Qed.

Lemma contains_del (k : string) (d : dict V) : contains k (del k d) = false.
Proof. unfold contains. rewrite get_del. reflexivity. Qed.

Lemma contains_set (k : string) (v : V) (d : dict V) : contains k (set k v d) = true.
Proof.
  unfold contains. induction d as [|[k' v'] d IH]; simpl.
  - rewrite String.eqb_refl. reflexivity.
  - destruct (String.eqb k' k) eqn:E; simpl.
    + rewrite String.eqb_refl. reflexivity.
    + rewrite E. exact IH.
Qed.

End DictFacts.

(** Unfolding of the monadic combinators of [Pkg]. *)
Ltac unfold_m :=
  unfold Pkg.bind, Pkg.ret, Pkg.print, Pkg.printed, Pkg.get_self,
         Pkg.set_installed_pkgs, Pkg.on_disk, Pkg.path_exists, Pkg.try_except,
         Pkg._find_dependents;
  cbn [fst snd Pkg.self Pkg.disk Pkg.stdout Pkg.installed_pkgs Pkg.cache_dir
       Pkg.db_path Pkg.available_pkgs].

Section PkgFacts.
Import PyStr PyExc PyDict Pathlib Pkg.
Context {fsys : FileSystem}.

Lemma install_one_spec (pkg_name : string) (nodeps : bool) (w : World) :
  let me := self w in
  let f := cache_file me pkg_name in
  let r := install [pkg_name] nodeps w in
  cache_dir (self (snd r)) = cache_dir me
  /\ (forall b, fst r = Return b -> b = true)
  /\ installed_pkgs (self (snd r))
     = (if contains pkg_name (installed_pkgs me) then installed_pkgs me
        else match fst (fs_touch f (disk w)) with
             | Raise _ => installed_pkgs me
             | Return _ => set (name_of_file f) (package_of_file f) (installed_pkgs me)
             end)
  /\ (contains pkg_name (installed_pkgs me) = false ->
      forall b, fst r = Return b -> exists u, fst (fs_touch f (disk w)) = Return u).
Proof.
  cbv zeta. unfold install, install_loop. unfold_m.
  destruct (contains pkg_name (installed_pkgs (self w))) eqn:Hc.
  - repeat split; cbn [fst snd]; congruence.
  - destruct (fs_touch (cache_file (self w) pkg_name) (disk w)) as [[u|e] d1] eqn:Ht;
      unfold_m.
    2:{ repeat split; cbn [fst snd]; try congruence; try (intros; discriminate). }
    unfold _install_package. unfold_m.
    destruct (fs_mkdir _ d1) as [[u1|e1] d2]; unfold_m.
    2:{ repeat split; cbn [fst snd]; try congruence; try (intros; discriminate). }
    destruct (fs_write _ _ d2) as [[u2|e2] d3]; unfold_m.
    2:{ repeat split; cbn [fst snd]; try congruence; try (intros; discriminate). }
    repeat split; cbn [fst snd]; try congruence. intros _ b _. exists u. reflexivity.
Qed.

(** [_install_package] returns [True] whenever it returns. *)
Lemma _install_package_returns_true (pkg_file : Path) (w : World) b w' :
  _install_package pkg_file w = (Return b, w') -> b = true.
Proof.
  unfold _install_package. unfold_m.
  destruct (fs_mkdir _ _) as [[u1|e1] d2]; [|discriminate].
  destruct (fs_write _ _ _) as [[u2|e2] d3]; [|discriminate].
  intros H. injection H as <- _. reflexivity.
Qed.

(** The loop of [install] over a concatenation is the loop over the first
    part followed by the loop over the second, on the world the first left;
    an exception of the first part ends the request there. *)
Lemma install_loop_app (xs ys : list string) :
  forall (success : bool) (w : World),
  install_loop (xs ++ ys) success w
  = match install_loop xs success w with
    | (Return success', w') => install_loop ys success' w'
    | (Raise e, w') => (Raise e, w')
    end.
Proof.
  induction xs as [|pkg_name xs IH]; intros success w.
  - reflexivity.
  - simpl app. simpl install_loop. unfold_m.
    destruct (contains pkg_name (installed_pkgs (self w))).
    + apply IH.
    + destruct (fs_touch _ _) as [[u|e] d1]; [|reflexivity].
      destruct (_install_package _ _) as [[ok|e] w2]; [|reflexivity].
      destruct ok; unfold_m; apply IH.
Qed.

Lemma install_loop_result (l : list string) :
  forall (success : bool) (w : World) b w',
  install_loop l success w = (Return b, w') -> b = success.
Proof.
  induction l as [|pkg_name l IH]; intros success w b w'.
  - simpl. unfold_m. intros H. injection H as <- _. reflexivity.
  - simpl install_loop. unfold_m.
    destruct (contains pkg_name (installed_pkgs (self w))).
    + apply IH.
    + destruct (fs_touch _ _) as [[u|e] d1]; [|discriminate].
      destruct (_install_package _ _) as [[ok|e] w2] eqn:Hi; [|discriminate].
      apply _install_package_returns_true in Hi. subst ok. unfold_m. apply IH.
Qed.

(** What [_remove_package] does: remove the directory if it exists, then the
    entry; an exception of [rmtree] leaves the entry and is reported. *)
Lemma _remove_package_spec (package_name : string) (w : World) :
  _remove_package package_name w
  = let pkg_dir := package_dir (self w) package_name in
    let forget (d : FS) : World :=
      {| self :=
           if contains package_name (installed_pkgs (self w))
           then {| db_path := db_path (self w); cache_dir := cache_dir (self w);
                   installed_pkgs := del package_name (installed_pkgs (self w));
                   available_pkgs := available_pkgs (self w) |}
           else self w;
         disk := d; stdout := stdout w |} in
    if fs_exists pkg_dir (disk w) then
      match fs_rmtree pkg_dir (disk w) with
      | (Return _, d) => (Return true, forget d)
      | (Raise e, d) =>
          (Return false,
           printed ["Error removing package " ++ package_name ++ ": " ++ e]
                   {| self := self w; disk := d; stdout := stdout w |})
      end
    else (Return true, forget (disk w)).
Proof.
  unfold _remove_package. unfold_m. cbv zeta.
  destruct (fs_exists _ _).
  - destruct (fs_rmtree _ _) as [[u|e] d]; unfold_m; [|reflexivity].
    destruct (contains _ _); unfold_m; reflexivity.
  - destruct (contains _ _); unfold_m; [reflexivity|].
    destruct w; reflexivity.
Qed.

Lemma _remove_package_returns (package_name : string) (w : World) :
  exists b w', _remove_package package_name w = (Return b, w')
    /\ (b = false -> self w' = self w).
Proof.
  rewrite _remove_package_spec. cbv zeta.
  destruct (fs_exists _ _).
  - destruct (fs_rmtree _ _) as [[u|e] d]; eexists _, _; split;
      try reflexivity; try discriminate.
  - eexists _, _; split; [reflexivity|discriminate].
Qed.

Lemma printed_printed (l1 l2 : list string) (w : World) :
  printed l2 (printed l1 w) = printed (l1 ++ l2) w.
Proof. unfold printed. cbn [self disk stdout]. rewrite app_assoc. reflexivity. Qed.

Lemma print_all_spec (lines : list string) :
  forall w, print_all lines w = (Return tt, printed lines w).
Proof.
  induction lines as [|l ls IH]; intros w; simpl print_all.
  - unfold ret, printed. rewrite app_nil_r. destruct w; reflexivity.
  - unfold bind, print. rewrite IH, printed_printed. reflexivity.
Qed.

(** One turn of the loop of [remove], case by case. *)
Lemma remove_loop_cons (pkg_name : string) (rest : list string)
    (nodeps success : bool) (w : World) :
  remove_loop (pkg_name :: rest) nodeps success w
  = if negb (contains pkg_name (installed_pkgs (self w))) then
      remove_loop rest nodeps success
        (printed ["Package " ++ pkg_name ++ " is not installed"] w)
    else
      match (if negb nodeps then dependents_of pkg_name (installed_pkgs (self w))
             else []) with
      | dep :: deps =>
          remove_loop rest nodeps false
            (printed (("Cannot remove " ++ pkg_name
                       ++ ": the following packages depend on it:")
                      :: map (fun d => "  " ++ d) (dep :: deps)) w)
      | [] =>
          match _remove_package pkg_name w with
          | (Return true, w1) =>
              remove_loop rest nodeps success
                (printed ["Successfully removed " ++ pkg_name] w1)
          | (Return false, w1) =>
              remove_loop rest nodeps false
                (printed ["Failed to remove package: " ++ pkg_name] w1)
          | (Raise e, w1) => (Raise e, w1)
          end
      end.
Proof.
  simpl remove_loop.
  unfold bind at 1. unfold get_self at 1.
  destruct (negb (contains pkg_name (installed_pkgs (self w)))).
  - reflexivity.
  - unfold bind at 1.
    assert (Hdeps :
      (if negb nodeps then _find_dependents pkg_name else ret []) w
      = (Return (if negb nodeps then dependents_of pkg_name (installed_pkgs (self w))
                 else []), w)).
    { destruct nodeps; reflexivity. }
    rewrite Hdeps.
    destruct (if negb nodeps then dependents_of pkg_name (installed_pkgs (self w))
              else []) as [|dep deps].
    + unfold bind at 1.
      destruct (_remove_package pkg_name w) as [[[|]|e] w1]; reflexivity.
    + unfold bind, print, ret. rewrite print_all_spec, !printed_printed.
      reflexivity.
Qed.

(** A request to remove one name. *)
Lemma remove_one_spec (pkg_name : string) (nodeps : bool) (w : World) :
  remove [pkg_name] nodeps w
  = if negb (contains pkg_name (installed_pkgs (self w))) then
      (Return true, printed ["Package " ++ pkg_name ++ " is not installed"] w)
    else
      match (if negb nodeps then dependents_of pkg_name (installed_pkgs (self w))
             else []) with
      | dep :: deps =>
          (Return false,
           printed (("Cannot remove " ++ pkg_name
                     ++ ": the following packages depend on it:")
                    :: map (fun d => "  " ++ d) (dep :: deps)) w)
      | [] =>
          match _remove_package pkg_name w with
          | (Return true, w1) =>
              (Return true, printed ["Successfully removed " ++ pkg_name] w1)
          | (Return false, w1) =>
              (Return false, printed ["Failed to remove package: " ++ pkg_name] w1)
          | (Raise e, w1) => (Raise e, w1)
          end
      end.
Proof.
  unfold remove. rewrite remove_loop_cons.
  destruct (negb _); [reflexivity|].
  destruct (if negb nodeps then _ else _); [|reflexivity].
  destruct (_remove_package pkg_name w) as [[[|]|e] w1]; reflexivity.
Qed.

(** [remove] never raises. *)
Lemma remove_loop_returns (l : list string) (nodeps : bool) :
  forall (success : bool) (w : World),
  exists b w', remove_loop l nodeps success w = (Return b, w').
Proof.
  induction l as [|pkg_name l IH]; intros success w.
  - eexists _, _. reflexivity.
  - rewrite remove_loop_cons.
    destruct (negb _); [apply IH|].
    destruct (if negb nodeps then _ else _); [|apply IH].
    destruct (_remove_package_returns pkg_name w) as (b & w1 & -> & _).
    destruct b; apply IH.
Qed.

(** Starting the loop of [remove] with the flag down only changes the value
    it returns. *)
Lemma remove_loop_flag (l : list string) (nodeps : bool) :
  forall (success : bool) (w : World),
  remove_loop l nodeps success w
  = match remove_loop l nodeps true w with
    | (Return b, w') => (Return (success && b), w')
    | (Raise e, w') => (Raise e, w')
    end.
Proof.
  induction l as [|pkg_name l IH]; intros success w.
  - simpl. unfold ret. rewrite andb_true_r. reflexivity.
  - destruct success.
    { destruct (remove_loop (pkg_name :: l) nodeps true w) as [[b|e] w'];
        reflexivity. }
    assert (Hfalse : forall w1,
      remove_loop l nodeps false w1
      = match remove_loop l nodeps false w1 with
        | (Return b, w') => (Return (false && b), w')
        | (Raise e, w') => (Raise e, w')
        end).
    { intros w1. rewrite (IH false w1).
      destruct (remove_loop l nodeps true w1) as [[b|e] w']; reflexivity. }
    rewrite !remove_loop_cons.
    destruct (negb _); [apply IH|].
    destruct (if negb nodeps then _ else _); [|apply Hfalse].
    destruct (_remove_package pkg_name w) as [[[|]|e] w1];
      [apply IH|apply Hfalse|reflexivity].
Qed.

Lemma remove_loop_app (xs ys : list string) (nodeps : bool) :
  forall (success : bool) (w : World),
  remove_loop (xs ++ ys) nodeps success w
  = match remove_loop xs nodeps success w with
    | (Return success', w') => remove_loop ys nodeps success' w'
    | (Raise e, w') => (Raise e, w')
    end.
Proof.
  induction xs as [|pkg_name xs IH]; intros success w.
  - reflexivity.
  - simpl app. rewrite !remove_loop_cons.
    destruct (negb _); [apply IH|].
    destruct (if negb nodeps then _ else _); [|apply IH].
    destruct (_remove_package pkg_name w) as [[[|]|e] w1];
      [apply IH|apply IH|reflexivity].
Qed.

Lemma dependents_of_nonempty (p : string) (installed : dict Package) :
  dependents_of p installed <> []
  <-> exists q, q ∈ values installed /\ p ∈ depends q.
Proof.
  unfold dependents_of.
  assert (Hin : forall q, existsb (String.eqb p) (depends q) = true <-> p ∈ depends q).
  { intros q. rewrite existsb_exists. split.
    - intros (x & Hx & He). apply String.eqb_eq in He. subst x.
      apply list_elem_of_In. exact Hx.
    - intros Hp. exists p. split; [apply list_elem_of_In, Hp|apply String.eqb_refl]. }
  split.
  - intros Hne.
    destruct (List.filter _ (values installed)) as [|q qs] eqn:Hf;
      [contradiction Hne; reflexivity|].
    assert (Hq : In q (List.filter (fun pkg => existsb (String.eqb p) (depends pkg))
                                  (values installed))).
    { rewrite Hf. left. reflexivity. }
    apply filter_In in Hq as [Hq1 Hq2].
    exists q. split; [apply list_elem_of_In, Hq1|apply Hin, Hq2].
  - intros (q & Hq & Hp) Hnil.
    assert (Hq' : In q (List.filter (fun pkg => existsb (String.eqb p) (depends pkg))
                                   (values installed))).
    { apply filter_In. split; [apply list_elem_of_In, Hq|apply Hin, Hp]. }
    destruct (List.filter _ (values installed)); [contradiction|discriminate].
Qed.

End PkgFacts.

Section PkgClaims.
Import PyStr PyExc PyDict Pathlib Pkg SpecWords MemFS.

(** C1, as the specification words it, fails on the code.  Three removals
    are requested; the second is refused because [foo] depends on [bar]; the
    request reports failure, and yet the first removal stays and the third
    is carried out: only [bar] is left of the three installed packages. *)
Lemma multi_remove_keeps_partial_state :
  let before :=
    world sound_fs [package "a" [] ["a"]; package "bar" [] ["bar"];
                    package "foo" ["bar"] ["foo"]] [] in
  let r := remove ["a"; "bar"; "foo"] false before in
  fst r = Return false
  /\ keys (installed_pkgs (self before)) = ["a"; "bar"; "foo"]
  /\ keys (installed_pkgs (self (snd r))) = ["bar"]
  /\ installed_pkgs (self (snd r)) <> installed_pkgs (self before).
Proof. vm_compute. repeat split; try reflexivity. discriminate. Qed.

(** The same with an error of the file system: the directory of [b] cannot
    be deleted; [a] is removed all the same and the request returns [False]. *)
Example multi_remove_with_filesystem_error :
  let fsys := mem_fs (String.eqb "/var/lib/syzygia/local/b") in
  let before :=
    world fsys [package "a" [] ["a"]; package "b" [] ["b"]]
          [("/var/lib/syzygia/local/a/desc", "name: a");
           ("/var/lib/syzygia/local/b/desc", "name: b")] in
  let r := remove ["a"; "b"] false before in
  fst r = Return false
  /\ keys (installed_pkgs (self (snd r))) = ["b"]
  /\ disk (snd r) = [("/var/lib/syzygia/local/b/desc", "name: b")].
Proof. vm_compute. repeat split; reflexivity. Qed.

(** An installation that raises in the middle of a request leaves the
    packages installed before it, and its own entry when the error comes
    after the entry was made. *)
Example multi_install_with_filesystem_error :
  let fsys := mem_fs (String.eqb "/var/lib/syzygia/local/b") in
  let r := install ["a"; "b"; "c"] false (world fsys [] []) in
  fst r = Raise "[Errno 13] Permission denied"
  /\ keys (installed_pkgs (self (snd r))) = ["a"; "b"].
Proof. vm_compute. split; reflexivity. Qed.

(** C2, as the specification words it, fails on the code: [foo] depends on
    the capability [virt] that [bar] provides, so the specification counts
    [foo] as a dependent of [bar]; [_find_dependents] looks for the name
    [bar] only, and the removal of [bar] goes through. *)
Lemma remove_ignores_provided_capabilities :
  let bar := package "bar" [] ["bar"; "virt"] in
  let before := world sound_fs [bar; package "foo" ["virt"] ["foo"]] [] in
  let r := remove ["bar"] false before in
  spec_dependents (installed_pkgs (self before)) bar = ["foo"]
  /\ fst r = Return true
  /\ contains "bar" (installed_pkgs (self (snd r))) = false.
Proof. vm_compute. repeat split; reflexivity. Qed.

(** The blocked removal of the specification's example: [foo] depends on
    [bar] by name. *)
Example blocked_removal :
  let before := world sound_fs [package "bar" [] ["bar"]; package "foo" ["bar"] ["foo"]] [] in
  remove ["bar"] false before
  = (Return false,
     printed ["Cannot remove bar: the following packages depend on it:"; "  foo"]
             before)
  /\ fst (remove ["bar"] true before) = Return true
  /\ keys (installed_pkgs (self (snd (remove ["bar"] true before)))) = ["foo"].
Proof. vm_compute. repeat split; reflexivity. Qed.

End PkgClaims.

Section PkgTheorems.
Import PyStr PyExc PyDict Pathlib Pkg.
Context {fsys : FileSystem}.

(** C1 (amended): a request of several operations is applied one operation
    after the other, each on the database the previous ones left, and nothing
    is rolled back: the request on [xs ++ ys] is the request on [xs] followed
    by the request on [ys]; a removal request returns [False] when either
    part does; an installation that raises ends the request where it stands.
    Only a request of one removal is all or nothing: when it returns [False]
    the manager, and with it the installed-package database, is as before. *)
Theorem requests_apply_operations_in_sequence
    (xs ys : list string) (nodeps : bool) (w : World) :
  (exists b1 w1 b2 w2,
      remove xs nodeps w = (Return b1, w1)
      /\ remove ys nodeps w1 = (Return b2, w2)
      /\ remove (xs ++ ys) nodeps w = (Return (b1 && b2), w2))
  /\ (forall b1 w1,
        install xs nodeps w = (Return b1, w1) ->
        b1 = true /\ install (xs ++ ys) nodeps w = install ys nodeps w1)
  /\ (forall e w1,
        install xs nodeps w = (Raise e, w1) ->
        install (xs ++ ys) nodeps w = (Raise e, w1))
  /\ (forall pkg_name w',
        remove [pkg_name] nodeps w = (Return false, w') -> self w' = self w).
Proof.
  split; [|split; [|split]].
  - unfold remove.
    destruct (remove_loop_returns xs nodeps true w) as (b1 & w1 & H1).
    destruct (remove_loop_returns ys nodeps true w1) as (b2 & w2 & H2).
    exists b1, w1, b2, w2. split; [exact H1|]. split; [exact H2|].
    rewrite remove_loop_app, H1, remove_loop_flag, H2. reflexivity.
  - unfold install. intros b1 w1 H1.
    pose proof (install_loop_result _ _ _ _ _ H1) as ->.
    split; [reflexivity|]. rewrite install_loop_app, H1. reflexivity.
  - unfold install. intros e w1 H1. rewrite install_loop_app, H1. reflexivity.
  - intros pkg_name w'. rewrite remove_one_spec.
    destruct (negb _); [discriminate|].
    destruct (if negb nodeps then _ else _).
    + destruct (_remove_package_returns pkg_name w) as (b & w1 & -> & Hself).
      destruct b; [discriminate|].
      intros H. injection H as <-. apply Hself. reflexivity.
    + intros H. injection H as <-. reflexivity.
Qed.

(** C2 (amended): for an installed package [p], removing [p] without
    [nodeps] is refused (the dependents are reported, the result is [False]
    and nothing changes but the console) exactly when some installed package,
    [p] itself included, lists the name of [p] in its [depends]; what [p]
    provides is not consulted; without such a package the removal goes on as
    it does with [nodeps].  With [nodeps] the dependents are not looked at:
    when the package directory is absent or its deletion returns, the result
    is [True] and [p] is no longer installed. *)
Theorem remove_refused_iff_named_in_depends
    (p : string) (w : World)
    (Hinstalled : contains p (installed_pkgs (self w)) = true) :
  let dependents := dependents_of p (installed_pkgs (self w)) in
  (dependents <> []
   <-> exists q, q ∈ values (installed_pkgs (self w)) /\ p ∈ depends q)
  /\ (dependents <> [] ->
      remove [p] false w
      = (Return false,
         printed (("Cannot remove " ++ p ++ ": the following packages depend on it:")
                  :: map (fun d => "  " ++ d) dependents) w))
  /\ (dependents = [] -> remove [p] false w = remove [p] true w)
  /\ (fs_exists (package_dir (self w) p) (disk w) = false
      \/ (exists u d, fs_rmtree (package_dir (self w) p) (disk w) = (Return u, d)) ->
      fst (remove [p] true w) = Return true
      /\ contains p (installed_pkgs (self (snd (remove [p] true w)))) = false).
Proof.
  cbv zeta. split; [apply dependents_of_nonempty|].
  rewrite !remove_one_spec, Hinstalled. cbn [negb].
  split; [|split].
  - destruct (dependents_of p (installed_pkgs (self w))); [congruence|reflexivity].
  - intros ->. reflexivity.
  - intros Hfs. rewrite _remove_package_spec, Hinstalled. cbv zeta.
    destruct (fs_exists (package_dir (self w) p) (disk w)).
    + destruct Hfs as [Hfs|(u & d & ->)]; [discriminate|].
      cbn [fst snd printed self installed_pkgs]. split; [reflexivity|].
      apply contains_del.
    + cbn [fst snd printed self installed_pkgs]. split; [reflexivity|].
      apply contains_del.
Qed.

(** [upgrade()] with no argument goes through the installed names. *)
Lemma upgrade_none_is_all_installed (w : World) :
  upgrade None w = upgrade (Some (keys (installed_pkgs (self w)))) w.
Proof. reflexivity. Qed.

(** [upgrade] of an empty list prints the update banner and checks nothing. *)
Lemma upgrade_empty_list (w : World) :
  upgrade (Some []) w = (Return true, printed ["Updating package databases..."] w).
Proof. reflexivity. Qed.

(** C10: installing a name that is installed changes nothing but the console
    and reports success; and after a first installation of a name that
    returned, a second one, as a new request or in the same request, returns
    [True] whenever it returns and leaves the installed-package database as
    the first left it. *)
Theorem install_is_idempotent (pkg_name : string) (nodeps : bool) (w : World) :
  (contains pkg_name (installed_pkgs (self w)) = true ->
   install [pkg_name] nodeps w
   = (Return true, printed ["Package " ++ pkg_name ++ " is already installed"] w))
  /\ (forall b w1,
        install [pkg_name] nodeps w = (Return b, w1) ->
        b = true
        /\ installed_pkgs (self (snd (install [pkg_name] nodeps w1)))
           = installed_pkgs (self w1)
        /\ (forall b', fst (install [pkg_name] nodeps w1) = Return b' -> b' = true)
        /\ install [pkg_name; pkg_name] nodeps w = install [pkg_name] nodeps w1).
Proof.
  split.
  - intros Hc. unfold install, install_loop. unfold_m. rewrite Hc. reflexivity.
  - intros b w1 H1.
    destruct (install_one_spec pkg_name nodeps w) as (Hcache & Hret & Hdb & Htouch).
    destruct (install_one_spec pkg_name nodeps w1) as (_ & Hret1 & Hdb1 & _).
    rewrite H1 in Hcache, Hret, Hdb, Htouch. cbn [fst snd] in *.
    pose proof (Hret b eq_refl) as ->.
    split; [reflexivity|]. split; [|split; [exact Hret1|]].
    + rewrite Hdb1.
      destruct (contains pkg_name (installed_pkgs (self w1))) eqn:Hc1; [reflexivity|].
      destruct (fst (fs_touch (cache_file (self w1) pkg_name) (disk w1)));
        [|reflexivity].
      destruct (contains pkg_name (installed_pkgs (self w))) eqn:Hc.
      * rewrite Hdb in Hc1. congruence.
      * destruct (Htouch eq_refl true eq_refl) as [u Hu].
        rewrite Hu in Hdb.
        unfold cache_file in *. rewrite Hcache, Hdb.
        apply set_set.
    + change [pkg_name; pkg_name] with ([pkg_name] ++ [pkg_name])%list.
      unfold install in *. rewrite install_loop_app, H1. reflexivity.
Qed.

End PkgTheorems.

Section PkgRuns.
Import PyStr PyExc PyDict Pathlib Pkg MemFS.

Lemma remove_refused_iff_named_in_depends_witness :
  let w := world sound_fs [package "bar" [] ["bar"]; package "foo" ["bar"] ["foo"]] [] in
  contains "bar" (installed_pkgs (self w)) = true
  /\ remove ["bar"] false w
     = (Return false,
        printed ["Cannot remove bar: the following packages depend on it:"; "  foo"] w)
  /\ fst (remove ["bar"] true w) = Return true
  /\ contains "bar" (installed_pkgs (self (snd (remove ["bar"] true w)))) = false.
Proof.
  cbv zeta.
  split; [reflexivity|].
  destruct (@remove_refused_iff_named_in_depends sound_fs "bar"
              (world sound_fs [package "bar" [] ["bar"]; package "foo" ["bar"] ["foo"]] [])
              eq_refl) as (_ & Hrefused & _ & Hforced).
  split; [apply Hrefused; discriminate|].
  apply Hforced. left. reflexivity.
Defined.

(** C3 fails on the code.  With [a] and [b] installed, the [upgrade] command
    given no name passes the empty list on, and [upgrade] then looks at no
    package: only the update banner is printed.  Called with the list of the
    installed names, or with [None], it goes through [a] and [b]. *)
Theorem cli_upgrade_without_names_checks_nothing :
  let w := world sound_fs [package "a" [] ["a"]; package "b" [] ["b"]] [] in
  cli_upgrade [] w = (Return 0%Z, printed ["Updating package databases..."] w)
  /\ upgrade (Some (keys (installed_pkgs (self w)))) w
     = (Return true,
        printed ["Updating package databases...";
                 "Checking for updates for a..."; "Package a is already installed";
                 "Checking for updates for b..."; "Package b is already installed"] w)
  /\ upgrade None w = upgrade (Some ["a"; "b"]) w.
Proof. vm_compute. repeat split; reflexivity. Qed.

Lemma requests_apply_operations_in_sequence_witness :
  let w :=
    world sound_fs [package "a" [] ["a"]; package "bar" [] ["bar"];
                    package "foo" ["bar"] ["foo"]] [] in
  exists b1 w1 b2 w2,
    remove ["a"] false w = (Return b1, w1)
    /\ remove ["bar"; "foo"] false w1 = (Return b2, w2)
    /\ remove ["a"; "bar"; "foo"] false w = (Return (b1 && b2), w2).
Proof.
  cbv zeta.
  exact (proj1 (@requests_apply_operations_in_sequence sound_fs
                  ["a"] ["bar"; "foo"] false
                  (world sound_fs [package "a" [] ["a"]; package "bar" [] ["bar"];
                                   package "foo" ["bar"] ["foo"]] []))).
Defined.

Lemma install_is_idempotent_witness :
  let w1 := snd (install ["vim"] false (world sound_fs [] [])) in
  install ["vim"] false (world sound_fs [] []) = (Return true, w1)
  /\ installed_pkgs (self (snd (install ["vim"] false w1))) = installed_pkgs (self w1).
Proof.
  cbv zeta. split; [reflexivity|].
  destruct (@install_is_idempotent sound_fs "vim" false (world sound_fs [] []))
    as [_ Hsecond].
  destruct (Hsecond true (snd (install ["vim"] false (world sound_fs [] []))) eq_refl)
    as (_ & Hdb & _).
  exact Hdb.
Defined.

Example install_twice :
  let w0 := world sound_fs [] [] in
  let r1 := install ["lib32-gcc"] false w0 in
  let r2 := install ["lib32-gcc"] false (snd r1) in
  fst r1 = Return true /\ fst r2 = Return true
  /\ keys (installed_pkgs (self (snd r1))) = ["lib32"]
  /\ installed_pkgs (self (snd r2)) = installed_pkgs (self (snd r1))
  /\ disk (snd r2) = disk (snd r1).
Proof. vm_compute. repeat split; reflexivity. Qed.

End PkgRuns.

(** ** Regular expressions *)

Section RegexFacts.
Import PyStr Regex.

Lemma lang_nil_app r1 r2 : lang r1 [] -> lang r2 [] -> lang (Seq r1 r2) [].
Proof. intros H1 H2. exact (lang_seq r1 r2 [] [] H1 H2). Qed.

Lemma lang_seq_inv r1 r2 s :
  lang (Seq r1 r2) s ->
  exists s1 s2, s = (s1 ++ s2)%list /\ lang r1 s1 /\ lang r2 s2.
Proof. intros H. inversion H; subst. eauto. Qed.

Lemma lang_alt_inv r1 r2 s : lang (Alt r1 r2) s -> lang r1 s \/ lang r2 s.
Proof. intros H. inversion H; subst; auto. Qed.

Lemma lang_class_inv cls s : lang (Class cls) s -> exists c, s = [c] /\ cls c = true.
Proof. intros H. inversion H; subst. eauto. Qed.

Lemma lang_eps_inv s : lang Eps s -> s = [].
Proof. intros H. inversion H; subst. reflexivity. Qed.

Lemma nullable_lang r : nullable r = true <-> lang r [].
Proof.
  induction r as [|cls|r1 IH1 r2 IH2|r1 IH1 r2 IH2|r IH]; simpl.
  - split; [intros _; constructor|reflexivity].
  - split; [discriminate|]. intros H. inversion H.
  - rewrite andb_true_iff, IH1, IH2. split.
    + intros [H1 H2]. apply lang_nil_app; assumption.
    + intros H. apply lang_seq_inv in H as (s1 & s2 & Hs & H1 & H2).
      symmetry in Hs. apply app_eq_nil in Hs as [-> ->]. split; assumption.
  - rewrite orb_true_iff, IH1, IH2. split.
    + intros [H|H]; [apply lang_alt_l|apply lang_alt_r]; exact H.
    + intros H. inversion H; subst; [left|right]; assumption.
  - split; [intros _; constructor|reflexivity].
Qed.

(** A non-empty word of [r*] starts with a non-empty word of [r]. *)
Lemma lang_star_cons_inv r c s :
  lang (Star r) (c :: s) ->
  exists s1 s2, s = (s1 ++ s2)%list /\ lang r (c :: s1) /\ lang (Star r) s2.
Proof.
  intros H. remember (Star r) as r0 eqn:Hr. remember (c :: s) as w eqn:Hw.
  revert c s Hw.
  induction H as [| | | | | |r' s1 s2 H1 _ H2 IH2]; intros c0 s0 Hw;
    try discriminate.
  injection Hr as ->.
  destruct s1 as [|c1 s1].
  - simpl in Hw. apply (IH2 eq_refl c0 s0 Hw).
  - simpl in Hw. injection Hw as -> <-.
    exists s1, s2. repeat split; assumption.
Qed.

Lemma alt_opt_lang o1 o2 s :
  (exists r, alt_opt o1 o2 = Some r /\ lang r s)
  <-> (exists r, o1 = Some r /\ lang r s) \/ (exists r, o2 = Some r /\ lang r s).
Proof.
  destruct o1 as [r1|], o2 as [r2|]; simpl; split.
  - intros (r & [= <-] & H). inversion H; subst; [left|right]; eauto.
  - intros [(r & [= <-] & H)|(r & [= <-] & H)]; eexists; split; try reflexivity;
      [apply lang_alt_l|apply lang_alt_r]; exact H.
  - intros (r & [= <-] & H). left. eauto.
  - intros [(r & [= <-] & H)|(r & Hr & _)]; [eauto|discriminate].
  - intros (r & [= <-] & H). right. eauto.
  - intros [(r & Hr & _)|(r & [= <-] & H)]; [discriminate|eauto].
  - intros (r & Hr & _). discriminate.
  - intros [(r & Hr & _)|(r & Hr & _)]; discriminate.
Qed.

Lemma seq_opt_lang o r2 s :
  (exists r, seq_opt o r2 = Some r /\ lang r s)
  <-> exists r1 s1 s2, o = Some r1 /\ s = (s1 ++ s2)%list /\ lang r1 s1 /\ lang r2 s2.
Proof.
  destruct o as [r1|]; simpl; split.
  - intros (r & [= <-] & H). inversion H; subst. eauto 8.
  - intros (r & s1 & s2 & [= <-] & -> & H1 & H2).
    eexists. split; [reflexivity|]. constructor; assumption.
  - intros (r & Hr & _). discriminate.
  - intros (r & s1 & s2 & Hr & _). discriminate.
Qed.

(** The derivative by [c] holds the words that, after [c], complete a word
    of the pattern. *)
Lemma deriv_lang c r :
  forall s, (exists r', deriv c r = Some r' /\ lang r' s) <-> lang r (c :: s).
Proof.
  induction r as [|cls|r1 IH1 r2 IH2|r1 IH1 r2 IH2|r IH]; intros s; simpl.
  - split; [intros (r' & Hr & _); discriminate|]. intros H. inversion H.
  - destruct (cls c) eqn:Hc; split.
    + intros (r' & [= <-] & H). inversion H; subst. constructor. exact Hc.
    + intros H. inversion H; subst. exists Eps. split; [reflexivity|constructor].
    + intros (r' & Hr & _). discriminate.
    + intros H. inversion H; subst. congruence.
  - rewrite alt_opt_lang, seq_opt_lang. split.
    + intros [(r1' & s1 & s2 & Hd & -> & H1 & H2)|(r' & Hd & H)].
      * change (c :: s1 ++ s2)%list with ((c :: s1) ++ s2)%list.
        constructor; [|exact H2]. apply IH1. eauto.
      * destruct (nullable r1) eqn:Hn; [|discriminate].
        change (c :: s) with ([] ++ c :: s)%list.
        constructor; [apply nullable_lang, Hn|]. apply IH2. eauto.
    + intros H. apply lang_seq_inv in H as (s1 & s2 & Hs & H1 & H2).
      destruct s1 as [|c1 s1]; simpl in Hs.
      * right. subst s2. apply nullable_lang in H1. rewrite H1.
        apply IH2. exact H2.
      * injection Hs as <- ->. left.
        apply IH1 in H1 as (r1' & Hd & H1). eauto 8.
  - rewrite alt_opt_lang, IH1, IH2. split.
    + intros [H|H]; [apply lang_alt_l|apply lang_alt_r]; exact H.
    + intros H. inversion H; subst; [left|right]; assumption.
  - rewrite seq_opt_lang. split.
    + intros (r1 & s1 & s2 & Hd & -> & H1 & H2).
      change (c :: s1 ++ s2)%list with ((c :: s1) ++ s2)%list.
      constructor; [|exact H2]. apply IH. eauto.
    + intros H. apply lang_star_cons_inv in H as (s1 & s2 & -> & H1 & H2).
      apply IH in H1 as (r1 & Hd & H1). eauto 8.
Qed.

(** The matcher decides the language. *)
Lemma matches_lang s : forall r, matches r s = true <-> lang r s.
Proof.
  induction s as [|c s IH]; intros r; simpl.
  - apply nullable_lang.
  - rewrite <- deriv_lang. destruct (deriv c r) as [r'|]; split.
    + intros H. exists r'. split; [reflexivity|apply IH, H].
    + intros (r0 & [= <-] & H). apply IH, H.
    + discriminate.
    + intros (r0 & Hr & _). discriminate.
Qed.

Lemma before_final_newline_spec l b :
  before_final_newline l = Some b <-> l = (b ++ [newline])%list.
Proof.
  revert b. induction l as [|c l IH]; intros b.
  - split; [discriminate|]. destruct b; discriminate.
  - destruct l as [|c' l'].
    + simpl. destruct (ascii_eqb c newline) eqn:E; split.
      * intros [= <-]. apply Ascii.eqb_eq in E. subst c. reflexivity.
      * intros H. destruct b as [|? [|? ?]]; try discriminate. reflexivity.
      * discriminate.
      * intros H. destruct b as [|? [|? ?]]; try discriminate.
        injection H as ->. unfold ascii_eqb in E. rewrite Ascii.eqb_refl in E.
        discriminate.
    + change (before_final_newline (c :: c' :: l'))
        with (match before_final_newline (c' :: l') with
              | Some b0 => Some (c :: b0) | None => None end).
      destruct (before_final_newline (c' :: l')) as [b0|]; split.
      * intros [= <-]. rewrite (proj1 (IH b0) eq_refl). reflexivity.
      * intros H. destruct b as [|x b]; [discriminate|].
        injection H as -> H. apply IH in H. congruence.
      * discriminate.
      * intros H. destruct b as [|x b]; [discriminate|].
        injection H as -> H. apply IH in H. discriminate.
Qed.

(** What an anchored pattern accepts: a word of its language, optionally
    followed by one final newline. *)
Lemma re_match_anchored_spec r s :
  re_match_anchored r s = true
  <-> exists body, lang r body
        /\ (chars s = body \/ chars s = (body ++ [newline])%list).
Proof.
  unfold re_match_anchored. rewrite orb_true_iff, matches_lang. split.
  - intros [H|H]; [eauto|].
    destruct (before_final_newline (chars s)) as [b|] eqn:Hb; [|discriminate].
    apply matches_lang in H. apply before_final_newline_spec in Hb. eauto.
  - intros (body & H & [Hs|Hs]); [left; rewrite Hs; exact H|right].
    apply before_final_newline_spec in Hs. rewrite Hs. apply matches_lang, H.
Qed.

Lemma lang_star_class cls s :
  lang (Star (Class cls)) s <-> Forall (fun c => cls c = true) s.
Proof.
  split.
  - induction s as [|c s IH]; intros H; [constructor|].
    apply lang_star_cons_inv in H as (s1 & s2 & -> & H1 & H2).
    inversion H1; subst. constructor; [assumption|]. apply IH. exact H2.
  - induction 1 as [|c s Hc _ IH]; [constructor|].
    change (c :: s) with ([c] ++ s)%list. constructor; [constructor; exact Hc|exact IH].
Qed.

Lemma lang_plus_class cls s :
  lang (Plus (Class cls)) s
  <-> exists c body, s = c :: body /\ cls c = true
                     /\ Forall (fun x => cls x = true) body.
Proof.
  unfold Plus. split.
  - intros H. apply lang_seq_inv in H as (s1 & s2 & -> & H1 & H2).
    apply lang_class_inv in H1 as (c & -> & Hc).
    apply lang_star_class in H2. simpl. eauto.
  - intros (c & body & -> & Hc & Hall).
    change (c :: body) with ([c] ++ body)%list.
    constructor; [constructor; exact Hc|apply lang_star_class, Hall].
Qed.

(** The generic matcher agrees with the matcher of the name and version
    patterns. *)
Lemma re_match_anchored_class_plus cls s :
  re_match_anchored (Plus (Class cls)) s = re_match_class_plus cls s.
Proof.
  apply eq_true_iff_eq.
  rewrite re_match_anchored_spec, re_match_class_plus_spec. split.
  - intros (body & H & Hs). apply lang_plus_class in H as (c & b & -> & Hc & Hall).
    exists c, b. auto.
  - intros (c & b & Hc & Hall & Hs). exists (c :: b). split; [|exact Hs].
    apply lang_plus_class. eauto.
Qed.

End RegexFacts.

(** ** Dependencies *)

Section DependencyFacts.
Import PyStr Regex Validator ValidatorDeps.

Lemma one_of_true cs c : one_of cs c = true <-> In c (chars cs).
Proof.
  unfold one_of, chars. rewrite existsb_exists. split.
  - intros (x & Hx & He). apply ascii_eqb_eq in He. subst. exact Hx.
  - intros H. exists c. split; [exact H|apply ascii_eqb_eq; reflexivity].
Qed.

Lemma lang_chr c s : lang (Chr c) s <-> s = [c].
Proof.
  unfold Chr. split.
  - intros H. apply lang_class_inv in H as (x & -> & Hx).
    apply ascii_eqb_eq in Hx. subst. reflexivity.
  - intros ->. constructor. apply ascii_eqb_eq. reflexivity.
Qed.

Lemma lang_opt r s : lang (Opt r) s <-> lang r s \/ s = [].
Proof.
  unfold Opt. split.
  - intros H. apply lang_alt_inv in H as [H|H]; [left; exact H|right].
    apply lang_eps_inv, H.
  - intros [H| ->]; [apply lang_alt_l, H|apply lang_alt_r; constructor].
Qed.

(** The operator pattern describes the eight operators. *)
Lemma lang_operator s : lang operator s <-> exists op, In op operators /\ s = chars op.
Proof.
  split.
  - unfold operator. intros H.
    apply lang_alt_inv in H as [H|H]; [|apply lang_alt_inv in H as [H|H]].
    + apply lang_seq_inv in H as (s1 & s2 & -> & H1 & H2).
      apply lang_chr in H2 as ->. apply lang_opt in H1 as [H1| ->].
      * apply lang_class_inv in H1 as (c & -> & Hc). apply one_of_true in Hc.
        simpl in Hc.
        destruct Hc as [<-|[<-|[<-|[<-|[<-|[]]]]]];
          [exists "=="|exists ">="|exists "<="|exists "~="|exists "!="];
          (split; [simpl; tauto|reflexivity]).
      * exists "=". split; [simpl; tauto|reflexivity].
    + apply lang_seq_inv in H as (s1 & s2 & -> & H1 & H2).
      apply lang_class_inv in H1 as (c & -> & Hc). apply one_of_true in Hc.
      simpl in Hc. apply lang_opt in H2 as [H2| ->].
      * apply lang_chr in H2 as ->.
        destruct Hc as [<-|[<-|[]]]; [exists ">="|exists "<="];
          (split; [simpl; tauto|reflexivity]).
      * destruct Hc as [<-|[<-|[]]]; [exists ">"|exists "<"];
          (split; [simpl; tauto|reflexivity]).
    + apply lang_seq_inv in H as (s1 & s2 & -> & H1 & H2).
      apply lang_chr in H1 as ->. apply lang_chr in H2 as ->.
      exists "~=". split; [simpl; tauto|reflexivity].
  - intros (op & Hop & ->). apply matches_lang.
    simpl in Hop.
    destruct Hop as [<-|[<-|[<-|[<-|[<-|[<-|[<-|[<-|[]]]]]]]]]; reflexivity.
Qed.

Lemma lang_versioned_dependency s :
  lang versioned_dependency s
  <-> exists name op version,
        s = (name ++ chars op ++ version)%list
        /\ name <> [] /\ Forall (fun c => name_class c = true) name
        /\ In op operators
        /\ Forall (fun c => constraint_class c = true) version.
Proof.
  unfold versioned_dependency. split.
  - intros H. apply lang_seq_inv in H as (s1 & s2 & -> & H1 & H2).
    apply lang_seq_inv in H2 as (s3 & s4 & -> & H3 & H4).
    apply lang_plus_class in H1 as (c & body & -> & Hc & Hall).
    apply lang_operator in H3 as (op & Hop & ->).
    apply lang_star_class in H4.
    exists (c :: body), op, s4. repeat split; try assumption; try discriminate.
    constructor; assumption.
  - intros (name & op & version & -> & Hne & Hall & Hop & Hv).
    constructor.
    + apply lang_plus_class. destruct name as [|c body]; [contradiction|].
      inversion Hall; subst. eauto.
    + constructor; [apply lang_operator; eauto|apply lang_star_class, Hv].
Qed.

(** What the loop of [validate_package_dependencies] lets through. *)
Lemma dependency_ok_spec dep :
  dependency_ok dep = true <-> well_formed_dependency dep.
Proof.
  unfold dependency_ok, well_formed_dependency.
  rewrite orb_true_iff, !re_match_anchored_spec. split.
  - intros [(body & H & Hs)|(body & H & Hs)].
    + apply lang_versioned_dependency in H
        as (name & op & version & -> & Hne & Hall & Hop & Hv).
      exists name.
      destruct Hs as [Hs|Hs].
      * exists (chars op ++ version)%list. repeat split; try assumption.
        right. right. exists op, version. auto.
      * exists (chars op ++ version ++ [newline])%list.
        split; [rewrite Hs, <- !app_assoc; reflexivity|].
        repeat split; try assumption.
        right. right. exists op, version. auto.
    + apply lang_plus_class in H as (c & b & -> & Hc & Hall).
      exists (c :: b).
      destruct Hs as [Hs|Hs].
      * exists []. rewrite app_nil_r. repeat split; auto; try discriminate.
      * exists [newline]. repeat split; auto; try discriminate.
  - intros (name & rest & Hs & Hne & Hall & Hrest).
    assert (Hname : lang bare_dependency name).
    { apply lang_plus_class. destruct name as [|c b]; [contradiction|].
      inversion Hall; subst. eauto. }
    destruct Hrest as [->|[->|(op & version & Hop & Hv & Hrest)]].
    + right. exists name. rewrite app_nil_r in Hs. auto.
    + right. exists name. auto.
    + left. exists (name ++ chars op ++ version)%list. split.
      * apply lang_versioned_dependency. exists name, op, version. auto.
      * destruct Hrest as [->| ->]; [left; exact Hs|right].
        rewrite Hs, <- !app_assoc. reflexivity.
Qed.

(** The loop stops at the first entry that fails the test. *)
Lemma validate_package_dependencies_find deps :
  validate_package_dependencies deps
  = match find (fun d => negb (dependency_ok d)) deps with
    | Some d => (false, "Invalid dependency format: " ++ d)
    | None => (true, EmptyString)
    end.
Proof.
  induction deps as [|dep rest IH]; [reflexivity|].
  simpl. unfold dependency_ok.
  destruct (re_match_anchored versioned_dependency dep); simpl; [exact IH|].
  destruct (re_match_anchored bare_dependency dep); simpl; [exact IH|reflexivity].
Qed.

Lemma validate_package_name_regex name :
  fst (validate_package_name name) = true ->
  re_match_class_plus name_class name = true.
Proof.
  destruct name as [|c0 rest]; [discriminate|].
  unfold validate_package_name.
  destruct (re_match_class_plus name_class (String c0 rest)); [reflexivity|].
  discriminate.
Qed.

Lemma valid_name_dependency_ok name :
  fst (validate_package_name name) = true -> dependency_ok name = true.
Proof.
  intros H. unfold dependency_ok, bare_dependency.
  rewrite re_match_anchored_class_plus, (validate_package_name_regex name H).
  apply orb_true_r.
Qed.

End DependencyFacts.

Section DependencyProperties.
Import PyStr Regex Validator ValidatorDeps.

(** X1: [validate_package_version] accepts exactly the strings that start
    with a digit and continue with characters of [[a-zA-Z0-9._+:~-]],
    optionally followed by one final newline, which the [$] of the pattern
    lets through. *)
Theorem version_accepted_iff_digit_then_class (v : string) :
  fst (validate_package_version v) = true
  <-> exists c body,
        isdigit c = true /\ Forall (fun x => version_class x = true) body
        /\ (chars v = c :: body \/ chars v = (c :: body ++ [newline])%list).
Proof. apply validate_package_version_accepts. Qed.

(** X2: every name that [validate_package_name] accepts is accepted as a
    dependency, so a list of valid package names is a valid [depends] list. *)
Theorem valid_names_are_valid_dependencies (deps : list string)
    (Hnames : Forall (fun d => fst (validate_package_name d) = true) deps) :
  validate_package_dependencies deps = (true, EmptyString).
Proof.
  rewrite validate_package_dependencies_find.
  induction Hnames as [|d rest Hd _ IH]; [reflexivity|].
  simpl. rewrite (valid_name_dependency_ok d Hd). simpl. exact IH.
Qed.

Lemma valid_names_are_valid_dependencies_witness :
  validate_package_dependencies ["glibc"; "lib32-gcc_libs"; "gtk2+extra"]
  = (true, EmptyString).
Proof.
  apply valid_names_are_valid_dependencies.
  repeat constructor.
Defined.

(** X3: [validate_package_dependencies] accepts a list exactly when every
    entry is a name of characters of [[a-zA-Z0-9@._+-]], alone or followed by
    one of the operators [=], [==], [>=], [<=], [~=], [!=], [>], [<] and any
    number (possibly none) of characters of [[0-9a-zA-Z.:+~-]], with an
    optional final newline. *)
Theorem dependencies_accepted_iff_well_formed (deps : list string) :
  fst (validate_package_dependencies deps) = true
  <-> Forall well_formed_dependency deps.
Proof.
  rewrite validate_package_dependencies_find.
  induction deps as [|d rest IH]; simpl.
  - split; [constructor|reflexivity].
  - destruct (dependency_ok d) eqn:Hd; simpl.
    + rewrite IH. split.
      * intros H. constructor; [apply dependency_ok_spec, Hd|exact H].
      * intros H. inversion H; assumption.
    + split; [discriminate|].
      intros H. inversion H as [|? ? Hwf _]; subst.
      apply dependency_ok_spec in Hwf. congruence.
Qed.

(** X4: when a list is rejected, the message names the first entry that is
    not well formed; the entries after it are not examined. *)
Theorem first_malformed_dependency_is_reported
    (before after : list string) (dep : string)
    (Hbefore : Forall well_formed_dependency before)
    (Hdep : ~ well_formed_dependency dep) :
  validate_package_dependencies (before ++ dep :: after)
  = (false, "Invalid dependency format: " ++ dep).
Proof.
  rewrite validate_package_dependencies_find.
  induction Hbefore as [|d rest Hd _ IH]; simpl.
  - destruct (dependency_ok dep) eqn:E; [|reflexivity].
    apply dependency_ok_spec in E. contradiction.
  - apply dependency_ok_spec in Hd. rewrite Hd. simpl. exact IH.
Qed.

Lemma first_malformed_dependency_is_reported_witness :
  validate_package_dependencies ["glibc>=2.38"; "foo=>1"; "not a name"]
  = (false, "Invalid dependency format: foo=>1").
Proof.
  apply (first_malformed_dependency_is_reported ["glibc>=2.38"] ["not a name"] "foo=>1").
  - constructor; [|constructor]. apply dependency_ok_spec. reflexivity.
  - intros H. apply dependency_ok_spec in H. discriminate.
Defined.

End DependencyProperties.

(** ** Package files *)

Section PackageFileProperties.
Import PyStr Pathlib ValidatorFiles.

Example suffix_examples :
  suffix (of_string "/srv/repo/vim-9.1-1.pkg.tar.zst") = ".zst"
  /\ suffix (of_string ".bashrc") = EmptyString
  /\ suffix (of_string "archive.") = EmptyString
  /\ suffix (of_string "README") = EmptyString.
Proof. repeat split; reflexivity. Qed.

(** What [from_last_dot] returns starts with a dot and has no other dot. *)
Lemma from_last_dot_shape s suf :
  from_last_dot s = Some suf ->
  exists t, suf = String "." t /\ from_last_dot t = None.
Proof.
  induction s as [|c s IH]; simpl; [discriminate|].
  destruct (from_last_dot s) as [suf'|] eqn:Hs.
  - intros [= <-]. apply IH. reflexivity.
  - destruct (ascii_eqb c ".") eqn:Hc; [|discriminate].
    intros [= <-]. apply ascii_eqb_eq in Hc. subst c. exists s. auto.
Qed.

Lemma suffix_not_package_extension p :
  existsb (String.eqb (suffix p)) package_extensions = false.
Proof.
  unfold suffix.
  destruct (name p) as [|c0 rest]; [reflexivity|].
  destruct (from_last_dot rest) as [suf|] eqn:Hs; [|reflexivity].
  destruct (1 <? String.length suf)%nat; [|reflexivity].
  apply from_last_dot_shape in Hs as (t & -> & Ht).
  apply not_true_is_false. intros H.
  apply existsb_exists in H as (ext & Hext & He).
  apply String.eqb_eq in He. subst ext. simpl in Hext.
  destruct Hext as [H|[H|[H|[H|[]]]]]; injection H as <-; discriminate.
Qed.

(** X5: [validate_package_file] accepts no path at all.  [Path.suffix] is
    the last extension only ([.zst] for [x.pkg.tar.zst]), which is never one
    of the four three-part extensions it is compared with: a path that does
    not exist is reported missing, every other path is reported to have an
    invalid extension, and the size is never looked at. *)
Theorem validate_package_file_accepts_nothing
    (path_exists : Path -> bool) (st_size : Path -> Z) (file_path : string) :
  validate_package_file path_exists st_size file_path
  = if path_exists (of_string file_path)
    then (false, "Invalid package file extension: " ++ suffix (of_string file_path))
    else (false, "File does not exist: " ++ str (of_string file_path)).
Proof.
  unfold validate_package_file.
  destruct (path_exists (of_string file_path)); [|reflexivity].
  cbn [negb]. rewrite suffix_not_package_extension. reflexivity.
Qed.

Example validate_package_file_example :
  validate_package_file (fun _ => true) (fun _ => 4096%Z)
    "/var/cache/syzygia/vim-9.1-1.pkg.tar.zst"
  = (false, "Invalid package file extension: .zst").
Proof. reflexivity. Qed.

End PackageFileProperties.

(** ** More on downloads *)

Section DownloadMoreFacts.
Import PyStr PyExc Net FetchTrace Delivery.
Variable transport : Transport.
Variable hashlib : string -> option (string -> string).
Variable os_remove_raises : Removal.
Variable isdir : string -> bool.
Variable samefile : string -> string -> bool.

Lemma concat_chunks_filter body :
  concat_chunks (List.filter truthy body) = concat_chunks body.
Proof.
  induction body as [|chunk body IH]; [reflexivity|].
  simpl. destruct chunk as [|c chunk]; simpl; [exact IH|].
  rewrite IH. reflexivity.
Qed.

(** What a successful [download_file] has done. *)
Lemma download_file_success url destination chunk_size w :
  fst (Downloader.download_file transport url destination chunk_size w) = true ->
  exists status content_length body,
    transport (trace w) url = Answer status content_length body true
    /\ status_raises status = false
    /\ snd (Downloader.download_file transport url destination chunk_size w)
       = {| fs := <[destination := concat_chunks body]> (fs w);
            trace := trace w ++ [Get url] |}
    /\ match content_length with
       | CL_absent => True
       | CL_int n => n = 0%Z \/ n = Z.of_nat (String.length (concat_chunks body))
       | CL_malformed => False
       end.
Proof.
  unfold Downloader.download_file.
  destruct (transport (trace w) url) as [|status cl body complete];
    [intros Hok; simpl in Hok; discriminate Hok|].
  destruct (status_raises status) eqn:Hst;
    [intros Hok; simpl in Hok; discriminate Hok|].
  destruct cl as [|n|]; [| |intros Hok; simpl in Hok; discriminate Hok];
    (destruct complete; cbn [negb]; [|intros Hok; simpl in Hok; discriminate Hok]);
    rewrite concat_chunks_filter; cbn [fs write_file log];
    rewrite lookup_insert_eq; cbn [default from_option]; unfold id.
  - rewrite Z.eqb_refl. cbn [negb andb fst snd]. intros _.
    exists status, CL_absent, body. repeat split. exact Hst.
  - destruct (n =? 0)%Z eqn:Hn; cbn [negb andb fst snd].
    + intros _. exists status, (CL_int n), body.
      repeat split; try exact Hst. left. lia.
    + destruct (Z.of_nat (String.length (concat_chunks body)) =? n)%Z eqn:Hl;
        cbn [negb fst snd]; [|intros Hok; simpl in Hok; discriminate Hok].
      intros _. exists status, (CL_int n), body.
      repeat split; try exact Hst. right. lia.
Qed.




(** An attempt that raises has changed nothing, but for what a remote
    mirror wrote to a destination that is no directory before the
    connection broke. *)
Lemma mirror_attempt_raises_frame self mirror file_path destination w e w1 :
  (if startswith "file://" mirror
   then Mirror._download_local isdir samefile self mirror file_path destination w
   else Mirror._download_remote transport isdir self mirror file_path destination w)
  = (Raise e, w1) ->
  forall path,
  path <> destination \/ Mirror.is_directory isdir destination = true ->
  fs w1 !! path = fs w !! path.
Proof.
  destruct (startswith "file://" mirror).
  - unfold Mirror._download_local, Mirror.copy2.
    destruct (Mirror.makedirs_raises destination);
      [intros [= _ <-]; reflexivity|].
    cbn [fs log].
    destruct (fs w !! _); [|intros [= _ <-]; reflexivity].
    destruct (Mirror.same_file samefile _ _); [intros [= _ <-]; reflexivity|].
    destruct (Mirror.is_directory isdir _); [intros [= _ <-]; reflexivity|].
    discriminate.
  - unfold Mirror._download_remote.
    destruct (Mirror.makedirs_raises destination);
      [intros [= _ <-]; reflexivity|].
    destruct (transport (trace w) _) as [|status cl body complete];
      [intros [= _ <-]; reflexivity|].
    destruct (status_raises status); [intros [= _ <-]; reflexivity|].
    destruct (Mirror.is_directory isdir destination) eqn:Hdir;
      [intros [= _ <-]; reflexivity|].
    destruct complete; [discriminate|].
    intros [= _ <-] path [Hne|Hd]; [|discriminate Hd].
    simpl. apply lookup_insert_ne. congruence.
Qed.


Lemma copy_target_no_directory src destination :
  Mirror.is_directory isdir destination = false ->
  copy_target isdir src destination = destination.
Proof. intros H. unfold copy_target. rewrite H. reflexivity. Qed.

(** When the retry loop succeeds the destination exists, and it passed the
    checksum test when a non-empty checksum was given. *)
Lemma retry_loop_success
    url destination max_retries checksum algorithm chunk_size attempts :
  forall w,
  let r := Downloader.retry_loop transport hashlib os_remove_raises url destination max_retries
             checksum algorithm chunk_size attempts w in
  fst r = true ->
  is_Some (fs (snd r) !! destination)
  /\ (forall c, checksum = Some c -> truthy c = true ->
        Downloader.verify_checksum hashlib destination c algorithm (snd r) = true).
Proof.
  induction attempts as [|attempt rest IH]; intros w; cbv zeta; [discriminate|].
  simpl.
  pose proof (download_file_success url destination chunk_size w) as Hs.
  destruct (Downloader.download_file transport url destination chunk_size w)
    as [ok w1].
  simpl in Hs.
  destruct ok; [|apply IH].
  destruct (Hs eq_refl) as (status & cl & body & _ & _ & -> & _).
  assert (Hsome : is_Some (fs {| fs := <[destination:=concat_chunks body]> (fs w);
                                 trace := trace w ++ [Get url] |} !! destination)).
  { simpl. rewrite lookup_insert_eq. eauto. }
  destruct checksum as [c|].
  - destruct (truthy c) eqn:Hc.
    + destruct (Downloader.verify_checksum hashlib destination c algorithm _) eqn:Hv.
      * intros _. split; [exact Hsome|].
        intros c' [= <-] _. exact Hv.
      * apply IH.
    + intros _. split; [exact Hsome|]. intros c' [= <-]. congruence.
  - intros _. split; [exact Hsome|]. discriminate.
Qed.

(** An empty checksum string is no checksum. *)
Lemma retry_loop_empty_checksum
    url destination max_retries algorithm chunk_size attempts :
  forall w,
  Downloader.retry_loop transport hashlib os_remove_raises url destination max_retries
    (Some EmptyString) algorithm chunk_size attempts w
  = Downloader.retry_loop transport hashlib os_remove_raises url destination max_retries
      None algorithm chunk_size attempts w.
Proof.
  induction attempts as [|attempt rest IH]; intros w; [reflexivity|].
  simpl.
  destruct (Downloader.download_file transport url destination chunk_size w)
    as [ok w1].
  destruct ok; [reflexivity|]. apply IH.
Qed.

End DownloadMoreFacts.

Section MirrorMoreFacts.
Import PyStr PyExc Net FetchTrace Delivery.
Variable transport : Transport.
Variable isdir : string -> bool.
Variable samefile : string -> string -> bool.

Lemma upto_last_slash_no_slash (p : string) :
  ~ In "/"%char (chars p) -> upto_last_slash p = EmptyString.
Proof.
  induction p as [|c p IH]; [reflexivity|].
  change (chars (String c p)) with (c :: chars p). intros Hno. simpl.
  rewrite IH by (intros H; apply Hno; right; exact H).
  destruct (ascii_eqb c "/") eqn:E; [|reflexivity].
  apply ascii_eqb_eq in E. subst c. contradiction Hno. left. reflexivity.
Qed.

Lemma makedirs_raises_no_slash (destination : string) :
  ~ In "/"%char (chars destination) -> Mirror.makedirs_raises destination = true.
Proof.
  intros Hno. unfold Mirror.makedirs_raises, dirname.
  rewrite (upto_last_slash_no_slash destination Hno). reflexivity.
Qed.

(** When the directory of the destination cannot be created, every mirror
    raises before any transfer. *)
Lemma download_loop_makedirs_raises self file_path destination todo w :
  Mirror.makedirs_raises destination = true ->
  Mirror.download_loop transport isdir samefile self file_path destination todo w = (false, w).
Proof.
  intros Hr. induction todo as [|mirror rest IH]; [reflexivity|].
  simpl. unfold Mirror._download_local, Mirror._download_remote. rewrite Hr.
  destruct (startswith "file://" mirror); exact IH.
Qed.

Lemma mirror_attempt_success self mirror file_path destination w b w1 :
  (if startswith "file://" mirror
   then Mirror._download_local isdir samefile self mirror file_path destination w
   else Mirror._download_remote transport isdir self mirror file_path destination w)
  = (Return b, w1) ->
  exists target content,
    fs w1 !! target = Some content
    /\ delivered transport isdir samefile w file_path destination mirror target
         content.
Proof.
  unfold delivered.
  destruct (startswith "file://" mirror).
  - unfold Mirror._download_local, Mirror.copy2.
    destruct (Mirror.makedirs_raises destination); [discriminate|].
    fold (local_source mirror file_path).
    fold (copy_target isdir (local_source mirror file_path) destination).
    cbn [fs log].
    destruct (fs w !! _) as [content|] eqn:Hsrc; [|discriminate].
    destruct (Mirror.same_file samefile _ _) eqn:Hsame; [discriminate|].
    destruct (Mirror.is_directory isdir _) eqn:Hdir; [discriminate|].
    intros [= <- <-].
    exists (copy_target isdir (local_source mirror file_path) destination), content.
    simpl. rewrite lookup_insert_eq. auto.
  - unfold Mirror._download_remote.
    destruct (Mirror.makedirs_raises destination); [discriminate|].
    destruct (transport (trace w) _) as [|status cl body complete] eqn:Ht;
      [discriminate|].
    destruct (status_raises status) eqn:Hst; [discriminate|].
    destruct (Mirror.is_directory isdir destination) eqn:Hdir; [discriminate|].
    destruct complete; [|discriminate].
    intros [= <- <-]. exists destination, (concat_chunks body). simpl.
    rewrite lookup_insert_eq. split; [reflexivity|].
    split; [reflexivity|]. split; [reflexivity|].
    exists (trace w), status, cl, body. auto.
Qed.

Lemma download_loop_success self file_path destination todo :
  forall w,
  fst (Mirror.download_loop transport isdir samefile self file_path destination todo w) = true ->
  exists mirror target content,
    In mirror todo
    /\ fs (snd (Mirror.download_loop transport isdir samefile self file_path destination todo w))
         !! target = Some content
    /\ delivered transport isdir samefile w file_path destination mirror target
         content.
Proof.
  induction todo as [|mirror rest IH]; intros w; [discriminate|].
  simpl Mirror.download_loop.
  pose proof (mirror_attempt_success self mirror file_path destination w) as Hs.
  pose proof (mirror_attempt_raises_frame transport isdir samefile self mirror
                file_path destination w) as Hf.
  destruct (if startswith "file://" mirror
            then Mirror._download_local isdir samefile self mirror file_path destination w
            else Mirror._download_remote transport isdir self mirror file_path
                   destination w) as [r w1].
  destruct r as [b|exc].
  - intros _. destruct (Hs b w1 eq_refl) as (target & content & Hc & Hd).
    exists mirror, target, content. split; [left; reflexivity|]. split; assumption.
  - intros Hok. destruct (IH w1 Hok) as (m & target & content & Hin & Hc & Hd).
    exists m, target, content. split; [right; exact Hin|]. split; [exact Hc|].
    unfold delivered in *. destruct (startswith "file://" m); [|exact Hd].
    destruct Hd as (Ht & Hsrc & Hsame & Hdir).
    split; [exact Ht|]. split; [|split; assumption].
    rewrite <- (Hf exc w1 eq_refl); [exact Hsrc|].
    destruct (Mirror.is_directory isdir destination) eqn:Hd; [right; reflexivity|].
    left. intros Heq.
    rewrite Ht, (copy_target_no_directory isdir _ _ Hd) in Hsame.
    unfold Mirror.same_file in Hsame. rewrite Heq, String.eqb_refl in Hsame.
    discriminate Hsame.
Qed.

End MirrorMoreFacts.

Section DownloadProperties.
Import PyStr PyExc Net FetchTrace Examples Delivery.

(** X6: on each of its failure paths (connection error, HTTP error status,
    unreadable content-length, error in mid-stream, size mismatch)
    [download_file] of [utils.downloader] returns with no file at the
    destination, a file that was there before included. *)
Theorem download_file_failure_removes_destination
    (transport : Transport) (url destination : string) (chunk_size : Z) (w : World)
    (Hfailed : fst (Downloader.download_file transport url destination chunk_size w)
               = false) :
  fs (snd (Downloader.download_file transport url destination chunk_size w))
    !! destination = None.
Proof. apply download_file_failure_leaves_no_file. exact Hfailed. Qed.

Lemma download_file_failure_removes_destination_witness :
  fs (snd (Downloader.download_file breaks_midstream "http://m1.example/core.db"
             "/tmp/core.db" 8192
             {| fs := {[ "/tmp/core.db" := "old" ]}; trace := [] |}))
    !! "/tmp/core.db" = None.
Proof.
  apply download_file_failure_removes_destination. reflexivity.
Defined.



(** X8: what [download_with_retry] leaves when it fails after at least one
    attempt: no file at the destination, or the file of the last download,
    which failed the verification of its checksum and whose removal the
    file system refused (the branch that prints a warning); so no file is
    left when no removal of the destination is refused.  With [max_retries]
    of 0 or less it fails at once, without any request and without touching
    anything. *)
Theorem download_with_retry_failure_removes_destination
    (transport : Transport) (hashlib : string -> option (string -> string))
    (os_remove_raises : Removal)
    (url destination : string) (max_retries : Z) (checksum : option string)
    (algorithm : string) (chunk_size : Z) (w : World) :
  let r := Downloader.download_with_retry transport hashlib os_remove_raises url
             destination max_retries checksum algorithm chunk_size w in
  ((1 <= max_retries)%Z -> fst r = false ->
   left_behind hashlib os_remove_raises destination checksum algorithm (snd r))
  /\ ((1 <= max_retries)%Z ->
      (forall history, os_remove_raises history destination = false) ->
      fst r = false ->
      fs (snd r) !! destination = None)
  /\ ((max_retries <= 0)%Z -> r = (false, w)).
Proof.
  cbv zeta. split; [|split].
  - intros Hpos. unfold Downloader.download_with_retry.
    apply retry_loop_failure_leaves. unfold Downloader.range.
    destruct (Z.to_nat max_retries) eqn:Hn; [lia|discriminate].
  - intros Hpos Hremovable.
    apply download_with_retry_failure_leaves_no_file; assumption.
  - intros Hle. unfold Downloader.download_with_retry, Downloader.range.
    replace (Z.to_nat max_retries) with 0 by lia. reflexivity.
Qed.

(** A download that fails its checksum and cannot be removed stays. *)
Example corrupt_file_kept_when_removal_refused :
  let transport : Transport := fun _ _ => Answer 200 CL_absent ["corrupt"] true in
  let hashlib : string -> option (string -> string) :=
    fun _ => Some (fun _ => "00") in
  let refused : Removal := fun _ _ => true in
  let r := Downloader.download_with_retry transport hashlib refused
             "http://m1.example/f" "/tmp/f" 1 (Some "ff") "sha256" 8192
             empty_world in
  fst r = false /\ fs (snd r) !! "/tmp/f" = Some "corrupt".
Proof. vm_compute. split; reflexivity. Qed.

(** X9: when [download_with_retry] returns [True] the destination exists,
    and if a non-empty checksum was given the file passed
    [verify_checksum]; an empty checksum string is treated as no checksum,
    so nothing is verified then. *)
Theorem download_with_retry_success_is_verified
    (transport : Transport) (hashlib : string -> option (string -> string))
    (os_remove_raises : Removal)
    (url destination : string) (max_retries : Z) (checksum : option string)
    (algorithm : string) (chunk_size : Z) (w : World) :
  (let r := Downloader.download_with_retry transport hashlib os_remove_raises url destination
              max_retries checksum algorithm chunk_size w in
   fst r = true ->
   is_Some (fs (snd r) !! destination)
   /\ (forall c, checksum = Some c -> truthy c = true ->
         Downloader.verify_checksum hashlib destination c algorithm (snd r) = true))
  /\ Downloader.download_with_retry transport hashlib os_remove_raises url destination
       max_retries (Some EmptyString) algorithm chunk_size w
     = Downloader.download_with_retry transport hashlib os_remove_raises url destination
         max_retries None algorithm chunk_size w.
Proof.
  split.
  - apply retry_loop_success.
  - apply retry_loop_empty_checksum.
Qed.



(** A copy to a destination that is a directory lands inside it, under the
    name of the source. *)
Example copy_into_directory :
  let w := {| fs := {[ "/srv/mirror/core.db" := "database" ]}; trace := [] |} in
  let self := {| Mirror.mirrors := ["file:///srv/mirror"];
                 Mirror.mirror_stats := []; Mirror._timeout := 10 |} in
  Mirror.download_file unreachable no_directory no_link self "core.db"
    "/var/cache/" w
  = (true,
     {| fs := <[ "/var/cache/core.db" := "database" ]> (fs w);
        trace := [Copy "/srv/mirror/core.db"] |}).
Proof. vm_compute. reflexivity. Qed.

(** A remote mirror cannot write to a destination that is a directory: it
    is passed over after its request. *)
Example remote_download_to_directory_fails :
  Mirror.download_file (fun _ _ => Answer 200 CL_absent ["data"] true)
    no_directory no_link one_mirror "core.db" "/var/cache/" empty_world
  = (false, {| fs := ∅; trace := [Get "http://m1.example/repo/core.db"] |}).
Proof. vm_compute. reflexivity. Qed.

(** X11: [download_file] of the mirror manager fails for every destination
    without a directory part (a bare file name): creating the directory
    named by the empty string raises for each mirror, so no transfer is
    attempted and nothing changes. *)
Theorem mirror_download_to_bare_file_name_fails
    (transport : Transport) (isdir : string -> bool)
    (samefile : string -> string -> bool) (self : Mirror.MirrorManager)
    (file_path destination : string) (w : World)
    (Hbare : ~ In "/"%char (chars destination)) :
  Mirror.download_file transport isdir samefile self file_path destination w = (false, w).
Proof.
  unfold Mirror.download_file. apply download_loop_makedirs_raises.
  apply makedirs_raises_no_slash. exact Hbare.
Qed.

Lemma mirror_download_to_bare_file_name_fails_witness :
  Mirror.download_file (fun _ _ => Answer 200 CL_absent ["data"] true)
    no_directory no_link two_mirrors "core.db" "core.db" empty_world
  = (false, empty_world).
Proof.
  apply mirror_download_to_bare_file_name_fails.
  simpl. intros H. repeat (destruct H as [H|H]; [discriminate H|]). exact H.
Defined.

(** X12: when [download_file] of the mirror manager returns [True], one of
    the configured mirrors delivered in full, and the file it delivered to
    holds that content.  For a [file://] mirror the content is that of the
    source file, and the file is the destination or, when the destination
    is a directory, the file named as the source inside it; source and
    target are two files.  For another mirror the content is the complete
    body of an answer without error status, and the file is the
    destination, which is no directory. *)
Theorem mirror_download_success_delivers
    (transport : Transport) (isdir : string -> bool)
    (samefile : string -> string -> bool) (self : Mirror.MirrorManager)
    (file_path destination : string) (w : World)
    (Hok : fst (Mirror.download_file transport isdir samefile self file_path
                  destination w) = true) :
  exists mirror target content,
    In mirror (Mirror.mirrors self)
    /\ fs (snd (Mirror.download_file transport isdir samefile self file_path
                  destination w)) !! target = Some content
    /\ delivered transport isdir samefile w file_path destination mirror target
         content.
Proof. apply download_loop_success. exact Hok. Qed.

Lemma mirror_download_success_delivers_witness :
  let w := {| fs := {[ "/srv/mirror/core.db" := "database" ]}; trace := [] |} in
  let self := {| Mirror.mirrors := ["http://down.example"; "file:///srv/mirror"];
                 Mirror.mirror_stats := []; Mirror._timeout := 10 |} in
  exists mirror target content,
    In mirror (Mirror.mirrors self)
    /\ fs (snd (Mirror.download_file unreachable no_directory no_link self
                  "core.db" "/var/cache/" w)) !! target = Some content
    /\ delivered unreachable no_directory no_link w "core.db" "/var/cache/"
         mirror target content.
Proof.
  cbv zeta.
  apply (mirror_download_success_delivers unreachable no_directory no_link
           {| Mirror.mirrors := ["http://down.example"; "file:///srv/mirror"];
              Mirror.mirror_stats := []; Mirror._timeout := 10 |}
           "core.db" "/var/cache/"
           {| fs := {[ "/srv/mirror/core.db" := "database" ]}; trace := [] |}).
  vm_compute. reflexivity.
Defined.

End DownloadProperties.

(** ** More on dictionaries and repositories *)

Section DictMoreFacts.
Import PyDict.
Context {V : Type}.

Lemma contains_get (k : string) (d : dict V) :
  contains k d = true <-> is_Some (get k d).
Proof.
  unfold contains. destruct (get k d); split; try discriminate; eauto.
  intros [x Hx]. discriminate.
Qed.

Lemma get_set_eq (k : string) (v : V) (d : dict V) : get k (set k v d) = Some v.
Proof.
  induction d as [|[k' v'] d IH]; simpl.
  - rewrite String.eqb_refl. reflexivity.
  - destruct (String.eqb k' k) eqn:E; simpl.
    + rewrite String.eqb_refl. reflexivity.
    + rewrite E. exact IH.
Qed.

Lemma get_set_ne (k k' : string) (v : V) (d : dict V) :
  k' <> k -> get k' (set k v d) = get k' d.
Proof.
  intros Hne. induction d as [|[k0 v0] d IH]; simpl.
  - apply String.eqb_neq in Hne. rewrite String.eqb_sym, Hne. reflexivity.
  - destruct (String.eqb k0 k) eqn:E; simpl.
    + apply String.eqb_eq in E. subst k0.
      apply String.eqb_neq in Hne. rewrite String.eqb_sym, Hne. reflexivity.
    + destruct (String.eqb k0 k'); [reflexivity|exact IH].
Qed.

Lemma get_del_ne (k k' : string) (d : dict V) :
  k' <> k -> get k' (del k d) = get k' d.
Proof.
  intros Hne. unfold del. induction d as [|[k0 v0] d IH]; simpl; [reflexivity|].
  destruct (String.eqb k0 k) eqn:E; simpl.
  - apply String.eqb_eq in E. subst k0.
    apply String.eqb_neq in Hne. rewrite String.eqb_sym, Hne. exact IH.
  - destruct (String.eqb k0 k'); [reflexivity|exact IH].
Qed.

(** A new key goes to the end of the dictionary. *)
Lemma set_new (k : string) (v : V) (d : dict V) :
  contains k d = false -> set k v d = (d ++ [(k, v)])%list.
Proof.
  unfold contains. induction d as [|[k' v'] d IH]; simpl; [reflexivity|].
  destruct (String.eqb k' k); [discriminate|].
  intros H. rewrite (IH H). reflexivity.
Qed.

Lemma del_absent (k : string) (d : dict V) : contains k d = false -> del k d = d.
Proof.
  unfold contains, del. induction d as [|[k' v'] d IH]; simpl; [reflexivity|].
  destruct (String.eqb k' k); [discriminate|].
  intros H. simpl. rewrite (IH H). reflexivity.
Qed.

Lemma del_set_new (k : string) (v : V) (d : dict V) :
  contains k d = false -> del k (set k v d) = d.
Proof.
  intros H. rewrite (set_new k v d H). unfold del.
  rewrite List.filter_app. fold (del k d). rewrite (del_absent k d H).
  simpl. rewrite String.eqb_refl. simpl. apply app_nil_r.
Qed.

Lemma Forall_set (P : string * V -> Prop) (k : string) (v : V) (d : dict V) :
  P (k, v) -> Forall P d -> Forall P (set k v d).
Proof.
  intros Hv. induction 1 as [|[k' v'] d Hkv Hd IH]; simpl.
  - repeat constructor. exact Hv.
  - destruct (String.eqb k' k); constructor; assumption.
Qed.

Lemma Forall_del (P : string * V -> Prop) (k : string) (d : dict V) :
  Forall P d -> Forall P (del k d).
Proof.
  unfold del. induction 1 as [|[k' v'] d Hkv _ IH]; simpl; [constructor|].
  destruct (negb (String.eqb k' k)); [constructor|]; assumption.
Qed.

Lemma get_Forall (P : string * V -> Prop) (k : string) (v : V) (d : dict V) :
  Forall P d -> get k d = Some v -> exists k', P (k', v).
Proof.
  induction 1 as [|[k' v'] d Hkv _ IH]; simpl; [discriminate|].
  destruct (String.eqb k' k); [|exact IH].
  intros [= <-]. eauto.
Qed.

End DictMoreFacts.

Section RepositoryFacts.
Import PyStr PyDict Repo.
Import RepositoryManager(catalog_empty).

Lemma find_in_empty_catalogs items pkg_name :
  Forall catalog_empty items -> RepositoryManager.find_in items pkg_name = None.
Proof.
  induction 1 as [|[n r] items Hr _ IH]; [reflexivity|].
  simpl. unfold Repository.find_package. unfold catalog_empty in Hr. simpl in Hr.
  rewrite Hr. simpl. exact IH.
Qed.

Lemma initialize_packages r : packages (snd (initialize r)) = packages r.
Proof. unfold initialize. destruct (_initialized r); reflexivity. Qed.

Lemma on_repo_empty_catalogs self rname method :
  (forall r, packages r = [] -> packages (snd (method r)) = []) ->
  Forall catalog_empty (repos self) ->
  Forall catalog_empty (repos (RepositoryManager.on_repo self rname method)).
Proof.
  intros Hm Hall. unfold RepositoryManager.on_repo.
  destruct (get rname (repos self)) as [r|] eqn:Hg; [|exact Hall].
  simpl. apply Forall_set; [|exact Hall].
  unfold catalog_empty. simpl. apply Hm.
  destruct (get_Forall catalog_empty rname r (repos self) Hall Hg) as [k Hk].
  exact Hk.
Qed.

Lemma run_empty_catalogs self c :
  Forall catalog_empty (repos self) ->
  Forall catalog_empty (repos (RepositoryManager.run self c)).
Proof.
  intros Hall. destruct c as [n u l|n|r|r p|r p|r|r]; simpl.
  - unfold add_repo. destruct (contains n (repos self)); [exact Hall|].
    pose proof (initialize_packages (Repository_init n u l)) as Hp.
    destruct (initialize (Repository_init n u l)) as [ok repo'].
    destruct ok; simpl; [|exact Hall].
    apply Forall_set; [|exact Hall].
    unfold catalog_empty. exact Hp.
  - unfold RepositoryManager.remove_repo.
    destruct (negb (contains n (repos self))); [exact Hall|].
    simpl. apply Forall_del. exact Hall.
  - apply on_repo_empty_catalogs; [|exact Hall].
    intros repo Hp. rewrite initialize_packages. exact Hp.
  - apply on_repo_empty_catalogs; [|exact Hall]. intros repo Hp. exact Hp.
  - apply on_repo_empty_catalogs; [|exact Hall].
    intros repo Hp. unfold Repository.remove_package. rewrite Hp. simpl. exact Hp.
  - apply on_repo_empty_catalogs; [|exact Hall]. intros repo Hp. exact Hp.
  - apply on_repo_empty_catalogs; [|exact Hall]. intros repo Hp. exact Hp.
Qed.

Lemma run_all_empty_catalogs calls :
  forall self,
  Forall catalog_empty (repos self) ->
  Forall catalog_empty (repos (RepositoryManager.run_all calls self)).
Proof.
  unfold RepositoryManager.run_all.
  induction calls as [|c calls IH]; intros self Hall; [exact Hall|].
  simpl. apply IH. apply run_empty_catalogs. exact Hall.
Qed.

Lemma find_in_spec items pkg_name :
  match RepositoryManager.find_in items pkg_name with
  | Some (repo_name, pkg) =>
      exists before repo after,
        items = (before ++ (repo_name, repo) :: after)%list
        /\ Repository.find_package repo pkg_name = Some pkg
        /\ pkg <> []
        /\ Forall (fun e => RepositoryManager.found
                              (Repository.find_package (snd e) pkg_name) = false)
                  before
  | None =>
      Forall (fun e => RepositoryManager.found
                         (Repository.find_package (snd e) pkg_name) = false)
             items
  end.
Proof.
  induction items as [|[n r] items IH]; simpl; [constructor|].
  destruct (RepositoryManager.found (Repository.find_package r pkg_name)) eqn:Hf.
  - exists [], r, items. simpl.
    destruct (Repository.find_package r pkg_name) as [[|e pkg]|];
      try discriminate.
    repeat split; try reflexivity; [discriminate|constructor].
  - destruct (RepositoryManager.find_in items pkg_name) as [[rn pkg]|].
    + destruct IH as (before & repo & after & -> & Hp & Hne & Hb).
      exists ((n, r) :: before), repo, after.
      repeat split; try assumption. constructor; assumption.
    + constructor; assumption.
Qed.

End RepositoryFacts.

Section RepositoryProperties.
Import PyStr PyDict Repo.

(** X13: [add_repo] succeeds exactly when the name is not registered, and it
    never replaces a registered repository: every name registered before
    still answers the same repository afterwards.  A new repository is
    registered initialised, after the others in the order of [list_repos]. *)
Theorem add_repo_registers_without_replacing
    (self : Repo.RepositoryManager) (name url : string) (level : option string) :
  let r := add_repo self name url level in
  fst r = negb (contains name (repos self))
  /\ (forall n, contains n (repos self) = true ->
        RepositoryManager.get_repo (snd r) n = RepositoryManager.get_repo self n)
  /\ (contains name (repos self) = false ->
      RepositoryManager.get_repo (snd r) name
      = Some (snd (initialize (Repository_init name url level)))
      /\ RepositoryManager.list_repos (snd r)
         = (RepositoryManager.list_repos self ++ [name])%list).
Proof.
  cbv zeta. unfold add_repo, RepositoryManager.get_repo, RepositoryManager.list_repos.
  destruct (contains name (repos self)) eqn:Hc.
  - simpl. split; [reflexivity|]. split; [intros; reflexivity|discriminate].
  - assert (Hi : initialize (Repository_init name url level)
                 = (true, snd (initialize (Repository_init name url level)))).
    { unfold initialize. reflexivity. }
    rewrite Hi. simpl. split; [reflexivity|]. split.
    + intros n Hn. apply get_set_ne. intros ->. congruence.
    + intros _. split; [apply get_set_eq|].
      rewrite (set_new _ _ _ Hc). unfold keys. rewrite map_app. reflexivity.
Qed.

(** X14: removing a repository right after it was added under a free name
    gives back the manager as it was, order of the other repositories
    included. *)
Theorem remove_repo_undoes_add_repo
    (self : Repo.RepositoryManager) (name url : string) (level : option string)
    (Hfree : contains name (repos self) = false) :
  RepositoryManager.remove_repo (snd (add_repo self name url level)) name
  = (true, self).
Proof.
  unfold add_repo. rewrite Hfree.
  assert (Hi : initialize (Repository_init name url level)
               = (true, snd (initialize (Repository_init name url level)))).
  { unfold initialize. reflexivity. }
  rewrite Hi. simpl. unfold RepositoryManager.remove_repo. simpl.
  rewrite contains_set. simpl. rewrite (del_set_new _ _ _ Hfree).
  destruct self. reflexivity.
Qed.

Lemma remove_repo_undoes_add_repo_witness :
  RepositoryManager.remove_repo
    (snd (add_repo RepositoryManager.init "testing" "file:///srv/testing"
                   (Some "Required"))) "testing"
  = (true, RepositoryManager.init).
Proof. apply remove_repo_undoes_add_repo. reflexivity. Defined.

(** X15: [find_package] of the manager answers with the first repository, in
    the order they were registered, whose catalog has a non-empty entry for
    the name; a repository that has the name with empty metadata is passed
    over like one that does not have it, and [None] is the answer when all
    are passed over. *)
Theorem manager_find_package_first_nonempty
    (self : Repo.RepositoryManager) (pkg_name : string) :
  match RepositoryManager.find_package self pkg_name with
  | Some (repo_name, pkg) =>
      exists before repo after,
        repos self = (before ++ (repo_name, repo) :: after)%list
        /\ Repository.find_package repo pkg_name = Some pkg
        /\ pkg <> []
        /\ Forall (fun e => RepositoryManager.found
                              (Repository.find_package (snd e) pkg_name) = false)
                  before
  | None =>
      Forall (fun e => RepositoryManager.found
                         (Repository.find_package (snd e) pkg_name) = false)
             (repos self)
  end.
Proof. apply find_in_spec. Qed.

Example manager_find_package_skips_empty_metadata :
  let repo (n : string) (pkgs : dict (dict string)) : Repo.Repository :=
    {| name := n; url := "file:///srv"; sig_level := "Optional";
       packages := pkgs; _initialized := true |} in
  RepositoryManager.find_package
    {| repos := [("core", repo "core" [("vim", [])]);
                 ("extra", repo "extra" [("vim", [("version", "9.1")])])] |} "vim"
  = Some ("extra", [("version", "9.1")]).
Proof. reflexivity. Qed.

(** X16: no package is ever found in a repository.  Nothing in [repo.py]
    puts an entry into a catalog ([initialize], [add_package] and [update]
    leave it as it is, [remove_package] only deletes), so for a manager as
    its constructor builds it and after any sequence of calls on it and on
    its repositories, [find_package] returns [None] for every name. *)
Theorem manager_find_package_never_finds
    (calls : list RepositoryManager.call) (pkg_name : string) :
  RepositoryManager.find_package
    (RepositoryManager.run_all calls RepositoryManager.init) pkg_name = None.
Proof.
  unfold RepositoryManager.find_package. apply find_in_empty_catalogs.
  apply run_all_empty_catalogs.
  unfold RepositoryManager.init, RepositoryManager._load_repos. simpl.
  repeat constructor.
Qed.

Example default_repositories :
  RepositoryManager.list_repos RepositoryManager.init = ["core"; "extra"; "community"]
  /\ fst (add_repo RepositoryManager.init "core" "file:///srv/core" None) = false
  /\ RepositoryManager.update_all RepositoryManager.init = true.
Proof. repeat split; reflexivity. Qed.

End RepositoryProperties.

(** ** More on the package manager *)

Section PkgMoreFacts.
Import PyStr PyText PyExc PyDict Pathlib Pkg PkgMore.
Context {fsys : FileSystem}.

(** What a request to install does to the manager, whatever the file system
    does: the entries of some of the requested names, in the order of the
    request, are set one after the other. *)
Lemma install_loop_summary (l : list string) :
  forall (success : bool) (w : World),
  exists done,
    sublist done l
    /\ db_path (self (snd (install_loop l success w))) = db_path (self w)
    /\ cache_dir (self (snd (install_loop l success w))) = cache_dir (self w)
    /\ available_pkgs (self (snd (install_loop l success w))) = available_pkgs (self w)
    /\ installed_pkgs (self (snd (install_loop l success w)))
       = fold_left (install_entry (cache_dir (self w))) done (installed_pkgs (self w)).
Proof.
  induction l as [|n l IH]; intros success w.
  - exists []. repeat split. constructor.
  - assert (Hstop : forall w' : World,
      self w' = self w ->
      exists done, sublist done (n :: l)
        /\ db_path (self w') = db_path (self w)
        /\ cache_dir (self w') = cache_dir (self w)
        /\ available_pkgs (self w') = available_pkgs (self w)
        /\ installed_pkgs (self w')
           = fold_left (install_entry (cache_dir (self w))) done (installed_pkgs (self w))).
    { intros w' ->. exists []. repeat split. apply sublist_nil_l. }
    assert (Hset : forall w' : World,
      db_path (self w') = db_path (self w) ->
      cache_dir (self w') = cache_dir (self w) ->
      available_pkgs (self w') = available_pkgs (self w) ->
      installed_pkgs (self w')
      = install_entry (cache_dir (self w)) (installed_pkgs (self w)) n ->
      exists done, sublist done (n :: l)
        /\ db_path (self w') = db_path (self w)
        /\ cache_dir (self w') = cache_dir (self w)
        /\ available_pkgs (self w') = available_pkgs (self w)
        /\ installed_pkgs (self w')
           = fold_left (install_entry (cache_dir (self w))) done (installed_pkgs (self w))).
    { intros w' H1 H2 H3 H4. exists [n]. repeat split; try assumption.
      apply sublist_skip, sublist_nil_l. }
    simpl install_loop. unfold_m.
    destruct (contains n (installed_pkgs (self w))).
    + destruct (IH success (printed ["Package " ++ n ++ " is already installed"] w))
        as (done & Hsub & H1 & H2 & H3 & H4).
      exists done. split; [apply sublist_cons, Hsub|]. auto.
    + destruct (fs_touch _ _) as [[u|e] d1]; [|apply Hstop; reflexivity].
      unfold _install_package. unfold_m.
      destruct (fs_mkdir _ _) as [[u1|e1] d2];
        [|apply Hset; reflexivity].
      destruct (fs_write _ _ _) as [[u2|e2] d3];
        [|apply Hset; reflexivity].
      unfold_m.
      match goal with
      | |- context [install_loop l success ?w1] =>
          destruct (IH success w1) as (done & Hsub & H1 & H2 & H3 & H4)
      end.
      cbn [self db_path cache_dir available_pkgs installed_pkgs] in *.
      exists (n :: done). split; [apply sublist_skip, Hsub|].
      repeat split; try assumption.
Qed.

(** What a request to remove does to the manager: some of the requested
    names are deleted, nothing else happens to it. *)
Lemma remove_loop_summary (l : list string) (nodeps : bool) :
  forall (success : bool) (w : World),
  exists removed,
    sublist removed l
    /\ db_path (self (snd (remove_loop l nodeps success w))) = db_path (self w)
    /\ cache_dir (self (snd (remove_loop l nodeps success w))) = cache_dir (self w)
    /\ available_pkgs (self (snd (remove_loop l nodeps success w)))
       = available_pkgs (self w)
    /\ installed_pkgs (self (snd (remove_loop l nodeps success w)))
       = fold_left (fun d n => del n d) removed (installed_pkgs (self w)).
Proof.
  induction l as [|n l IH]; intros success w.
  - exists []. repeat split. constructor.
  - assert (Hskip : forall (s : bool) (w' : World),
      self w' = self w ->
      exists removed, sublist removed (n :: l)
        /\ db_path (self (snd (remove_loop l nodeps s w'))) = db_path (self w)
        /\ cache_dir (self (snd (remove_loop l nodeps s w'))) = cache_dir (self w)
        /\ available_pkgs (self (snd (remove_loop l nodeps s w')))
           = available_pkgs (self w)
        /\ installed_pkgs (self (snd (remove_loop l nodeps s w')))
           = fold_left (fun d n => del n d) removed (installed_pkgs (self w))).
    { intros s w' Hw'. destruct (IH s w') as (removed & Hsub & H1 & H2 & H3 & H4).
      rewrite Hw' in *. exists removed. split; [apply sublist_cons, Hsub|]. auto. }
    rewrite remove_loop_cons.
    destruct (negb (contains n (installed_pkgs (self w)))) eqn:Hc;
      [apply Hskip; reflexivity|].
    destruct (if negb nodeps then _ else _); [|apply Hskip; reflexivity].
    rewrite _remove_package_spec. cbv zeta.
    apply negb_false_iff in Hc. rewrite Hc.
    assert (Hdel : forall (s : bool) (d : FS) (lines : list string),
      exists removed, sublist removed (n :: l)
        /\ db_path (self (snd (remove_loop l nodeps s
             (printed lines
                {| self := {| db_path := db_path (self w);
                              cache_dir := cache_dir (self w);
                              installed_pkgs := del n (installed_pkgs (self w));
                              available_pkgs := available_pkgs (self w) |};
                   disk := d; stdout := stdout w |})))) = db_path (self w)
        /\ cache_dir (self (snd (remove_loop l nodeps s
             (printed lines
                {| self := {| db_path := db_path (self w);
                              cache_dir := cache_dir (self w);
                              installed_pkgs := del n (installed_pkgs (self w));
                              available_pkgs := available_pkgs (self w) |};
                   disk := d; stdout := stdout w |})))) = cache_dir (self w)
        /\ available_pkgs (self (snd (remove_loop l nodeps s
             (printed lines
                {| self := {| db_path := db_path (self w);
                              cache_dir := cache_dir (self w);
                              installed_pkgs := del n (installed_pkgs (self w));
                              available_pkgs := available_pkgs (self w) |};
                   disk := d; stdout := stdout w |})))) = available_pkgs (self w)
        /\ installed_pkgs (self (snd (remove_loop l nodeps s
             (printed lines
                {| self := {| db_path := db_path (self w);
                              cache_dir := cache_dir (self w);
                              installed_pkgs := del n (installed_pkgs (self w));
                              available_pkgs := available_pkgs (self w) |};
                   disk := d; stdout := stdout w |}))))
           = fold_left (fun d n => del n d) removed (installed_pkgs (self w))).
    { intros s d lines.
      match goal with
      | |- context [remove_loop l nodeps s ?w1] =>
          destruct (IH s w1) as (removed & Hsub & H1 & H2 & H3 & H4)
      end.
      cbn [self printed db_path cache_dir available_pkgs installed_pkgs] in *.
      exists (n :: removed). split; [apply sublist_skip, Hsub|].
      repeat split; assumption. }
    destruct (fs_exists _ _).
    + destruct (fs_rmtree _ _) as [[u|e] d]; [apply Hdel|].
      apply Hskip. reflexivity.
    + apply Hdel.
Qed.

End PkgMoreFacts.

Section InstalledNameFacts.
Import PyStr PyText PyExc PyDict Pathlib Pkg PkgMore.

Lemma split_nonempty c s : split c s <> [].
Proof.
  destruct s as [|c' s']; simpl; [discriminate|].
  destruct (ascii_eqb c' c); [discriminate|].
  destruct (split c s'); discriminate.
Qed.

Lemma split_no_separator c t :
  ~ In c (chars t) -> split c t = [t].
Proof.
  induction t as [|c' t IH]; [reflexivity|].
  change (chars (String c' t)) with (c' :: chars t). intros Hno. simpl.
  destruct (ascii_eqb c' c) eqn:E.
  - apply ascii_eqb_eq in E. subst. contradiction Hno. left. reflexivity.
  - rewrite IH by (intros H; apply Hno; right; exact H). reflexivity.
Qed.

(** Appending text without separator extends the last field. *)
Lemma split_app_no_separator c n t :
  ~ In c (chars t) ->
  split c (n ++ t)
  = (removelast (split c n) ++ [(last_field c n ++ t)%string])%list.
Proof.
  intros Hno. unfold last_field. induction n as [|c' n IH].
  - simpl. apply split_no_separator. exact Hno.
  - change (String c' n ++ t) with (String c' (n ++ t)).
    simpl split. rewrite IH.
    pose proof (split_nonempty c n) as Hne.
    destruct (split c n) as [|g gs]; [contradiction|].
    destruct (ascii_eqb c' c).
    + destruct gs as [|g' gs]; reflexivity.
    + destruct gs as [|g' gs]; reflexivity.
Qed.

Lemma last_filter {A} (P : A -> bool) (l : list A) (x : A) :
  last l = Some x -> P x = true -> last (List.filter P l) = Some x.
Proof.
  induction l as [|a l IH]; [discriminate|].
  destruct l as [|b l].
  - simpl. intros [= ->] ->. reflexivity.
  - intros Hl Hx. specialize (IH Hl Hx).
    change (List.filter P (a :: b :: l))
      with (if P a then a :: List.filter P (b :: l) else List.filter P (b :: l)).
    destruct (P a); [|exact IH].
    destruct (List.filter P (b :: l)) as [|y ys]; [discriminate|].
    exact IH.
Qed.

Lemma last_app_singleton {A} (l : list A) (x : A) : last (l ++ [x]) = Some x.
Proof. apply last_snoc. Qed.


(** The name of the cache file of a requested name. *)
Lemma cache_file_name (cache : Path) (n : string) :
  Pathlib.name (joinpath cache (n ++ "-1.0.0.pkg.tar.zst"))
  = last_field "/" n ++ "-1.0.0.pkg.tar.zst".
Proof.
  assert (Hsplit : split "/" (n ++ "-1.0.0.pkg.tar.zst")
                   = (removelast (split "/" n)
                        ++ [(last_field "/" n ++ "-1.0.0.pkg.tar.zst")%string])%list).
  { apply split_app_no_separator. simpl.
    intros H. repeat (destruct H as [H|H]; [discriminate H|]). exact H. }
  assert (Hlast : last (parts (of_string (n ++ "-1.0.0.pkg.tar.zst")))
                  = Some (last_field "/" n ++ "-1.0.0.pkg.tar.zst")).
  { unfold of_string, parse_parts. cbn [parts]. apply last_filter.
    - rewrite Hsplit. apply last_app_singleton.
    - destruct (last_field "/" n) as [|a r]; [reflexivity|].
      simpl. destruct (Ascii.eqb a "."); [|reflexivity].
      destruct r; reflexivity. }
  unfold Pathlib.name, joinpath.
  destruct (truthy (root (of_string (n ++ "-1.0.0.pkg.tar.zst")))).
  - rewrite Hlast. reflexivity.
  - cbn [parts].
    destruct (parts (of_string (n ++ "-1.0.0.pkg.tar.zst"))) as [|q qs] eqn:Hq;
      [discriminate|].
    rewrite last_app_cons, Hlast. reflexivity.
Qed.

Lemma first_field_cons c c' s :
  first_field c (String c' s)
  = if ascii_eqb c' c then EmptyString else String c' (first_field c s).
Proof.
  unfold first_field. simpl.
  destruct (ascii_eqb c' c); [reflexivity|].
  pose proof (split_nonempty c s) as Hne.
  destruct (split c s) as [|f fs]; [contradiction|reflexivity].
Qed.

Lemma first_field_app c x t :
  first_field c (x ++ String c t) = first_field c x.
Proof.
  induction x as [|c' x IH].
  - change (EmptyString ++ String c t) with (String c t).
    rewrite first_field_cons.
    replace (ascii_eqb c c) with true; [reflexivity|].
    symmetry. apply ascii_eqb_eq. reflexivity.
  - change (String c' x ++ String c t) with (String c' (x ++ String c t)).
    rewrite !first_field_cons, IH. reflexivity.
Qed.

(** [install] registers a requested name under [installed_name]. *)
Lemma name_of_cache_file (cache : Path) (n : string) :
  name_of_file (joinpath cache (n ++ "-1.0.0.pkg.tar.zst")) = installed_name n.
Proof.
  unfold name_of_file. rewrite cache_file_name.
  change (default EmptyString (head (split "-" (last_field "/" n ++ "-1.0.0.pkg.tar.zst"))))
    with (first_field "-" (last_field "/" n ++ String "-" "1.0.0.pkg.tar.zst")).
  rewrite first_field_app. reflexivity.
Qed.

Lemma installed_name_plain (n : string) :
  ~ In "/"%char (chars n) -> ~ In "-"%char (chars n) -> installed_name n = n.
Proof.
  intros H1 H2. unfold installed_name.
  rewrite (split_no_separator "/" n H1). simpl.
  rewrite (split_no_separator "-" n H2). reflexivity.
Qed.

End InstalledNameFacts.

Section PkgDictFacts.
Import PyStr PyText PyExc PyDict Pathlib Pkg PkgMore.

Lemma contains_set_ne {V} (k k' : string) (v : V) (d : dict V) :
  k' <> k -> contains k' (set k v d) = contains k' d.
Proof. intros H. unfold contains. rewrite get_set_ne by exact H. reflexivity. Qed.

Lemma contains_set_mono {V} (k k' : string) (v : V) (d : dict V) :
  contains k' d = true -> contains k' (set k v d) = true.
Proof.
  intros H. destruct (String.eqb_spec k' k) as [->|Hne].
  - apply contains_set.
  - rewrite contains_set_ne by exact Hne. exact H.
Qed.

Lemma contains_del_ne {V} (k k' : string) (d : dict V) :
  k' <> k -> contains k' (del k d) = contains k' d.
Proof. intros H. unfold contains. rewrite get_del_ne by exact H. reflexivity. Qed.

Lemma contains_del_false {V} (k n : string) (d : dict V) :
  contains k d = false -> contains k (del n d) = false.
Proof.
  intros H. destruct (String.eqb_spec k n) as [->|Hne].
  - apply contains_del.
  - rewrite contains_del_ne by exact Hne. exact H.
Qed.

Lemma contains_fold_del {V} (k : string) (removed : list string) :
  forall d : dict V,
  contains k d = false ->
  contains k (fold_left (fun d n => del n d) removed d) = false.
Proof.
  induction removed as [|n removed IH]; intros d H; [exact H|].
  simpl. apply IH, contains_del_false, H.
Qed.

Lemma get_fold_del {V} (k : string) (removed : list string) :
  forall d : dict V,
  k ∉ removed ->
  get k (fold_left (fun d n => del n d) removed d) = get k d.
Proof.
  induction removed as [|n removed IH]; intros d H; [reflexivity|].
  simpl. rewrite IH.
  - apply get_del_ne. intros ->. apply H. left.
  - intros Hin. apply H. right. exact Hin.
Qed.

Lemma install_entry_spec (cache : Path) (d : dict Package) (n : string) :
  install_entry cache d n
  = set (installed_name n)
        (package_of_file (joinpath cache (n ++ "-1.0.0.pkg.tar.zst"))) d.
Proof. unfold install_entry. cbv zeta. rewrite name_of_cache_file. reflexivity. Qed.

Lemma get_fold_install_entry (cache : Path) (k : string) (done : list string) :
  forall d : dict Package,
  (forall n, n ∈ done -> installed_name n <> k) ->
  get k (fold_left (install_entry cache) done d) = get k d.
Proof.
  induction done as [|n done IH]; intros d H; [reflexivity|].
  simpl. rewrite IH.
  - rewrite install_entry_spec. apply get_set_ne.
    intros ->. apply (H n); [left|reflexivity].
  - intros n' Hin. apply H. right. exact Hin.
Qed.

Lemma contains_fold_install_entry (cache : Path) (k : string) (done : list string) :
  forall d : dict Package,
  contains k d = true ->
  contains k (fold_left (install_entry cache) done d) = true.
Proof.
  induction done as [|n done IH]; intros d H; [exact H|].
  simpl. apply IH. rewrite install_entry_spec. apply contains_set_mono, H.
Qed.

Lemma keys_are_names_fold_install (cache : Path) (done : list string) :
  forall d : dict Package,
  keys_are_names d -> keys_are_names (fold_left (install_entry cache) done d).
Proof.
  induction done as [|n done IH]; intros d H; [exact H|].
  simpl. apply IH. unfold install_entry. cbv zeta.
  apply Forall_set; [reflexivity|exact H].
Qed.

Lemma keys_are_names_fold_del (removed : list string) :
  forall d : dict Package,
  keys_are_names d -> keys_are_names (fold_left (fun d n => del n d) removed d).
Proof.
  induction removed as [|n removed IH]; intros d H; [exact H|].
  simpl. apply IH, Forall_del, H.
Qed.

End PkgDictFacts.

Section PkgLoopFacts.
Import PyStr PyText PyExc PyDict Pathlib Pkg PkgMore.
Context {fsys : FileSystem}.

Lemma printed_nil (w : World) : printed [] w = w.
Proof. unfold printed. rewrite app_nil_r. destruct w; reflexivity. Qed.

(** The loop of [upgrade] only prints: an installed name is handed to
    [install], which skips it. *)
Lemma upgrade_loop_spec (l : list string) :
  forall w, exists lines, upgrade_loop l w = (Return tt, printed lines w).
Proof.
  induction l as [|n l IH]; intros w.
  - exists []. rewrite printed_nil. reflexivity.
  - simpl upgrade_loop. unfold bind at 1. unfold get_self at 1.
    destruct (contains n (installed_pkgs (self w))) eqn:Hc; cbn [negb].
    + unfold bind at 1. unfold print at 1.
      unfold bind at 1. unfold install, install_loop.
      unfold bind at 1. unfold get_self at 1.
      cbn [printed self installed_pkgs]. rewrite Hc.
      unfold bind at 1. unfold print at 1. unfold ret at 1.
      match goal with
      | |- context [upgrade_loop l ?w1] => destruct (IH w1) as (lines & ->)
      end.
      eexists. rewrite !printed_printed. reflexivity.
    + unfold bind at 1. unfold print at 1.
      match goal with
      | |- context [upgrade_loop l ?w1] => destruct (IH w1) as (lines & ->)
      end.
      eexists. rewrite !printed_printed. reflexivity.
Qed.

Lemma upgrade_spec (package_names : option (list string)) (w : World) :
  exists lines, upgrade package_names w = (Return true, printed lines w).
Proof.
  unfold upgrade, update. unfold bind at 1. unfold get_self at 1.
  unfold bind at 1. unfold bind at 1. unfold print at 1. unfold ret at 1.
  unfold bind at 1.
  match goal with
  | |- context [upgrade_loop ?l ?w1] =>
      destruct (upgrade_loop_spec l w1) as (lines & ->)
  end.
  eexists. unfold ret. rewrite !printed_printed. reflexivity.
Qed.

Lemma _remove_package_true (n : string) (w w1 : World) :
  _remove_package n w = (Return true, w1) ->
  contains n (installed_pkgs (self w1)) = false.
Proof.
  rewrite _remove_package_spec. cbv zeta.
  assert (Hforget : forall d : FS,
    contains n (installed_pkgs (self
      {| self :=
           if contains n (installed_pkgs (self w))
           then {| db_path := db_path (self w); cache_dir := cache_dir (self w);
                   installed_pkgs := del n (installed_pkgs (self w));
                   available_pkgs := available_pkgs (self w) |}
           else self w;
         disk := d; stdout := stdout w |})) = false).
  { intros d. cbn [self].
    destruct (contains n (installed_pkgs (self w))) eqn:Hc;
      [apply contains_del|exact Hc]. }
  destruct (fs_exists _ _).
  - destruct (fs_rmtree _ _) as [[u|e] d]; intros [= <-]. apply Hforget.
  - intros [= <-]. apply Hforget.
Qed.

Lemma remove_loop_false (l : list string) (nodeps : bool) (w w' : World) :
  remove_loop l nodeps false w <> (Return true, w').
Proof.
  rewrite remove_loop_flag.
  destruct (remove_loop l nodeps true w) as [[b|e] w1]; discriminate.
Qed.

(** A request to remove that returns [True] leaves none of its names. *)
Lemma remove_loop_true (l : list string) (nodeps : bool) :
  forall w w',
  remove_loop l nodeps true w = (Return true, w') ->
  forall n, n ∈ l -> contains n (installed_pkgs (self w')) = false.
Proof.
  induction l as [|n0 l IH]; intros w w' H n Hin.
  - inversion Hin.
  - assert (Hnext : forall w1 : World,
      contains n0 (installed_pkgs (self w1)) = false ->
      remove_loop l nodeps true w1 = (Return true, w') ->
      contains n (installed_pkgs (self w')) = false).
    { intros w1 Hgone Hrest. apply elem_of_cons in Hin as [->|Hin].
      - destruct (remove_loop_summary l nodeps true w1)
          as (removed & _ & _ & _ & _ & Heq).
        rewrite Hrest in Heq. cbn [snd] in Heq. rewrite Heq.
        apply contains_fold_del, Hgone.
      - apply (IH w1 w' Hrest n Hin). }
    rewrite remove_loop_cons in H.
    destruct (negb (contains n0 (installed_pkgs (self w)))) eqn:Hc.
    + apply negb_true_iff in Hc. refine (Hnext _ _ H). exact Hc.
    + destruct (if negb nodeps then _ else _).
      * destruct (_remove_package n0 w) as [[[|]|e] w1] eqn:Hrm.
        -- apply _remove_package_true in Hrm. refine (Hnext _ _ H). exact Hrm.
        -- contradiction (remove_loop_false _ _ _ _ H).
        -- discriminate H.
      * contradiction (remove_loop_false _ _ _ _ H).
Qed.

Lemma load_loop_keys_are_names (descs : list (Path * result string)) :
  forall w : World,
  keys_are_names (installed_pkgs (self w)) ->
  keys_are_names (installed_pkgs (self (snd (load_loop descs w)))).
Proof.
  induction descs as [|[f read] descs IH]; intros w H; [exact H|].
  simpl load_loop. unfold _parse_package_file.
  destruct read as [content|e]; unfold_m.
  - destruct (parse_package_text content) as [p|]; unfold_m.
    + apply IH. cbn [self installed_pkgs]. apply Forall_set; [reflexivity|exact H].
    + apply IH. exact H.
  - apply IH. exact H.
Qed.

End PkgLoopFacts.

(** ** The package manager beyond single requests *)

Section PkgMoreProperties.
Import PyStr PyText PyExc PyDict Pathlib Pkg PkgMore.
Context {fsys : FileSystem}.

(** X17: [upgrade] upgrades nothing.  Whatever names it is given, or none,
    it returns [True] without raising and changes nothing but the console:
    the manager and the disk are as before; the command-line handler ends
    with status 0. *)
Theorem upgrade_only_prints (package_names : option (list string)) (w : World) :
  (exists lines, upgrade package_names w = (Return true, printed lines w))
  /\ (forall packages,
        exists lines, cli_upgrade packages w = (Return 0%Z, printed lines w)).
Proof.
  split; [apply upgrade_spec|].
  intros packages. unfold cli_upgrade. unfold bind.
  destruct (upgrade_spec (Some packages) w) as (lines & ->).
  exists lines. reflexivity.
Qed.


(** X19: [remove] never raises, and when it returns [True] none of the
    requested names is installed any more; the command-line handler ends
    with status 0 exactly in that case. *)
Theorem remove_true_means_removed
    (package_names : list string) (nodeps : bool) (w : World) :
  exists b w',
    remove package_names nodeps w = (Return b, w')
    /\ (b = true ->
        forall n, n ∈ package_names -> contains n (installed_pkgs (self w')) = false)
    /\ (package_names <> [] ->
        cli_remove package_names nodeps w
        = (Return (if b then 0%Z else 1%Z), w')).
Proof.
  unfold remove.
  destruct (remove_loop_returns package_names nodeps true w) as (b & w' & H).
  exists b, w'. split; [exact H|]. split.
  - intros ->. apply (remove_loop_true _ _ _ _ H).
  - intros Hne. destruct package_names as [|n l]; [contradiction|].
    unfold cli_remove, parse_args, bind, ret, remove. rewrite H. reflexivity.
Qed.

(** X20: in the dictionary of installed packages every key is the name of
    its package: loading the [desc] files keeps this (so it holds after the
    construction of the manager, which starts from the empty dictionary),
    and so do [install], [remove] and [upgrade], however they end. *)
Theorem keys_are_names_is_invariant (w : World)
    (H : keys_are_names (installed_pkgs (self w))) :
  (forall descs, keys_are_names (installed_pkgs (self (snd (load_loop descs w)))))
  /\ (forall l nodeps,
        keys_are_names (installed_pkgs (self (snd (install l nodeps w)))))
  /\ (forall l nodeps,
        keys_are_names (installed_pkgs (self (snd (remove l nodeps w)))))
  /\ (forall names,
        keys_are_names (installed_pkgs (self (snd (upgrade names w))))).
Proof.
  split; [|split; [|split]].
  - intros descs. apply load_loop_keys_are_names, H.
  - intros l nodeps. unfold install.
    destruct (install_loop_summary l true w) as (done & _ & _ & _ & _ & ->).
    apply keys_are_names_fold_install, H.
  - intros l nodeps. unfold remove.
    destruct (remove_loop_summary l nodeps true w) as (removed & _ & _ & _ & _ & ->).
    apply keys_are_names_fold_del, H.
  - intros names. destruct (upgrade_spec names w) as (lines & ->). exact H.
Qed.

(** X21: a request to install one name that is not installed, when it
    returns, registers a package under the text of the requested name
    between its last slash and the first hyphen after it, with version
    1.0.0, no dependency, and itself as the only capability provided; every
    other entry is as before.  The requested name itself is installed
    afterwards exactly when it is equal to that text. *)
Theorem install_registers_installed_name
    (pkg_name : string) (nodeps : bool) (w : World) (b : bool) (w' : World)
    (Hnew : contains pkg_name (installed_pkgs (self w)) = false)
    (Hret : install [pkg_name] nodeps w = (Return b, w')) :
  (exists pkg,
     get (installed_name pkg_name) (installed_pkgs (self w')) = Some pkg
     /\ name pkg = installed_name pkg_name
     /\ version pkg = "1.0.0"
     /\ depends pkg = []
     /\ provides pkg = [installed_name pkg_name]
     /\ conflicts pkg = [])
  /\ (forall k, k <> installed_name pkg_name ->
        get k (installed_pkgs (self w')) = get k (installed_pkgs (self w)))
  /\ contains pkg_name (installed_pkgs (self w'))
     = String.eqb pkg_name (installed_name pkg_name).
Proof.
  pose proof (install_one_spec pkg_name nodeps w) as Hspec. cbv zeta in Hspec.
  rewrite Hret in Hspec. cbn [fst snd] in Hspec.
  destruct Hspec as (_ & _ & Hinst & Htouch).
  rewrite Hnew in Hinst.
  destruct (Htouch Hnew b eq_refl) as (u & Hu). rewrite Hu in Hinst.
  unfold cache_file in Hinst. rewrite name_of_cache_file in Hinst.
  rewrite Hinst. split; [|split].
  - eexists. split; [apply get_set_eq|].
    unfold package_of_file. cbv zeta. rewrite name_of_cache_file.
    repeat split.
  - intros k Hk. apply get_set_ne, Hk.
  - destruct (String.eqb_spec pkg_name (installed_name pkg_name)) as [Heq|Hne].
    + rewrite <- Heq. apply contains_set.
    + rewrite contains_set_ne by exact Hne. exact Hnew.
Qed.

(** X22: requests touch only the entries they name, however they end.
    [install] leaves the entry of every key that is not the registered name
    of a requested name, and drops no entry; [remove] leaves the entry of
    every key that is not requested, and adds no entry; neither changes the
    database path or the cache directory of the manager. *)
Theorem requests_touch_only_named_entries
    (l : list string) (nodeps : bool) (w : World) (k : string) :
  let after_install := self (snd (install l nodeps w)) in
  let after_remove := self (snd (remove l nodeps w)) in
  ((forall n, n ∈ l -> installed_name n <> k) ->
     get k (installed_pkgs after_install) = get k (installed_pkgs (self w)))
  /\ (contains k (installed_pkgs (self w)) = true ->
      contains k (installed_pkgs after_install) = true)
  /\ (k ∉ l ->
      get k (installed_pkgs after_remove) = get k (installed_pkgs (self w)))
  /\ (contains k (installed_pkgs (self w)) = false ->
      contains k (installed_pkgs after_remove) = false)
  /\ db_path after_install = db_path (self w)
  /\ cache_dir after_install = cache_dir (self w)
  /\ db_path after_remove = db_path (self w)
  /\ cache_dir after_remove = cache_dir (self w).
Proof.
  cbv zeta. unfold install, remove.
  destruct (install_loop_summary l true w) as (done & Hdone & Hi1 & Hi2 & _ & Hi).
  destruct (remove_loop_summary l nodeps true w)
    as (removed & Hremoved & Hr1 & Hr2 & _ & Hr).
  rewrite Hi, Hr.
  repeat split; try assumption.
  - intros Hk. apply get_fold_install_entry.
    intros n Hn. apply Hk. eapply elem_of_sublist; eassumption.
  - apply contains_fold_install_entry.
  - intros Hk. apply get_fold_del.
    intros Hin. apply Hk. eapply elem_of_sublist; eassumption.
  - apply contains_fold_del.
Qed.

End PkgMoreProperties.

Section PkgMoreRuns.
Import PyStr PyText PyExc PyDict Pathlib Pkg PkgMore MemFS.

Lemma keys_are_names_is_invariant_witness :
  let w := world sound_fs [package "vim" [] []] [] in
  keys_are_names (installed_pkgs (self w))
  /\ keys_are_names (installed_pkgs (self (snd (install ["nano"; "vim"] false w)))).
Proof.
  cbv zeta.
  assert (H : keys_are_names
                (installed_pkgs (self (world sound_fs [package "vim" [] []] [])))).
  { repeat constructor. }
  split; [exact H|].
  apply (proj1 (proj2 (keys_are_names_is_invariant _ H))).
Defined.

(** Installing [python-requests] registers [python]; the requested name is
    not installed afterwards. *)
Lemma install_registers_installed_name_witness :
  let w := world sound_fs [] [] in
  let r := install ["python-requests"] false w in
  get "python" (installed_pkgs (self (snd r)))
  = Some (package_of_file
            (of_string "/var/cache/syzygia/python-requests-1.0.0.pkg.tar.zst"))
  /\ contains "python-requests" (installed_pkgs (self (snd r))) = false.
Proof.
  cbv zeta.
  destruct (install_registers_installed_name (fsys := sound_fs)
              "python-requests" false (world sound_fs [] [])
              true (snd (install ["python-requests"] false (world sound_fs [] [])))
              eq_refl eq_refl) as (_ & _ & Hc).
  split; [reflexivity|exact Hc].
Defined.

End PkgMoreRuns.

Section ParseFacts.
Import PyStr PyText PyExc PyDict Pathlib Pkg PkgMore.

Lemma string_app_assoc (a b c : string) : (a ++ b) ++ c = a ++ (b ++ c).
Proof.
  induction a as [|x a IH]; [reflexivity|].
  change (String x ((a ++ b) ++ c) = String x (a ++ (b ++ c))).
  rewrite IH. reflexivity.
Qed.

Lemma string_app_nil_r (a : string) : a ++ EmptyString = a.
Proof.
  induction a as [|x a IH]; [reflexivity|].
  change (String x (a ++ EmptyString) = String x a).
  rewrite IH. reflexivity.
Qed.

Lemma chars_app (a b : string) : chars (a ++ b) = (chars a ++ chars b)%list.
Proof.
  unfold chars. induction a as [|x a IH]; [reflexivity|].
  change (x :: list_ascii_of_string (a ++ b)
          = x :: (list_ascii_of_string a ++ list_ascii_of_string b)%list).
  rewrite IH. reflexivity.
Qed.

Lemma existsb_false_not_In {A} (f : A -> bool) (l : list A) (x : A) :
  existsb f l = false -> f x = true -> ~ In x l.
Proof.
  intros Hl Hx Hin.
  assert (H : existsb f l = true) by (apply existsb_exists; eauto).
  congruence.
Qed.

(** The first line of a text is what precedes its first newline. *)
Lemma split_line (a b : string) :
  ~ In newline (chars a) ->
  split newline (a ++ String newline b) = a :: split newline b.
Proof.
  induction a as [|c a IH]; intros Hno.
  - reflexivity.
  - change (String c a ++ String newline b) with (String c (a ++ String newline b)).
    change (chars (String c a)) with (c :: chars a) in Hno.
    simpl split.
    destruct (ascii_eqb c newline) eqn:E.
    + apply ascii_eqb_eq in E. subst. contradiction Hno. left. reflexivity.
    + rewrite IH by (intros H; apply Hno; right; exact H). reflexivity.
Qed.

Lemma split_line_prefix (p a b : string) :
  ~ In newline (chars p) -> ~ In newline (chars a) ->
  split newline (p ++ a ++ String newline b) = (p ++ a) :: split newline b.
Proof.
  intros Hp Ha. rewrite <- string_app_assoc. apply split_line.
  rewrite chars_app. intros H. apply in_app_or in H as [H|H]; contradiction.
Qed.

Lemma rstrip_ws_app (a b : string) :
  b <> EmptyString -> rstrip_ws b = b -> rstrip_ws (a ++ b) = a ++ b.
Proof.
  intros Hb Hr. induction a as [|c a IH]; [exact Hr|].
  change (String c a ++ b) with (String c (a ++ b)).
  simpl rstrip_ws. rewrite IH.
  destruct (a ++ b) eqn:E; [|reflexivity].
  destruct a; [|discriminate E]. contradiction.
Qed.

Lemma lstrip_ws_word (s : string) :
  existsb isspace (chars s) = false -> lstrip_ws s = s.
Proof.
  destruct s as [|c s]; [reflexivity|].
  change (chars (String c s)) with (c :: chars s). simpl.
  intros H. apply orb_false_iff in H as [-> _]. reflexivity.
Qed.

Lemma rstrip_ws_word (s : string) :
  existsb isspace (chars s) = false -> rstrip_ws s = s.
Proof.
  induction s as [|c s IH]; [reflexivity|].
  change (chars (String c s)) with (c :: chars s). simpl.
  intros H. apply orb_false_iff in H as [Hc Hs].
  rewrite (IH Hs), Hc. destruct s; reflexivity.
Qed.

Lemma strip_line (c : ascii) (p b : string) :
  isspace c = false -> b <> EmptyString -> rstrip_ws b = b ->
  strip (String c p ++ b) = String c p ++ b.
Proof.
  intros Hc Hb Hr. unfold strip.
  change (String c p ++ b) with (String c (p ++ b)).
  simpl lstrip_ws. rewrite Hc.
  change (String c (p ++ b)) with (String c p ++ b).
  apply rstrip_ws_app; assumption.
Qed.

Lemma strip_space (s : string) :
  lstrip_ws s = s -> rstrip_ws s = s -> strip (String " " s) = s.
Proof.
  intros Hl Hr. unfold strip.
  change (lstrip_ws (String " " s)) with (lstrip_ws s).
  rewrite Hl. exact Hr.
Qed.

(** [s.split(c, 1)] cuts at the first [c]. *)
Lemma partition_at_app (c : ascii) (a b : string) :
  ~ In c (chars a) -> partition_at c (a ++ String c b) = Some (a, b).
Proof.
  induction a as [|x a IH]; intros Hno.
  - simpl. replace (ascii_eqb c c) with true; [reflexivity|].
    symmetry. apply ascii_eqb_eq. reflexivity.
  - change (String x a ++ String c b) with (String x (a ++ String c b)).
    change (chars (String x a)) with (x :: chars a) in Hno.
    simpl partition_at.
    destruct (ascii_eqb x c) eqn:E.
    + apply ascii_eqb_eq in E. subst. contradiction Hno. left. reflexivity.
    + rewrite IH by (intros H; apply Hno; right; exact H). reflexivity.
Qed.

Lemma startswith_hash (k0 : ascii) (s : string) :
  k0 <> "#"%char -> startswith "#" (String k0 s) = false.
Proof.
  intros Hk0. unfold startswith.
  change (String.prefix "#" (String k0 s))
    with (if ascii_dec "#" k0 then String.prefix EmptyString s else false).
  destruct (ascii_dec "#" k0) as [E|_]; [congruence|reflexivity].
Qed.

(** A line [key: value] sets the field [key], in lower case and stripped,
    to the stripped value. *)
Lemma parse_fields_field (line : string) (k0 : ascii) (key v : string)
    (rest : list string) (d : dict string) :
  strip line = String k0 key ++ String ":" v ->
  k0 <> "#"%char ->
  ~ In ":"%char (chars (String k0 key)) ->
  parse_fields (line :: rest) d
  = parse_fields rest (set (lower (strip (String k0 key))) (strip v) d).
Proof.
  intros Hline Hk0 Hkey. simpl parse_fields. rewrite Hline.
  rewrite (partition_at_app ":" (String k0 key) v Hkey).
  change (String k0 key ++ String ":" v) with (String k0 (key ++ String ":" v)).
  rewrite startswith_hash by exact Hk0. reflexivity.
Qed.

Lemma string_of_list_ascii_snoc (l : list ascii) (c : ascii) (s : string) :
  string_of_list_ascii (l ++ [c]) ++ s = string_of_list_ascii l ++ String c s.
Proof.
  induction l as [|x l IH]; [reflexivity|].
  change (String x (string_of_list_ascii (l ++ [c]) ++ s)
          = String x (string_of_list_ascii l ++ String c s)).
  rewrite IH. reflexivity.
Qed.

Lemma words_from_word (s : string) :
  forall word : list ascii,
  existsb isspace (chars s) = false ->
  (word <> [] \/ s <> EmptyString) ->
  words_from word s = [string_of_list_ascii (rev word) ++ s].
Proof.
  induction s as [|c s IH]; intros word Hs Hne.
  - simpl. rewrite string_app_nil_r.
    destruct word; [|reflexivity]. destruct Hne; contradiction.
  - change (chars (String c s)) with (c :: chars s) in Hs. simpl in Hs.
    apply orb_false_iff in Hs as [Hc Hs].
    simpl words_from. rewrite Hc.
    rewrite (IH (c :: word) Hs) by (left; discriminate).
    simpl rev. rewrite string_of_list_ascii_snoc. reflexivity.
Qed.

(** [s.split()] of a word is the word. *)
Lemma split_ws_word (s : string) :
  s <> EmptyString -> existsb isspace (chars s) = false -> split_ws s = [s].
Proof.
  intros Hne Hs. unfold split_ws.
  rewrite words_from_word by (auto). reflexivity.
Qed.

Lemma word_no_newline (s : string) :
  existsb isspace (chars s) = false -> ~ In newline (chars s).
Proof. intros H. apply (existsb_false_not_In isspace _ _ H). reflexivity. Qed.

Lemma no_line_break_no_newline (s : string) :
  existsb is_line_break (chars s) = false -> ~ In newline (chars s).
Proof. intros H. apply (existsb_false_not_In is_line_break _ _ H). reflexivity. Qed.

(** The lines of the [desc] file that [_install_package] writes. *)
Lemma desc_text_lines (n f : string) :
  ~ In newline (chars n) -> ~ In newline (chars f) ->
  split newline (desc_text n f)
  = ["name: " ++ n; "version: 1.0.0"; "description: Installed from " ++ f;
     "depends: "; "provides: " ++ n; "conflicts: "; EmptyString].
Proof.
  intros Hn Hf. unfold desc_text.
  assert (Hconst : forall p : string,
            existsb is_line_break (chars p) = false -> ~ In newline (chars p))
    by apply no_line_break_no_newline.
  rewrite (split_line_prefix "name: " n) by (auto).
  rewrite (split_line "version: 1.0.0") by (auto).
  rewrite (split_line_prefix "description: Installed from " f) by (auto).
  rewrite (split_line "depends: ") by (auto).
  rewrite (split_line_prefix "provides: " n) by (auto).
  rewrite (split_line "conflicts: ") by (auto).
  reflexivity.
Qed.

(** The fields read back from the [desc] file of a package whose name is a
    word and whose file path has no line break and ends in no blank. *)
Lemma desc_text_fields (n f : string) :
  n <> EmptyString -> existsb isspace (chars n) = false ->
  f <> EmptyString -> existsb is_line_break (chars f) = false ->
  rstrip_ws f = f ->
  parse_fields (split newline (desc_text n f)) []
  = [("name", n); ("version", "1.0.0"); ("description", "Installed from " ++ f);
     ("depends", EmptyString); ("provides", n); ("conflicts", EmptyString)].
Proof.
  intros Hn Hws Hf Hbr Hend.
  assert (Hrn : rstrip_ws n = n) by (apply rstrip_ws_word, Hws).
  assert (Hln : lstrip_ws n = n) by (apply lstrip_ws_word, Hws).
  assert (Hcolon : forall key : string,
            existsb (ascii_eqb ":") (chars key) = false -> ~ In ":"%char (chars key)).
  { intros key H. apply (existsb_false_not_In _ _ _ H).
    apply ascii_eqb_eq. reflexivity. }
  rewrite desc_text_lines
    by (auto using word_no_newline, no_line_break_no_newline).
  rewrite (parse_fields_field _ "n" "ame" (String " " n));
    [|exact (strip_line "n" "ame: " n eq_refl Hn Hrn)
     |discriminate|apply Hcolon; reflexivity].
  rewrite (parse_fields_field _ "v" "ersion" " 1.0.0");
    [|reflexivity|discriminate|apply Hcolon; reflexivity].
  rewrite (parse_fields_field _ "d" "escription" (String " " ("Installed from " ++ f)));
    [|exact (strip_line "d" "escription: Installed from " f eq_refl Hf Hend)
     |discriminate|apply Hcolon; reflexivity].
  rewrite (parse_fields_field _ "d" "epends" EmptyString);
    [|reflexivity|discriminate|apply Hcolon; reflexivity].
  rewrite (parse_fields_field _ "p" "rovides" (String " " n));
    [|exact (strip_line "p" "rovides: " n eq_refl Hn Hrn)
     |discriminate|apply Hcolon; reflexivity].
  rewrite (parse_fields_field _ "c" "onflicts" EmptyString);
    [|reflexivity|discriminate|apply Hcolon; reflexivity].
  rewrite (strip_space n Hln Hrn).
  rewrite (strip_space ("Installed from " ++ f) eq_refl
             (rstrip_ws_app "Installed from " f Hf Hend)).
  reflexivity.
Qed.

(** Text without carriage return is read as it is. *)
Lemma newlines_from_no_cr (s : string) :
  ~ In carriage_return (chars s) -> newlines_from false s = s.
Proof.
  induction s as [|c s IH]; [reflexivity|].
  change (chars (String c s)) with (c :: chars s). intros Hno.
  simpl newlines_from.
  destruct (ascii_eqb c carriage_return) eqn:E.
  - apply ascii_eqb_eq in E. subst c. contradiction Hno. left. reflexivity.
  - rewrite andb_false_r, IH by (intros H; apply Hno; right; exact H).
    reflexivity.
Qed.

Lemma no_line_break_no_cr (s : string) :
  existsb is_line_break (chars s) = false -> ~ In carriage_return (chars s).
Proof. intros H. apply (existsb_false_not_In is_line_break _ _ H). reflexivity. Qed.

Lemma chars_cons (c : ascii) (s : string) : chars (String c s) = c :: chars s.
Proof. reflexivity. Qed.

Lemma word_no_line_break (s : string) :
  existsb isspace (chars s) = false -> existsb is_line_break (chars s) = false.
Proof.
  induction s as [|c s IH]; [reflexivity|].
  rewrite chars_cons. simpl. intros H. apply orb_false_iff in H as [Hc Hs].
  rewrite (IH Hs), orb_false_r.
  unfold is_line_break.
  destruct (ascii_eqb c newline) eqn:E1;
    [apply ascii_eqb_eq in E1; subst c; discriminate Hc|].
  destruct (ascii_eqb c carriage_return) eqn:E2;
    [apply ascii_eqb_eq in E2; subst c; discriminate Hc|].
  reflexivity.
Qed.

(** The [desc] file is read back as it was written when the name and the
    path have no carriage return. *)
Lemma desc_text_read_back (n f : string) :
  existsb is_line_break (chars n) = false ->
  existsb is_line_break (chars f) = false ->
  universal_newlines (desc_text n f) = desc_text n f.
Proof.
  intros Hn Hf. apply newlines_from_no_cr.
  apply no_line_break_no_cr in Hn, Hf.
  unfold desc_text. repeat (rewrite chars_app || rewrite chars_cons).
  change (chars EmptyString) with (@nil ascii).
  intros H. repeat (apply in_app_or in H as [H|H] || destruct H as [H|H]);
    try discriminate H; try contradiction.
Qed.

End ParseFacts.

Section SearchFacts.
Import PyStr PyText PyExc PyDict Pathlib Pkg PkgMore.

Lemma startswith_refl (s : string) : startswith s s = true.
Proof.
  unfold startswith. induction s as [|c s IH]; [reflexivity|].
  change (String.prefix (String c s) (String c s))
    with (if ascii_dec c c then String.prefix s s else false).
  destruct (ascii_dec c c); [exact IH|contradiction].
Qed.

Lemma is_substring_refl (s : string) : is_substring s s = true.
Proof.
  destruct s as [|c s]; [reflexivity|].
  change (is_substring (String c s) (String c s))
    with (startswith (String c s) (String c s) || is_substring (String c s) s).
  rewrite startswith_refl. reflexivity.
Qed.

(** The empty string occurs in every string. *)
Lemma is_substring_empty (s : string) : is_substring EmptyString s = true.
Proof. destruct s; reflexivity. Qed.

Lemma sublist_filter_bool {A} (f : A -> bool) (l : list A) :
  sublist (List.filter f l) l.
Proof.
  induction l as [|x l IH]; simpl; [constructor|].
  destruct (f x); [apply sublist_skip|apply sublist_cons]; exact IH.
Qed.

Lemma filter_all {A} (f : A -> bool) (l : list A) :
  (forall x, f x = true) -> List.filter f l = l.
Proof.
  intros H. induction l as [|x l IH]; simpl; [reflexivity|].
  rewrite H, IH. reflexivity.
Qed.

Lemma search_returns {fsys : FileSystem} (query : string) (w : World) :
  exists found, search query w = (Return found, w).
Proof. unfold search. unfold_m. eexists. reflexivity. Qed.

End SearchFacts.

Section QueryProperties.
Import PyStr PyText PyExc PyDict Pathlib Pkg PkgMore.
Context {fsys : FileSystem}.

(** X23: the [desc] file that [_install_package] writes for a package file,
    read back in text mode, is parsed by [_parse_package_file] as the
    package that was registered, provided the registered name is a
    non-empty word (no whitespace) and the path of the package file is not
    empty, has no line break and does not end in whitespace, both of ASCII
    characters (the file is written in the encoding of the locale and read
    as UTF-8, which agree on ASCII). *)
Theorem desc_file_parses_back (pkg_file : Path)
    (Hname : name_of_file pkg_file <> EmptyString)
    (Hword : existsb isspace (chars (name_of_file pkg_file)) = false)
    (Hpath : str pkg_file <> EmptyString)
    (Hbreak : existsb is_line_break (chars (str pkg_file)) = false)
    (Hend : rstrip_ws (str pkg_file) = str pkg_file)
    (Hascii : is_ascii (name_of_file pkg_file) && is_ascii (str pkg_file) = true) :
  parse_package_text
    (universal_newlines (desc_text (name_of_file pkg_file) (str pkg_file)))
  = Some (package_of_file pkg_file).
Proof.
  rewrite (desc_text_read_back _ _ (word_no_line_break _ Hword) Hbreak).
  unfold parse_package_text, package_of_file. cbv zeta.
  rewrite desc_text_fields by assumption.
  generalize (split_ws_word _ Hname Hword).
  generalize (name_of_file pkg_file) (str pkg_file). intros n f Hsplit.
  cbn [get String.eqb Ascii.eqb Bool.eqb from_option id].
  rewrite Hsplit. reflexivity.
Qed.

(** X24: [search] changes nothing and never raises; what it returns is a
    selection of the installed packages in the order of the dictionary, all
    of them for the empty query, and it contains every installed package
    whose name is the query up to letter case. *)
Theorem search_selects_installed (query : string) (w : World) :
  exists found,
    search query w = (Return found, w)
    /\ sublist found (values (installed_pkgs (self w)))
    /\ (query = EmptyString -> found = values (installed_pkgs (self w)))
    /\ (forall pkg, pkg ∈ values (installed_pkgs (self w)) ->
          lower (name pkg) = lower query -> pkg ∈ found).
Proof.
  unfold search. unfold_m. eexists. split; [reflexivity|]. split; [|split].
  - apply sublist_filter_bool.
  - intros ->. apply filter_all. intros pkg.
    change (lower EmptyString) with EmptyString.
    rewrite is_substring_empty. reflexivity.
  - intros pkg Hin Hname. apply list_elem_of_In, filter_In.
    split; [apply list_elem_of_In, Hin|].
    rewrite <- Hname, is_substring_refl. reflexivity.
Qed.

(** X25: the [search] and [list] commands only print: the manager and the
    disk are as before.  [list] always ends with status 0; [search] ends
    with status 0 when some installed package matches the query and with
    status 1 when none does. *)
Theorem query_commands_only_print (query : string) (w : World) :
  (exists lines, cli_list w = (Return 0%Z, printed lines w))
  /\ (exists lines,
        cli_search query w
        = (Return (match fst (search query w) with
                   | Return (_ :: _) => 0%Z
                   | _ => 1%Z
                   end), printed lines w)).
Proof.
  split.
  - unfold cli_list, list_installed. unfold bind at 1. unfold bind at 1.
    unfold get_self at 1. unfold ret at 1.
    destruct (values (installed_pkgs (self w))) as [|p ps].
    + eexists. reflexivity.
    + unfold bind. rewrite print_all_spec. eexists. reflexivity.
  - unfold cli_search. unfold bind at 1.
    destruct (search_returns query w) as (found & ->).
    cbn [fst]. destruct found as [|p ps].
    + eexists. reflexivity.
    + unfold bind. rewrite print_all_spec. eexists. reflexivity.
Qed.

End QueryProperties.

Section QueryRuns.
Import PyStr PyText PyExc PyDict Pathlib Pkg PkgMore.

Lemma desc_file_parses_back_witness :
  let pkg_file := of_string "/var/cache/syzygia/vim-1.0.0.pkg.tar.zst" in
  parse_package_text
    (universal_newlines (desc_text (name_of_file pkg_file) (str pkg_file)))
  = Some (package_of_file pkg_file).
Proof.
  cbv zeta. apply desc_file_parses_back; vm_compute; try reflexivity; discriminate.
Defined.

End QueryRuns.

(** ** The mirror list of the configuration *)

Section NewlineFacts.
Import PyStr PyText.

Lemma newlines_from_start (st : bool) (c : ascii) (b : string) :
  ascii_eqb c newline = false ->
  newlines_from st (String c b) = newlines_from false (String c b).
Proof. intros Hc. simpl. rewrite Hc. reflexivity. Qed.

(** Reading two texts one after the other, when the second does not start
    with a newline. *)
Lemma newlines_from_app (a : string) (c : ascii) (b : string) :
  ascii_eqb c newline = false ->
  forall st,
  newlines_from st (a ++ String c b)
  = newlines_from st a ++ newlines_from false (String c b).
Proof.
  intros Hc. induction a as [|x a IH]; intros st.
  - apply newlines_from_start, Hc.
  - change (String x a ++ String c b) with (String x (a ++ String c b)).
    simpl newlines_from at 1 2.
    destruct (ascii_eqb x carriage_return).
    + rewrite IH. reflexivity.
    + destruct (ascii_eqb x newline && st); rewrite IH; reflexivity.
Qed.

Lemma newlines_from_nonempty (c : ascii) (s : string) :
  newlines_from false (String c s) <> EmptyString.
Proof.
  simpl. rewrite andb_false_r.
  destruct (ascii_eqb c carriage_return); discriminate.
Qed.

(** A text that ends its last line is read as one that ends in a newline,
    or as nothing. *)
Lemma newlines_from_ends (s : string) :
  forall c0,
  is_line_break (last_char c0 s) = true ->
  (exists init, newlines_from false (String c0 s) = init ++ String newline EmptyString)
  /\ (newlines_from true (String c0 s) = EmptyString
      \/ exists init,
           newlines_from true (String c0 s) = init ++ String newline EmptyString).
Proof.
  induction s as [|c s IH]; intros c0 Hlast.
  - simpl in Hlast. unfold is_line_break in Hlast. simpl newlines_from.
    destruct (ascii_eqb c0 carriage_return).
    + split; [|right]; exists EmptyString; reflexivity.
    + rewrite orb_false_r in Hlast. rewrite Hlast. simpl.
      apply ascii_eqb_eq in Hlast. subst c0.
      split; [exists EmptyString; reflexivity|left; reflexivity].
  - change (last_char c0 (String c s)) with (last_char c s) in Hlast.
    destruct (IH c Hlast) as [(i0 & H0) [H1|(i1 & H1)]].
    + (* after a carriage return the rest reads as nothing *)
      assert (Hfalse : forall x, exists init,
                String x (newlines_from false (String c s))
                = init ++ String newline EmptyString).
      { intros x. rewrite H0. exists (String x i0). reflexivity. }
      change (newlines_from false (String c0 (String c s)))
        with (if ascii_eqb c0 carriage_return
              then String newline (newlines_from true (String c s))
              else if ascii_eqb c0 newline && false
                   then newlines_from false (String c s)
                   else String c0 (newlines_from false (String c s))).
      change (newlines_from true (String c0 (String c s)))
        with (if ascii_eqb c0 carriage_return
              then String newline (newlines_from true (String c s))
              else if ascii_eqb c0 newline && true
                   then newlines_from false (String c s)
                   else String c0 (newlines_from false (String c s))).
      rewrite H1, andb_false_r, andb_true_r.
      destruct (ascii_eqb c0 carriage_return).
      * split; [|right]; exists EmptyString; reflexivity.
      * split; [apply Hfalse|].
        destruct (ascii_eqb c0 newline); right; [exists i0; exact H0|apply Hfalse].
    + assert (Hfalse : forall x, exists init,
                String x (newlines_from false (String c s))
                = init ++ String newline EmptyString).
      { intros x. rewrite H0. exists (String x i0). reflexivity. }
      assert (Htrue : forall x, exists init,
                String x (newlines_from true (String c s))
                = init ++ String newline EmptyString).
      { intros x. rewrite H1. exists (String x i1). reflexivity. }
      change (newlines_from false (String c0 (String c s)))
        with (if ascii_eqb c0 carriage_return
              then String newline (newlines_from true (String c s))
              else if ascii_eqb c0 newline && false
                   then newlines_from false (String c s)
                   else String c0 (newlines_from false (String c s))).
      change (newlines_from true (String c0 (String c s)))
        with (if ascii_eqb c0 carriage_return
              then String newline (newlines_from true (String c s))
              else if ascii_eqb c0 newline && true
                   then newlines_from false (String c s)
                   else String c0 (newlines_from false (String c s))).
      rewrite andb_false_r, andb_true_r.
      destruct (ascii_eqb c0 carriage_return).
      * split; [|right]; apply Htrue.
      * split; [apply Hfalse|].
        destruct (ascii_eqb c0 newline); right; [exists i0; exact H0|apply Hfalse].
Qed.

Lemma universal_newlines_ends (content : string) :
  Config.ends_lines content = true ->
  universal_newlines content = EmptyString
  \/ exists init, universal_newlines content = init ++ String newline EmptyString.
Proof.
  destruct content as [|c0 s]; [left; reflexivity|].
  intros H. right. apply (newlines_from_ends s c0 H).
Qed.

End NewlineFacts.

Section ConfigFacts.
Import PyStr PyText Config.

(** Splitting at a separator splits both sides of it. *)
Lemma split_app_sep (c : ascii) (a b : string) :
  split c (a ++ String c b) = (split c a ++ split c b)%list.
Proof.
  induction a as [|x a IH].
  - change (EmptyString ++ String c b) with (String c b). simpl split.
    replace (ascii_eqb c c) with true; [reflexivity|].
    symmetry. apply ascii_eqb_eq. reflexivity.
  - change (String x a ++ String c b) with (String x (a ++ String c b)).
    simpl split. rewrite IH.
    pose proof (split_nonempty c a) as Hne.
    destruct (split c a) as [|g gs]; [contradiction|].
    destruct (ascii_eqb x c); reflexivity.
Qed.

Lemma no_line_break_split (s : string) :
  existsb is_line_break (chars s) = false -> split newline s = [s].
Proof. intros H. apply split_no_separator, no_line_break_no_newline, H. Qed.

(** The lines of a text that ends its last line, and of the same text with
    one more line. *)
Lemma split_text_append (t line : string) :
  t = EmptyString \/ (exists init, t = init ++ String newline EmptyString) ->
  existsb is_line_break (chars line) = false ->
  exists front,
    split newline t = (front ++ [EmptyString])%list
    /\ split newline (t ++ line ++ String newline EmptyString)
       = (front ++ [line; EmptyString])%list.
Proof.
  intros Ht Hl.
  assert (Hline : split newline (line ++ String newline EmptyString)
                  = [line; EmptyString]).
  { rewrite split_app_sep, (no_line_break_split line Hl). reflexivity. }
  destruct Ht as [->|(init & ->)].
  - exists []. split; [reflexivity|exact Hline].
  - exists (split newline init). split; [apply split_app_sep|].
    rewrite string_app_assoc.
    change (String newline EmptyString ++ line ++ String newline EmptyString)
      with (String newline (line ++ String newline EmptyString)).
    rewrite split_app_sep, Hline. reflexivity.
Qed.

(** The lines read from a file that ends its last line, before and after
    one line is appended to it. *)
Lemma read_lines_append (content line : string) :
  ends_lines content = true ->
  line <> EmptyString ->
  existsb is_line_break (chars line) = false ->
  exists front,
    read_lines content = (front ++ [EmptyString])%list
    /\ read_lines (content ++ line ++ String newline EmptyString)
       = (front ++ [line; EmptyString])%list.
Proof.
  intros Hc Hne Hl. unfold read_lines, universal_newlines.
  assert (Hread : newlines_from false (content ++ line ++ String newline EmptyString)
                  = newlines_from false content ++ line ++ String newline EmptyString).
  { destruct line as [|c l]; [contradiction|].
    assert (Hc0 : ascii_eqb c newline = false).
    { change (chars (String c l)) with (c :: chars l) in Hl. simpl in Hl.
      apply orb_false_iff in Hl as [Hc0 _]. unfold is_line_break in Hc0.
      apply orb_false_iff in Hc0 as [Hc0 _]. exact Hc0. }
    change (String c l ++ String newline EmptyString)
      with (String c (l ++ String newline EmptyString)).
    rewrite (newlines_from_app content c _ Hc0 false).
    rewrite (newlines_from_no_cr (String c (l ++ String newline EmptyString)));
      [reflexivity|].
    change (String c (l ++ String newline EmptyString))
      with (String c l ++ String newline EmptyString).
    rewrite chars_app. intros H. apply in_app_or in H as [H|H].
    - exact (no_line_break_no_cr _ Hl H).
    - simpl in H. destruct H as [H|[]]. discriminate H. }
  rewrite Hread.
  apply split_text_append; [|exact Hl].
  apply (universal_newlines_ends content Hc).
Qed.


(** What appending a line adds to the mirrors read from a file that ends its
    last line. *)
Lemma read_mirrors_append (content line : string) :
  ends_lines content = true ->
  line <> EmptyString ->
  existsb is_line_break (chars line) = false ->
  read_mirrors (content ++ line ++ String newline EmptyString)
  = (read_mirrors content ++ List.filter is_entry [strip line])%list.
Proof.
  intros Hc Hne Hl. unfold read_mirrors.
  destruct (read_lines_append content line Hc Hne Hl) as (front & -> & ->).
  rewrite !map_app, !List.filter_app.
  assert (H1 : List.filter is_entry (map strip [line; EmptyString])
               = List.filter is_entry [strip line]).
  { cbn [map List.filter]. change (is_entry (strip EmptyString)) with false.
    reflexivity. }
  assert (H2 : List.filter is_entry (map strip [EmptyString]) = []) by reflexivity.
  rewrite H1, H2, app_nil_r. reflexivity.
Qed.

Lemma clean_inv (mirror_url : string) :
  clean mirror_url = true ->
  truthy mirror_url = true /\ strip mirror_url = mirror_url
  /\ existsb is_line_break (chars mirror_url) = false
  /\ startswith "#" mirror_url = false.
Proof.
  unfold clean. intros H.
  apply andb_true_iff in H as [H H4]. apply andb_true_iff in H as [H H3].
  apply andb_true_iff in H as [H1 H2].
  apply String.eqb_eq in H2. apply negb_true_iff in H3, H4. auto.
Qed.

Lemma kept_mirrors_append (content mirror_url : string) :
  ends_lines content = true -> clean mirror_url = true ->
  kept_mirrors (content ++ mirror_url ++ String newline EmptyString)
  = (kept_mirrors content ++ [mirror_url])%list.
Proof.
  intros Hc Hu. apply clean_inv in Hu as (H1 & H2 & H3 & H4).
  assert (Hne : mirror_url <> EmptyString) by (intros ->; discriminate H1).
  unfold kept_mirrors.
  destruct (read_lines_append content mirror_url Hc Hne H3) as (front & -> & ->).
  rewrite !List.filter_app, !map_app.
  assert (Hu : map strip
                 (List.filter
                    (fun line => truthy (strip line) && negb (startswith "#" line))
                    [mirror_url; EmptyString]) = [mirror_url]).
  { cbn [List.filter]. rewrite H2, H1, H4.
    change (truthy (strip EmptyString)) with false.
    cbn [andb negb map]. rewrite H2. reflexivity. }
  assert (He : map strip
                 (List.filter
                    (fun line => truthy (strip line) && negb (startswith "#" line))
                    [EmptyString]) = []) by reflexivity.
  rewrite Hu, He, app_nil_r. reflexivity.
Qed.

(** The line breaks of a joined text are those of its parts. *)
Lemma In_chars_join (x : ascii) (sep : string) (l : list string) :
  In x (chars (join sep l)) ->
  In x (chars sep) \/ exists m, In m l /\ In x (chars m).
Proof.
  induction l as [|m l IH]; [intros []|].
  destruct l as [|m' l].
  - intros H. right. exists m. split; [left; reflexivity|exact H].
  - change (join sep (m :: m' :: l)) with (m ++ sep ++ join sep (m' :: l)).
    rewrite !chars_app. intros H.
    apply in_app_or in H as [H|H];
      [right; exists m; split; [left; reflexivity|exact H]|].
    apply in_app_or in H as [H|H]; [left; exact H|].
    destruct (IH H) as [Hs|(m0 & Hm0 & Hx)]; [left; exact Hs|].
    right. exists m0. split; [right; exact Hm0|exact Hx].
Qed.

Lemma clean_file_no_cr (mirrors : list string) :
  forallb clean mirrors = true ->
  ~ In carriage_return
       (chars (join (String newline EmptyString) mirrors ++ String newline EmptyString)).
Proof.
  intros Hclean. rewrite chars_app. intros H.
  apply in_app_or in H as [H|H].
  - apply In_chars_join in H as [H|(m & Hm & Hx)].
    + simpl in H. destruct H as [H|[]]. discriminate H.
    + rewrite forallb_forall in Hclean.
      destruct (clean_inv m (Hclean m Hm)) as (_ & _ & Hbr & _).
      exact (no_line_break_no_cr m Hbr Hx).
  - simpl in H. destruct H as [H|[]]. discriminate H.
Qed.

(** The lines of a file that lists clean mirrors, one per line. *)
Lemma split_join_lines (mirrors : list string) :
  forallb clean mirrors = true ->
  split newline (join (String newline EmptyString) mirrors)
  = match mirrors with [] => [EmptyString] | _ => mirrors end.
Proof.
  induction mirrors as [|m ms IH]; [reflexivity|].
  intros H. apply andb_true_iff in H as [Hm Hms].
  apply clean_inv in Hm as (_ & _ & Hm & _).
  destruct ms as [|m' ms].
  - apply no_line_break_split, Hm.
  - change (join (String newline EmptyString) (m :: m' :: ms))
      with (m ++ String newline (join (String newline EmptyString) (m' :: ms))).
    rewrite split_line by (apply no_line_break_no_newline, Hm).
    rewrite (IH Hms). reflexivity.
Qed.

Lemma read_lines_clean_file (mirrors : list string) :
  forallb clean mirrors = true ->
  read_lines (join (String newline EmptyString) mirrors ++ String newline EmptyString)
  = (match mirrors with [] => [EmptyString] | _ => mirrors end ++ [EmptyString])%list.
Proof.
  intros H. unfold read_lines, universal_newlines.
  rewrite (newlines_from_no_cr _ (clean_file_no_cr mirrors H)).
  rewrite split_app_sep, (split_join_lines mirrors H). reflexivity.
Qed.

Lemma kept_lines_clean (mirrors : list string) :
  forallb clean mirrors = true ->
  map strip
      (List.filter (fun line => truthy (strip line) && negb (startswith "#" line))
                   mirrors)
  = mirrors.
Proof.
  induction mirrors as [|m ms IH]; [reflexivity|].
  intros H. apply andb_true_iff in H as [Hm Hms].
  apply clean_inv in Hm as (H1 & H2 & _ & H4).
  simpl. rewrite H2, H1, H4. simpl. rewrite H2, (IH Hms). reflexivity.
Qed.

Lemma read_entries_clean (mirrors : list string) :
  forallb clean mirrors = true ->
  List.filter is_entry (map strip mirrors) = mirrors.
Proof.
  induction mirrors as [|m ms IH]; [reflexivity|].
  intros H. apply andb_true_iff in H as [Hm Hms].
  apply clean_inv in Hm as (H1 & H2 & _ & H4).
  simpl. rewrite H2. unfold is_entry at 1. rewrite H1, H4. simpl.
  rewrite (IH Hms). reflexivity.
Qed.

(** What is read from a file that lists clean mirrors, one per line. *)
Lemma clean_file_mirrors (mirrors : list string) :
  forallb clean mirrors = true ->
  kept_mirrors (join (String newline EmptyString) mirrors ++ String newline EmptyString)
  = mirrors
  /\ read_mirrors (join (String newline EmptyString) mirrors ++ String newline EmptyString)
     = mirrors.
Proof.
  intros H. unfold kept_mirrors, read_mirrors.
  rewrite (read_lines_clean_file mirrors H).
  rewrite List.filter_app, !map_app, List.filter_app.
  assert (He : map strip
                 (List.filter
                    (fun line => truthy (strip line) && negb (startswith "#" line))
                    [EmptyString]) = []) by reflexivity.
  assert (Hr : List.filter is_entry (map strip [EmptyString]) = []) by reflexivity.
  rewrite He, Hr, !app_nil_r.
  destruct mirrors as [|m ms]; [split; reflexivity|].
  split; [apply kept_lines_clean, H|apply read_entries_clean, H].
Qed.

Lemma last_char_app (s : string) (c : ascii) :
  forall c0, last_char c0 (s ++ String c EmptyString) = c.
Proof.
  induction s as [|x s IH]; intros c0; [reflexivity|].
  change (String x s ++ String c EmptyString) with (String x (s ++ String c EmptyString)).
  simpl last_char. apply IH.
Qed.

Lemma ends_lines_app_newline (s : string) :
  ends_lines (s ++ String newline EmptyString) = true.
Proof.
  destruct s as [|c0 s]; [reflexivity|].
  change (String c0 s ++ String newline EmptyString)
    with (String c0 (s ++ String newline EmptyString)).
  unfold ends_lines. rewrite last_char_app. reflexivity.
Qed.

Lemma list_remove_last (x : string) (l : list string) :
  existsb (String.eqb x) l = false -> list_remove x (l ++ [x]) = l.
Proof.
  induction l as [|y l IH]; simpl.
  - rewrite String.eqb_refl. reflexivity.
  - intros H. apply orb_false_iff in H as [Hy Hl].
    rewrite String.eqb_sym, Hy, (IH Hl). reflexivity.
Qed.



End ConfigFacts.

Section ConfigProperties.
Import PyStr PyText Config.


(** X27: adding a mirror to a list without an unfinished last line (no
    file, an empty file, or a file whose last character is a line break)
    makes it the last mirror read, stripped, after those the file listed:
    the default server is no longer returned.  The mirror has to be a
    single line (no newline, no carriage return) that is neither blank nor
    a comment. *)
Theorem add_mirror_appends_entry
    (mirror_url : string) (mirror_file : option string)
    (Hline : existsb is_line_break (chars mirror_url) = false)
    (Hentry : is_entry (strip mirror_url) = true)
    (Hlines : ends_lines (default EmptyString mirror_file) = true) :
  get_mirrors (add_mirror mirror_url mirror_file)
  = (read_mirrors (default EmptyString mirror_file) ++ [strip mirror_url])%list.
Proof.
  assert (Hne : mirror_url <> EmptyString) by (intros ->; discriminate Hentry).
  unfold get_mirrors, add_mirror. cbv zeta.
  rewrite (read_mirrors_append _ _ Hlines Hne Hline).
  simpl List.filter. rewrite Hentry.
  destruct (read_mirrors (default EmptyString mirror_file)); reflexivity.
Qed.

(** X28: on a file that lists clean mirrors one per line (not empty, no
    whitespace at either end, no line break, not a comment), [get_mirrors]
    returns them (or the default server when there is none), and removing a
    mirror that was just added, and was not listed before, succeeds and
    gives the file back as it was. *)
Theorem remove_mirror_undoes_add_mirror
    (mirror_url : string) (mirrors : list string)
    (Hurl : clean mirror_url = true)
    (Hclean : forallb clean mirrors = true)
    (Hnew : existsb (String.eqb mirror_url) mirrors = false) :
  let mirror_file :=
    Some (join (String newline EmptyString) mirrors ++ String newline EmptyString) in
  get_mirrors mirror_file
  = match mirrors with [] => [default_servers] | _ => mirrors end
  /\ remove_mirror mirror_url (add_mirror mirror_url mirror_file)
     = (true, mirror_file).
Proof.
  cbv zeta.
  destruct (clean_file_mirrors mirrors Hclean) as (Hkept & Hread).
  split.
  - unfold get_mirrors. cbv zeta. rewrite Hread. reflexivity.
  - unfold remove_mirror, add_mirror. cbv zeta.
    cbn [default from_option id].
    rewrite kept_mirrors_append; [|apply ends_lines_app_newline|exact Hurl].
    rewrite Hkept, existsb_app. simpl existsb.
    rewrite String.eqb_refl, orb_true_r.
    rewrite (list_remove_last _ _ Hnew). reflexivity.
Qed.

End ConfigProperties.

Section ConfigRuns.
Import PyStr PyText Config.

(** A file with lines that end in a carriage return and a newline, and a
    mirror given with a no-break space after it. *)
Lemma add_mirror_appends_entry_witness :
  let crlf := String carriage_return (String newline EmptyString) in
  let nbsp := String (ascii_of_N 160) EmptyString in
  get_mirrors
    (add_mirror ("https://b.example/repo" ++ nbsp)
       (Some ("# mirrors" ++ crlf ++ "https://a.example/" ++ crlf)))
  = ["https://a.example/"; "https://b.example/repo"].
Proof.
  cbv zeta.
  apply (add_mirror_appends_entry
           ("https://b.example/repo" ++ String (ascii_of_N 160) EmptyString)
           (Some ("# mirrors" ++ String carriage_return (String newline EmptyString)
                  ++ "https://a.example/"
                  ++ String carriage_return (String newline EmptyString))));
    reflexivity.
Defined.

Lemma remove_mirror_undoes_add_mirror_witness :
  let mirror_file := Some ("https://a.example/" ++ String newline EmptyString) in
  get_mirrors mirror_file = ["https://a.example/"]
  /\ remove_mirror "https://b.example/" (add_mirror "https://b.example/" mirror_file)
     = (true, mirror_file).
Proof.
  apply (remove_mirror_undoes_add_mirror "https://b.example/" ["https://a.example/"]);
    reflexivity.
Defined.

(** A carriage return alone ends a line. *)
Example carriage_return_ends_a_line :
  get_mirrors
    (Some ("https://a.example/" ++ String carriage_return "https://b.example/"))
  = ["https://a.example/"; "https://b.example/"].
Proof. reflexivity. Qed.

(** A mirror that ends in a no-break space is not clean: it is listed
    without it. *)
Example no_break_space_is_stripped :
  let url := "https://a.example/" ++ String (ascii_of_N 160) EmptyString in
  clean url = false
  /\ get_mirrors (add_mirror url None) = ["https://a.example/"].
Proof. split; reflexivity. Qed.

(** A mirror added to a file whose last line is unfinished is joined to
    that line. *)
Example add_mirror_joins_unfinished_line :
  get_mirrors (add_mirror "https://b.example/" (Some "https://a.example/"))
  = ["https://a.example/https://b.example/"].
Proof. reflexivity. Qed.

(** Removing a mirror rewrites the file without its comments and blank
    lines. *)
Example remove_mirror_drops_comments :
  remove_mirror "https://b.example/"
    (Some ("# mirrors" ++ String newline
            ("https://a.example/" ++ String newline
              ("https://b.example/" ++ String newline EmptyString))))
  = (true, Some ("https://a.example/" ++ String newline EmptyString)).
Proof. reflexivity. Qed.

(** Removing the only mirror leaves a file of one empty line, for which
    [get_mirrors] gives the default server. *)
Example remove_last_mirror_gives_default :
  let after := snd (remove_mirror "https://a.example/"
                      (Some ("https://a.example/" ++ String newline EmptyString))) in
  after = Some (String newline EmptyString)
  /\ get_mirrors after = [default_servers].
Proof. split; reflexivity. Qed.

End ConfigRuns.

Section RepositoryMoreProperties.
Import PyStr PyDict Repo.

Lemma update_each_true (rs : list Repo.Repository) :
  forall success, RepositoryManager.update_each rs success = success.
Proof. induction rs as [|r rs IH]; intros success; [reflexivity|apply IH]. Qed.

(** X29: updating and synchronising all repositories always succeeds,
    whatever the repositories; and whatever calls are made on a new manager
    and on its repositories, every registered repository lists no package
    and refuses to remove any. *)
Theorem repositories_stay_empty
    (calls : list RepositoryManager.call) (any : Repo.RepositoryManager) :
  let self := RepositoryManager.run_all calls RepositoryManager.init in
  RepositoryManager.update_all any = true
  /\ RepositoryManager.sync_all any = true
  /\ forall repo_name repo,
       RepositoryManager.get_repo self repo_name = Some repo ->
       Repository.list_packages repo = []
       /\ forall pkg_name, fst (Repository.remove_package repo pkg_name) = false.
Proof.
  cbv zeta. split; [apply update_each_true|]. split; [apply update_each_true|].
  intros repo_name repo Hget.
  assert (Hempty : Forall RepositoryManager.catalog_empty
                          (repos (RepositoryManager.run_all calls RepositoryManager.init))).
  { apply run_all_empty_catalogs. repeat constructor. }
  destruct (get_Forall _ _ _ _ Hempty Hget) as (k & Hk).
  unfold RepositoryManager.catalog_empty in Hk. cbn [snd] in Hk.
  unfold Repository.list_packages, Repository.remove_package. rewrite Hk.
  split; reflexivity.
Qed.

End RepositoryMoreProperties.
